(** * Real-time feedback orchestrator (src/api/feedback)

    A shallow embedding of [feedback_processor.py] (the [FeedbackProcessor]
    class) and of the HTTP and WebSocket handlers of [routes.py], with the
    properties of the session store, the sampling gate, score fusion, the
    trend tracker and the streaming gateway.

    Conventions.
    - Python floats are idealised as exact rationals ([Q]); binary rounding
      is not modelled, so numeric results are stated up to [==] on [Q].
    - A Python dict whose keys are read with [.get(key, default)] or tested
      with [key in d] is a record of [option] fields, one per key the
      orchestrator reads.
    - A function that may raise returns a [result]; a method of the
      processor returns the processor after the call next to its result,
      since a mutation made before a [raise] stays.
    - The feature extractors, the image decoder and the base64 decoder are
      collaborators: the handlers take them as a record of functions.
    - The Redis side channel (setex/publish) is write-only and is left out. *)

From Stdlib Require Import ZArith QArith Qround Qabs Qminmax Lqa Lia.
From stdpp Require Import gmap strings list.

Open Scope Q_scope.

(** ** Exceptions and results *)

Inductive exn : Type :=
| ValueError (msg : string)
| TypeError
| BinasciiError
| KeyError (key : string)
| ZeroDivisionError
| JSONDecodeError
| AttributeError
| CollaboratorError (tag : string).

Inductive result (A : Type) : Type :=
| Ok (a : A)
| Raise (e : exn).
Arguments Ok {A} a.
Arguments Raise {A} e.

(** [f"Session {session_id} not found"] *)
Definition not_found_msg (session_id : string) : string :=
  String.app "Session " (String.app session_id " not found").

Definition NotFound (session_id : string) : exn :=
  ValueError (not_found_msg session_id).

(** ** Numbers *)

Module Py.

(** [max(a, b)]: the first argument unless the second is strictly larger. *)
Definition max (a b : Q) : Q := if Qlt_le_dec a b then b else a.

(** [min(a, b)]: the first argument unless the second is strictly smaller. *)
Definition min (a b : Q) : Q := if Qlt_le_dec b a then b else a.

(** [sum(xs)]: left fold from 0. *)
Definition sum (xs : list Q) : Q := fold_left Qplus xs 0.

(** [round(x, 1)]: to the nearest tenth, ties to the even tenth. *)
Definition round1 (x : Q) : Q :=
  let y := x * 10 in
  let f := Qfloor y in
  let r := y - inject_Z f in
  let n := if Qlt_le_dec r (1 # 2) then f
           else if Qlt_le_dec (1 # 2) r then (f + 1)%Z
           else if Z.even f then f else (f + 1)%Z in
  inject_Z n / 10.

(** [int(x)]: truncation towards zero. *)
Definition int (x : Q) : Z := Z.quot (Qnum x) (Zpos (Qden x)).

(** [l[-n:]] *)
Definition last_n {A} (n : nat) (l : list A) : list A :=
  drop (length l - n) l.

End Py.

(** ** Metric snapshots *)

(** What the analyzers return (dataclasses; every field is there). Only
    the fields the orchestrator reads are kept. *)

Record FillerWord := { fw_word : string; fw_count : Z }.

Record ToneMetrics := {
  tm_pitch_variance : Q;
  tm_pitch_range : Q * Q }.

Record EmotionMetrics := { em_stress_level : Q }.

Record SpeechMetrics := {
  sm_filler_words : list FillerWord;
  sm_articulation_score : Q;
  sm_speaking_rate : Q }.

Record AudioAnalysisResult := {
  ar_tone : ToneMetrics;
  ar_emotion : EmotionMetrics;
  ar_speech : SpeechMetrics }.

Record FacialMetrics := {
  fm_eye_contact : Q;
  fm_smile_genuineness : Q }.

Record BodyMetrics := {
  bm_posture : string;
  bm_energy_level : Q }.

Record ProfessionalPresenceMetrics := { pm_overall_polish : Q }.

Record VisionAnalysisResult := {
  vr_facial : FacialMetrics;
  vr_body : BodyMetrics;
  vr_professional : ProfessionalPresenceMetrics }.

(** The dicts the processor handles: a key may be missing. The keys the
    orchestrator never reads (['timestamp_ms'], ['dialect'], ...) are kept
    by name only, since they still make the dict non-empty. *)

Record ToneDict := {
  pitch_variance : option Q;
  pitch_range : option (Q * Q) }.

Record EmotionDict := { stress_level : option Q }.

Record SpeechDict := {
  filler_words : option (list FillerWord);
  articulation_score : option Q;
  speaking_rate : option Q }.

Record AudioDict := {
  tone : option ToneDict;
  emotion : option EmotionDict;
  speech : option SpeechDict;
  audio_other_keys : list string }.

Record FacialDict := {
  eye_contact : option Q;
  smile_genuineness : option Q }.

Record BodyDict := {
  posture : option string;
  energy_level : option Q }.

Record ProfessionalDict := { overall_polish : option Q }.

Record VisionDict := {
  facial : option FacialDict;
  body : option BodyDict;
  professional : option ProfessionalDict;
  vision_other_keys : list string }.

(** [if d:] on a dict: true when it has a key. *)
Definition audio_truthy (d : AudioDict) : bool :=
  bool_decide (is_Some (tone d)) || bool_decide (is_Some (emotion d))
  || bool_decide (is_Some (speech d)) || negb (bool_decide (audio_other_keys d = [])).

Definition vision_truthy (d : VisionDict) : bool :=
  bool_decide (is_Some (facial d)) || bool_decide (is_Some (body d))
  || bool_decide (is_Some (professional d)) || negb (bool_decide (vision_other_keys d = [])).

(** [AudioAnalyzer.to_dict] *)
Definition audio_to_dict (r : AudioAnalysisResult) : AudioDict :=
  {| tone := Some {| pitch_variance := Some (tm_pitch_variance (ar_tone r));
                     pitch_range := Some (tm_pitch_range (ar_tone r)) |};
     emotion := Some {| stress_level := Some (em_stress_level (ar_emotion r)) |};
     speech := Some {| filler_words := Some (sm_filler_words (ar_speech r));
                       articulation_score := Some (sm_articulation_score (ar_speech r));
                       speaking_rate := Some (sm_speaking_rate (ar_speech r)) |};
     audio_other_keys := ["dialect"; "timestamp_ms"; "processing_time_ms"]%string |}.

(** [VisionAnalyzer.to_dict] *)
Definition vision_to_dict (r : VisionAnalysisResult) : VisionDict :=
  {| facial := Some {| eye_contact := Some (fm_eye_contact (vr_facial r));
                       smile_genuineness := Some (fm_smile_genuineness (vr_facial r)) |};
     body := Some {| posture := Some (bm_posture (vr_body r));
                     energy_level := Some (bm_energy_level (vr_body r)) |};
     professional := Some {| overall_polish := Some (pm_overall_polish (vr_professional r)) |};
     vision_other_keys := ["frame_number"; "timestamp_ms"; "processing_time_ms";
                           "has_face"; "has_body"]%string |}.

(** ** Score fusion: [_calculate_scores] *)

Record Scores := {
  confidence : Q;
  engagement : Q;
  clarity : Q;
  authenticity : Q;
  professionalPresence : Q }.

(** [d.get(key, default)] *)
Definition get_or {A} (o : option A) (d : A) : A := default d o.

(** [audio_metrics and key in audio_metrics], then [audio_metrics[key]] *)
Definition audio_key {A} (key : AudioDict -> option A) (m : option AudioDict) : option A :=
  m ≫= key.

Definition vision_key {A} (key : VisionDict -> option A) (m : option VisionDict) : option A :=
  m ≫= key.

Definition posture_score (p : string) : Q :=
  if String.eqb p "open" then 90 else if String.eqb p "neutral" then 70 else 50.

Definition confidence_components (a : option AudioDict) (v : option VisionDict) : list Q :=
  (match audio_key tone a with
   | Some t =>
       let pitch_variance := get_or (pitch_variance t) 20 in
       let vocal_steadiness := Py.max 0 (100 - pitch_variance * 2) in
       [vocal_steadiness * (4 # 10)]
   | None => []
   end)
  ++ (match vision_key facial v with
      | Some f => [get_or (eye_contact f) 50 * (3 # 10)]
      | None => []
      end)
  ++ (match vision_key body v with
      | Some b => [posture_score (get_or (posture b) "neutral") * (3 # 10)]
      | None => []
      end).

Definition engagement_components (a : option AudioDict) (v : option VisionDict) : list Q :=
  (match vision_key body v with
   | Some b => [get_or (energy_level b) 50 * (1 # 2)]
   | None => []
   end)
  ++ (match audio_key tone a with
      | Some t =>
          let pitch_range := get_or (pitch_range t) (0, 0) in
          let vocal_variety := Py.min ((snd pitch_range - fst pitch_range) / 3) 100 in
          [vocal_variety * (1 # 2)]
      | None => []
      end).

Definition clarity_components (a : option AudioDict) : list Q :=
  match audio_key speech a with
  | Some s =>
      let articulation := get_or (articulation_score s) 70 in
      let speaking_rate := get_or (speaking_rate s) 150 in
      let optimal := 150 in
      let deviation := Qabs (speaking_rate - optimal) in
      let pace_score := Py.max 0 (100 - deviation * 2) in
      [articulation * (1 # 2); pace_score * (1 # 2)]
  | None => []
  end.

(** [scores[key] = sum(components)] when [components] is not empty *)
Definition components_or (components : list Q) (dflt : Q) : Q :=
  match components with
  | [] => dflt
  | _ => Py.sum components
  end.

(** [max(0, min(100, x))] *)
Definition clamp (x : Q) : Q := Py.max 0 (Py.min 100 x).

(** The baseline is passed in and never read. *)
Definition calculate_scores (audio_metrics : option AudioDict)
    (vision_metrics : option VisionDict) (baseline : option (gmap string Q)) : Scores :=
  {| confidence := clamp (components_or (confidence_components audio_metrics vision_metrics) 70);
     engagement := clamp (components_or (engagement_components audio_metrics vision_metrics) 70);
     clarity := clamp (components_or (clarity_components audio_metrics) 70);
     authenticity :=
       clamp (match vision_key facial vision_metrics with
              | Some f => get_or (smile_genuineness f) (1 # 2) * 100
              | None => 70
              end);
     professionalPresence :=
       clamp (match vision_key professional vision_metrics with
              | Some p => get_or (overall_polish p) 70
              | None => 70
              end) |}.

(** ** Suggestions: [_generate_suggestions] *)

Inductive SuggestionText : Type :=
| FillerWordsText (total_fillers : Z)   (* f'You used {total_fillers} filler words' *)
| LowEnergyText                         (* 'Energy level appears low' *)
| TooFastText (wpm : Z)                 (* f'Speaking too fast at {int(speaking_rate)} WPM' *)
| HighStressText.                       (* 'High stress detected in your voice' *)

Record Suggestion := {
  category : string;
  priority : string;
  message : SuggestionText }.

Definition Qltb (a b : Q) : bool := if Qlt_le_dec a b then true else false.

Definition total_fillers (fws : list FillerWord) : Z :=
  fold_left Z.add (map fw_count fws) 0%Z.

Definition generate_suggestions (audio_metrics : option AudioDict)
    (vision_metrics : option VisionDict) (scores : Scores) : list Suggestion :=
  (if Qltb (confidence scores) 60 then
     match audio_key speech audio_metrics with
     | Some s =>
         let total := total_fillers (get_or (filler_words s) []) in
         if (5 <? total)%Z
         then [{| category := "speech"; priority := "high"; message := FillerWordsText total |}]
         else []
     | None => []
     end
   else [])
  ++ (if Qltb (engagement scores) 60 then
        match vision_key body vision_metrics with
        | Some b =>
            if Qltb (get_or (energy_level b) 100) 50
            then [{| category := "body"; priority := "medium"; message := LowEnergyText |}]
            else []
        | None => []
        end
      else [])
  ++ (if Qltb (clarity scores) 60 then
        match audio_key speech audio_metrics with
        | Some s =>
            let rate := get_or (speaking_rate s) 150 in
            if Qltb 180 rate
            then [{| category := "speech"; priority := "high";
                     message := TooFastText (Py.int rate) |}]
            else []
        | None => []
        end
      else [])
  ++ (match audio_key emotion audio_metrics with
      | Some e =>
          if Qltb 70 (get_or (stress_level e) 0)
          then [{| category := "voice"; priority := "high"; message := HighStressText |}]
          else []
      | None => []
      end).

(** ** Sessions and trends *)

Record HistoryEntry := {
  h_timestamp_ms : Z;
  h_scores : Scores }.

Record Session := {
  session_id : string;
  user_id : string;
  session_type : string;
  start_time : Q;
  frame_count : Z;
  audio_chunk_count : Z;
  baseline : option (gmap string Q);
  score_history : list HistoryEntry }.

Definition set_frame_count (s : Session) (n : Z) : Session :=
  {| session_id := session_id s; user_id := user_id s; session_type := session_type s;
     start_time := start_time s; frame_count := n;
     audio_chunk_count := audio_chunk_count s; baseline := baseline s;
     score_history := score_history s |}.

Definition set_audio_chunk_count (s : Session) (n : Z) : Session :=
  {| session_id := session_id s; user_id := user_id s; session_type := session_type s;
     start_time := start_time s; frame_count := frame_count s;
     audio_chunk_count := n; baseline := baseline s;
     score_history := score_history s |}.

Definition set_score_history (s : Session) (h : list HistoryEntry) : Session :=
  {| session_id := session_id s; user_id := user_id s; session_type := session_type s;
     start_time := start_time s; frame_count := frame_count s;
     audio_chunk_count := audio_chunk_count s; baseline := baseline s;
     score_history := h |}.

Record Trends := {
  confidenceDelta : Q;
  engagementDelta : Q;
  clarityDelta : Q }.

(** [sum(h['scores'][key] for h in recent) / len(recent)] *)
Definition average (key : Scores -> Q) (entries : list HistoryEntry) : Q :=
  Py.sum (map (fun h => key (h_scores h)) entries) / inject_Z (Z.of_nat (length entries)).

(** [_calculate_trends] *)
Definition calculate_trends (session : Session) (current_scores : Scores) : Trends :=
  let history := score_history session in
  if (length history <? 5)%nat then
    {| confidenceDelta := 0; engagementDelta := 0; clarityDelta := 0 |}
  else
    let recent := Py.last_n 5 history in
    {| confidenceDelta := Py.round1 (confidence current_scores - average confidence recent);
       engagementDelta := Py.round1 (engagement current_scores - average engagement recent);
       clarityDelta := Py.round1 (clarity current_scores - average clarity recent) |}.

(** ** Session summary: [_calculate_session_summary] *)

Record FullSummary := {
  sum_session_id : string;
  sum_user_id : string;
  sum_duration : Q;
  sum_frames_processed : Z;
  sum_audio_chunks_processed : Z;
  sum_average_scores : Scores;
  sum_peak_moment : HistoryEntry;
  sum_start_time : Q;
  sum_end_time : Q }.

(** The two dicts the function can return: three keys when the history is
    empty, nine otherwise. *)
Inductive Summary : Type :=
| NoDataSummary (sid : string) (duration : Q)  (* 'message': 'No data collected' *)
| DataSummary (s : FullSummary).

(** [sum(h['scores'].values())] *)
Definition scores_total (s : Scores) : Q :=
  Py.sum [confidence s; engagement s; clarity s; authenticity s; professionalPresence s].

(** [max(items, key=...)] on a non-empty list: the first item of largest key. *)
Definition max_by {A} (key : A -> Q) (first : A) (rest : list A) : A :=
  fold_left (fun best x => if Qltb (key best) (key x) then x else best) rest first.

Definition calculate_session_summary (session_data : Session) (end_time : Q) : Summary :=
  let duration := end_time - start_time session_data in
  match score_history session_data with
  | [] => NoDataSummary (session_id session_data) duration
  | h :: hs =>
      let score_history := h :: hs in
      DataSummary
        {| sum_session_id := session_id session_data;
           sum_user_id := user_id session_data;
           sum_duration := duration;
           sum_frames_processed := frame_count session_data;
           sum_audio_chunks_processed := audio_chunk_count session_data;
           sum_average_scores :=
             {| confidence := average confidence score_history;
                engagement := average engagement score_history;
                clarity := average clarity score_history;
                authenticity := average authenticity score_history;
                professionalPresence := average professionalPresence score_history |};
           sum_peak_moment := max_by (fun e => scores_total (h_scores e)) h hs;
           sum_start_time := start_time session_data;
           sum_end_time := end_time |}
  end.

(** ** Values a client sends *)

(** A JSON value under a key of an inbound message, as far as the handler
    can tell values apart: a number (an integer, as the protocol declares;
    [true] and [false] are the numbers 1 and 0 to Python), a string, or an
    array or object, empty or not. A missing key and [null] are [None]. *)
Inductive JsonValue : Type :=
| JNumber (n : Z)
| JString (s : string)
| JCompound (is_empty : bool).

(** [if v:] *)
Definition json_truthy (v : JsonValue) : bool :=
  match v with
  | JNumber n => negb (n =? 0)%Z
  | JString s => negb (String.eqb s "")
  | JCompound is_empty => negb is_empty
  end.

(** ** Collaborators *)

(** A numpy array, kept as its raw buffer. *)
Inductive ndarray : Type := NdArray (raw : list Byte.byte).

(** The engines the orchestrator calls. Each may raise.
    - [imdecode]: [cv2.imdecode(np.frombuffer(data, np.uint8), cv2.IMREAD_COLOR)],
      [None] when the buffer is not an image;
    - [vision_analyze]: [VisionAnalyzer.analyze(frame, frame_number, timestamp_ms)],
      the timestamp being whatever the caller passes on;
    - [audio_analyze]: [AudioAnalyzer.analyze(audio_array, timestamp_ms, sample_rate)];
    - [b64decode]: [base64.b64decode] on a string. *)
Record Collaborators := {
  imdecode : list Byte.byte -> result (option ndarray);
  vision_analyze : ndarray -> Z -> option JsonValue -> result VisionAnalysisResult;
  audio_analyze : ndarray -> option JsonValue -> Z -> result AudioAnalysisResult;
  b64decode : string -> result (list Byte.byte) }.

(** ** The processor: [FeedbackProcessor] *)

Record FeedbackProcessor := {
  enable_audio : bool;
  enable_vision : bool;
  frame_sample_rate : Z;
  frame_counter : Z;
  sessions : gmap string Session }.

Definition set_frame_counter (p : FeedbackProcessor) (n : Z) : FeedbackProcessor :=
  {| enable_audio := enable_audio p; enable_vision := enable_vision p;
     frame_sample_rate := frame_sample_rate p; frame_counter := n;
     sessions := sessions p |}.

Definition set_sessions (p : FeedbackProcessor) (m : gmap string Session) : FeedbackProcessor :=
  {| enable_audio := enable_audio p; enable_vision := enable_vision p;
     frame_sample_rate := frame_sample_rate p; frame_counter := frame_counter p;
     sessions := m |}.

(** [FeedbackProcessor(enable_audio, enable_vision, frame_sample_rate=3)] *)
Definition new_processor (enable_audio enable_vision : bool) (frame_sample_rate : Z)
  : FeedbackProcessor :=
  {| enable_audio := enable_audio; enable_vision := enable_vision;
     frame_sample_rate := frame_sample_rate; frame_counter := 0;
     sessions := ∅ |}.

Record Metrics := {
  m_facial : option FacialDict;
  m_body : option BodyDict;
  m_voice : option ToneDict;
  m_speech : option SpeechDict }.

Record FeedbackMessage := {
  fb_timestamp_ms : Z;
  fb_session_id : string;
  fb_type : string;
  fb_scores : Scores;
  fb_metrics : Metrics;
  fb_suggestions : list Suggestion;
  fb_trends : Trends }.

Section Processor.

Variable C : Collaborators.

(** [_load_user_baseline]: no lookup yet, always [None]. *)
Definition load_user_baseline (user_id : string) : option (gmap string Q) := None.

(** [start_session]; [now] is [time.time()]. An active id is overwritten. *)
Definition start_session (p : FeedbackProcessor) (now : Q)
    (session_id user_id session_type : string) : FeedbackProcessor * Session :=
  let session_data :=
    {| session_id := session_id; user_id := user_id; session_type := session_type;
       start_time := now; frame_count := 0; audio_chunk_count := 0;
       baseline := load_user_baseline user_id; score_history := [] |} in
  (set_sessions p (<[session_id := session_data]> (sessions p)), session_data).

(** [stop_session]; [now] is [time.time()]. *)
Definition stop_session (p : FeedbackProcessor) (now : Q) (session_id : string)
  : FeedbackProcessor * result Summary :=
  match sessions p !! session_id with
  | None => (p, Raise (NotFound session_id))
  | Some session_data =>
      let summary := calculate_session_summary session_data now in
      (set_sessions p (delete session_id (sessions p)), Ok summary)
  end.

(** [_decode_frame]: an exception of the decoder is caught and gives [None]. *)
Definition decode_frame (frame_data : list Byte.byte) : option ndarray :=
  match imdecode C frame_data with
  | Ok frame => frame
  | Raise _ => None
  end.

(** [frame_number or self.frame_counter] *)
Definition frame_number_or (frame_number : option Z) (counter : Z) : Z :=
  match frame_number with
  | Some n => if (n =? 0)%Z then counter else n
  | None => counter
  end.

(** The sampling gate lets the next frame through: the counter, once
    incremented, is a multiple of the sample rate. *)
Definition gate_accepts (p : FeedbackProcessor) : Prop :=
  ((frame_counter p + 1) mod frame_sample_rate p = 0)%Z.

(** [process_frame] *)
Definition process_frame (p : FeedbackProcessor) (session_id : string)
    (frame_data : list Byte.byte) (timestamp_ms : option JsonValue)
    (frame_number : option Z)
  : FeedbackProcessor * result (option VisionDict) :=
  if negb (enable_vision p) then (p, Ok None)
  else
    let p := set_frame_counter p (frame_counter p + 1) in
    if (frame_sample_rate p =? 0)%Z then (p, Raise ZeroDivisionError)
    else if negb (frame_counter p mod frame_sample_rate p =? 0)%Z then (p, Ok None)
    else
      match sessions p !! session_id with
      | None => (p, Raise (NotFound session_id))
      | Some session =>
          match decode_frame frame_data with
          | None => (p, Ok None)
          | Some frame =>
              match vision_analyze C frame
                      (frame_number_or frame_number (frame_counter p)) timestamp_ms with
              | Raise e => (p, Raise e)
              | Ok vision_result =>
                  let result_dict := vision_to_dict vision_result in
                  let session := set_frame_count session (frame_count session + 1) in
                  (set_sessions p (<[session_id := session]> (sessions p)),
                   Ok (Some result_dict))
              end
          end
      end.

(** [np.frombuffer(audio_data, dtype=np.float32)]: the buffer must hold
    whole 4-byte items. *)
Definition frombuffer_float32 (audio_data : list Byte.byte) : result ndarray :=
  if (length audio_data mod 4 =? 0)%nat then Ok (NdArray audio_data)
  else Raise (ValueError "buffer size must be a multiple of element size").

(** [process_audio] *)
Definition process_audio (p : FeedbackProcessor) (session_id : string)
    (audio_data : list Byte.byte) (timestamp_ms : option JsonValue) (sample_rate : Z)
  : FeedbackProcessor * result (option AudioDict) :=
  if negb (enable_audio p) then (p, Ok None)
  else
    match sessions p !! session_id with
    | None => (p, Raise (NotFound session_id))
    | Some session =>
        match frombuffer_float32 audio_data with
        | Raise e => (p, Raise e)
        | Ok audio_array =>
            match audio_analyze C audio_array timestamp_ms sample_rate with
            | Raise e => (p, Raise e)
            | Ok audio_result =>
                let result_dict := audio_to_dict audio_result in
                let session :=
                  set_audio_chunk_count session (audio_chunk_count session + 1) in
                (set_sessions p (<[session_id := session]> (sessions p)),
                 Ok (Some result_dict))
            end
        end
    end.

(** [append], then [history[-50:]] once the length passes 50. *)
Definition push_history (history : list HistoryEntry) (entry : HistoryEntry)
  : list HistoryEntry :=
  let history := history ++ [entry] in
  if (50 <? length history)%nat then Py.last_n 50 history else history.

(** [generate_feedback]; [now_ms] is [int(time.time() * 1000)], read only
    when no timestamp is passed. *)
Definition generate_feedback (p : FeedbackProcessor) (now_ms : Z) (session_id : string)
    (audio_metrics : option AudioDict) (vision_metrics : option VisionDict)
    (timestamp_ms : option Z) : FeedbackProcessor * result FeedbackMessage :=
  match sessions p !! session_id with
  | None => (p, Raise (NotFound session_id))
  | Some session =>
      let timestamp_ms := get_or timestamp_ms now_ms in
      let scores := calculate_scores audio_metrics vision_metrics (baseline session) in
      let suggestions := generate_suggestions audio_metrics vision_metrics scores in
      let trends := calculate_trends session scores in
      let session :=
        set_score_history session
          (push_history (score_history session)
             {| h_timestamp_ms := timestamp_ms; h_scores := scores |}) in
      let metrics :=
        {| m_facial := vision_metrics ≫= facial;
           m_body := vision_metrics ≫= body;
           m_voice := audio_metrics ≫= tone;
           m_speech := audio_metrics ≫= speech |} in
      (set_sessions p (<[session_id := session]> (sessions p)),
       Ok {| fb_timestamp_ms := timestamp_ms; fb_session_id := session_id;
             fb_type := "realtime"; fb_scores := scores; fb_metrics := metrics;
             fb_suggestions := suggestions; fb_trends := trends |})
  end.

(** A run of feedback cycles on one session: the processor after the
    last call and the messages returned, in order. *)
Fixpoint feedback_cycles (p : FeedbackProcessor) (now_ms : Z) (session_id : string)
    (calls : list (option AudioDict * option VisionDict * option Z))
  : FeedbackProcessor * list (result FeedbackMessage) :=
  match calls with
  | [] => (p, [])
  | (audio_metrics, vision_metrics, timestamp_ms) :: calls =>
      let '(p, r) := generate_feedback p now_ms session_id
                       audio_metrics vision_metrics timestamp_ms in
      let '(p, rs) := feedback_cycles p now_ms session_id calls in
      (p, r :: rs)
  end.

(** The history entry a feedback message leaves. *)
Definition entry_of (r : result FeedbackMessage) : list HistoryEntry :=
  match r with
  | Ok fb => [{| h_timestamp_ms := fb_timestamp_ms fb; h_scores := fb_scores fb |}]
  | Raise _ => []
  end.

End Processor.

(** ** HTTP handlers of [routes.py] *)

Inductive HttpResponse (A : Type) : Type :=
| Http200 (body : A)
| Http202 (message : string)
| HttpException (status_code : Z) (detail : exn).
Arguments Http200 {A} body.
Arguments Http202 {A} message.
Arguments HttpException {A} status_code detail.

(** [except ValueError: 404], [except Exception: 500] *)
Definition http_error {A} (e : exn) : HttpResponse A :=
  match e with
  | ValueError _ => HttpException 404 e
  | _ => HttpException 500 e
  end.

Record StopSessionResponse := {
  ssr_session_id : string;
  ssr_duration : Q;
  ssr_average_scores : Scores;
  ssr_frames_processed : Z;
  ssr_audio_chunks_processed : Z }.

Module Routes.
Section Routes.

Variable C : Collaborators.

(** [POST /sessions/{session_id}/stop]. The short summary has no
    ['average_scores'] key: reading it raises [KeyError]. *)
Definition stop_session (p : FeedbackProcessor) (now : Q) (session_id : string)
  : FeedbackProcessor * HttpResponse StopSessionResponse :=
  match stop_session p now session_id with
  | (p, Raise e) => (p, http_error e)
  | (p, Ok (NoDataSummary _ _)) => (p, http_error (KeyError "average_scores"))
  | (p, Ok (DataSummary s)) =>
      (p, Http200 {| ssr_session_id := session_id;
                     ssr_duration := sum_duration s;
                     ssr_average_scores := sum_average_scores s;
                     ssr_frames_processed := sum_frames_processed s;
                     ssr_audio_chunks_processed := sum_audio_chunks_processed s |})
  end.

(** [POST /process-frame] *)
Definition process_frame (p : FeedbackProcessor) (session_id : string)
    (timestamp_ms : Z) (frame_number : option Z) (frame_data : list Byte.byte)
  : FeedbackProcessor * HttpResponse VisionDict :=
  match process_frame C p session_id frame_data (Some (JNumber timestamp_ms))
          frame_number with
  | (p, Raise e) => (p, http_error e)
  | (p, Ok None) => (p, Http202 "Frame skipped (sampling)")
  | (p, Ok (Some result)) => (p, Http200 result)
  end.

(** [POST /process-audio]; a [None] result is sent as the body. *)
Definition process_audio (p : FeedbackProcessor) (session_id : string)
    (timestamp_ms : Z) (sample_rate : Z) (audio_data : list Byte.byte)
  : FeedbackProcessor * HttpResponse (option AudioDict) :=
  match process_audio C p session_id audio_data (Some (JNumber timestamp_ms))
          sample_rate with
  | (p, Raise e) => (p, http_error e)
  | (p, Ok result) => (p, Http200 result)
  end.

(** [POST /generate-feedback] *)
Definition generate_feedback (p : FeedbackProcessor) (now_ms : Z) (session_id : string)
    (audio_metrics : option AudioDict) (vision_metrics : option VisionDict)
    (timestamp_ms : option Z) : FeedbackProcessor * HttpResponse FeedbackMessage :=
  match generate_feedback p now_ms session_id audio_metrics vision_metrics timestamp_ms with
  | (p, Raise e) => (p, http_error e)
  | (p, Ok feedback) => (p, Http200 feedback)
  end.

End Routes.
End Routes.

(** ** The streaming gateway: [websocket_feedback_stream] *)

(** The JSON object of an inbound message, by the keys the handler reads.
    - [in_type]: the string under "type"; [None] when the key is missing or
      holds anything else, which equals none of the three type names.
    - [in_timestamp_ms]: the value under "timestamp_ms", of any JSON type.
    - [in_data]: the string under "data"; [None] when the key is missing or
      holds anything else, on which [b64decode] raises [TypeError].
    - [in_frame_number], [in_sample_rate]: passed to the extractors only. *)
Record InMessage := {
  in_type : option string;
  in_timestamp_ms : option JsonValue;
  in_data : option string;
  in_frame_number : option Z;
  in_sample_rate : option Z }.

(** What one [receive_text] + [json.loads] gives. *)
Inductive Received : Type :=
| Disconnect                 (* WebSocketDisconnect *)
| NotJson                    (* json.loads raises *)
| NotObject                  (* JSON, but no object: [data.get] raises *)
| Message (m : InMessage).

Inductive Outbound : Type :=
| OutConnected (session_id : string)
| OutAck (timestamp_ms : option JsonValue)
| OutFeedback (feedback : FeedbackMessage)
| OutError (e : exn).

(** The outbound messages that are no acknowledgement. *)
Definition feedback_or_error (o : Outbound) : Prop :=
  match o with
  | OutFeedback _ | OutError _ => True
  | OutConnected _ | OutAck _ => False
  end.

(** The local variables of the handler's loop. *)
Record StreamLocals := {
  latest_audio_metrics : option AudioDict;
  latest_vision_metrics : option VisionDict;
  last_feedback_time : Z }.

Definition initial_locals : StreamLocals :=
  {| latest_audio_metrics := None; latest_vision_metrics := None; last_feedback_time := 0 |}.

(** [ConnectionManager]: the sockets registered under each session id. *)
Module ConnectionManager.

Fixpoint remove (ws : nat) (l : list nat) : list nat :=
  match l with
  | [] => []
  | x :: l => if (x =? ws)%nat then l else x :: remove ws l
  end.

Definition connect (active : gmap string (list nat)) (session_id : string) (ws : nat)
  : gmap string (list nat) :=
  <[session_id := default [] (active !! session_id) ++ [ws]]> active.

(** A socket is removed by its own handler only, so it is in the list
    when [remove] runs. *)
Definition disconnect (active : gmap string (list nat)) (session_id : string) (ws : nat)
  : gmap string (list nat) :=
  match active !! session_id with
  | Some l =>
      match remove ws l with
      | [] => delete session_id active
      | l' => <[session_id := l']> active
      end
  | None => active
  end.

End ConnectionManager.

(** A socket is registered under a session id. *)
Definition registered (active : gmap string (list nat)) (session_id : string) (ws : nat)
  : Prop :=
  exists l, active !! session_id = Some l /\ ws ∈ l.

(** The state shared by all handlers, and what an iteration leaves. *)
Record Gateway := {
  processor : FeedbackProcessor;
  active_connections : gmap string (list nat) }.

Record Step := {
  gateway : Gateway;
  sent : list Outbound;
  locals : option StreamLocals  (* [None]: the handler has returned *) }.

Definition option_truthy {A} (truthy : A -> bool) (o : option A) : bool :=
  match o with
  | Some d => truthy d
  | None => false
  end.

Section Stream.

Variable C : Collaborators.

(** [base64.b64decode(data.get("data"))] *)
Definition decode_data (m : InMessage) : result (list Byte.byte) :=
  match in_data m with
  | None => Raise TypeError
  | Some s => b64decode C s
  end.

Definition is_type (m : InMessage) (name : string) : bool :=
  match in_type m with
  | Some t => String.eqb t name
  | None => false
  end.

(** The [if]/[elif] chain on [msg_type]. *)
Definition dispatch (p : FeedbackProcessor) (session_id : string) (m : InMessage)
    (l : StreamLocals) : FeedbackProcessor * list Outbound * result StreamLocals :=
  if is_type m "heartbeat" then
    (p, [OutAck (in_timestamp_ms m)], Ok l)
  else if is_type m "frame" then
    match decode_data m with
    | Raise e => (p, [], Raise e)
    | Ok frame_data =>
        match process_frame C p session_id frame_data
                (in_timestamp_ms m) (in_frame_number m) with
        | (p, Raise e) => (p, [], Raise e)
        | (p, Ok vision_result) =>
            (p, [],
             Ok (if option_truthy vision_truthy vision_result
                 then {| latest_audio_metrics := latest_audio_metrics l;
                         latest_vision_metrics := vision_result;
                         last_feedback_time := last_feedback_time l |}
                 else l))
        end
    end
  else if is_type m "audio" then
    match decode_data m with
    | Raise e => (p, [], Raise e)
    | Ok audio_data =>
        match process_audio C p session_id audio_data
                (in_timestamp_ms m) (get_or (in_sample_rate m) 16000%Z) with
        | (p, Raise e) => (p, [], Raise e)
        | (p, Ok audio_result) =>
            (p, [],
             Ok (if option_truthy audio_truthy audio_result
                 then {| latest_audio_metrics := audio_result;
                         latest_vision_metrics := latest_vision_metrics l;
                         last_feedback_time := last_feedback_time l |}
                 else l))
        end
    end
  else (p, [], Ok l).

(** [timestamp_ms if timestamp_ms else int(loop.time() * 1000)] *)
Definition current_time (m : InMessage) (loop_ms : Z) : JsonValue :=
  match in_timestamp_ms m with
  | Some v => if json_truthy v then v else JNumber loop_ms
  | None => JNumber loop_ms
  end.

Definition feedback_interval_ms : Z := 1000.

(** Whether the cadence gate lets a feedback message out at time [now]. *)
Definition cadence_open (now : Z) (l : StreamLocals) : bool :=
  (feedback_interval_ms <=? now - last_feedback_time l)%Z
  && (option_truthy audio_truthy (latest_audio_metrics l)
      || option_truthy vision_truthy (latest_vision_metrics l)).

(** The feedback block that ends every iteration. The subtraction
    [current_time - last_feedback_time] raises [TypeError] when the current
    time is a client's value that is no number. *)
Definition cadence (p : FeedbackProcessor) (session_id : string) (m : InMessage)
    (loop_ms : Z) (l : StreamLocals)
  : FeedbackProcessor * list Outbound * result StreamLocals :=
  match current_time m loop_ms with
  | JNumber now =>
      if cadence_open now l then
        match generate_feedback p loop_ms session_id (latest_audio_metrics l)
                (latest_vision_metrics l) (Some now) with
        | (p, Raise e) => (p, [], Raise e)
        | (p, Ok feedback) =>
            (p, [OutFeedback feedback],
             Ok {| latest_audio_metrics := latest_audio_metrics l;
                   latest_vision_metrics := latest_vision_metrics l;
                   last_feedback_time := now |})
        end
      else (p, [], Ok l)
  | _ => (p, [], Raise TypeError)
  end.

(** [except Exception]: report the error, then unregister the socket. *)
Definition on_exception (p : FeedbackProcessor) (active : gmap string (list nat))
    (session_id : string) (ws : nat) (out : list Outbound) (e : exn) : Step :=
  {| gateway := {| processor := p;
                   active_connections := ConnectionManager.disconnect active session_id ws |};
     sent := out ++ [OutError e];
     locals := None |}.

(** One turn of the [while True] loop, with the handlers around it. *)
Definition iteration (g : Gateway) (session_id : string) (ws : nat)
    (received : Received) (loop_ms : Z) (l : StreamLocals) : Step :=
  let active := active_connections g in
  match received with
  | Disconnect =>
      {| gateway := {| processor := processor g;
                       active_connections :=
                         ConnectionManager.disconnect active session_id ws |};
         sent := []; locals := None |}
  | NotJson => on_exception (processor g) active session_id ws [] JSONDecodeError
  | NotObject => on_exception (processor g) active session_id ws [] AttributeError
  | Message m =>
      match dispatch (processor g) session_id m l with
      | (p, out, Raise e) => on_exception p active session_id ws out e
      | (p, out, Ok l) =>
          match cadence p session_id m loop_ms l with
          | (p, out', Raise e) => on_exception p active session_id ws (out ++ out') e
          | (p, out', Ok l) =>
              {| gateway := {| processor := p; active_connections := active |};
                 sent := out ++ out'; locals := Some l |}
          end
      end
  end.

(** The loop over the messages a client sends, each with the loop clock
    read at its turn; it stops at the first turn that leaves the handler. *)
Fixpoint stream_loop (g : Gateway) (session_id : string) (ws : nat)
    (inbox : list (Received * Z)) (l : StreamLocals) : Step :=
  match inbox with
  | [] => {| gateway := g; sent := []; locals := Some l |}
  | (received, loop_ms) :: inbox =>
      let s := iteration g session_id ws received loop_ms l in
      match locals s with
      | None => s
      | Some l =>
          let s' := stream_loop (gateway s) session_id ws inbox l in
          {| gateway := gateway s'; sent := sent s ++ sent s'; locals := locals s' |}
      end
  end.

(** [websocket_feedback_stream]: register, acknowledge, loop. *)
Definition websocket_feedback_stream (g : Gateway) (session_id : string) (ws : nat)
    (inbox : list (Received * Z)) : Step :=
  let g := {| processor := processor g;
              active_connections :=
                ConnectionManager.connect (active_connections g) session_id ws |} in
  let s := stream_loop g session_id ws inbox initial_locals in
  {| gateway := gateway s; sent := OutConnected session_id :: sent s; locals := locals s |}.

End Stream.

(** ** Reference definitions, in the words of the specification *)

Module Spec.

(** The arithmetic mean of a list of scores. *)
Definition mean (xs : list Q) : Q :=
  fold_right Qplus 0 xs / inject_Z (Z.of_nat (length xs)).

(** [r] is [x] rounded to one decimal place: a whole number of tenths,
    at most half a tenth away. *)
Definition rounded_to_tenth (x r : Q) : Prop :=
  (exists n : Z, r == inject_Z n / 10) /\ Qabs (r - x) <= 1 # 20.

(** postureScore: 90 for "open", 70 for "neutral", 50 otherwise. *)
Definition posture_score (p : string) : Q :=
  if decide (p = "open") then 90
  else if decide (p = "neutral") then 70
  else 50.

(** Clamping to [0, 100]. *)
Definition clamp (x : Q) : Q := Qmax 0 (Qmin 100 x).

(** confidence = 0.4·vocalSteadiness + 0.3·eyeContact + 0.3·postureScore,
    vocalSteadiness = max(0, 100 − 2·pitchVariance), clamped last. *)
Definition confidence (pitch_variance eye_contact : Q) (posture : string) : Q :=
  clamp ((4 # 10) * Qmax 0 (100 - 2 * pitch_variance)
         + (3 # 10) * eye_contact
         + (3 # 10) * posture_score posture).

(** The history keeps the 50 most recent of the entries, in order. *)
Definition most_recent (n : nat) {A} (entries : list A) : list A :=
  rev (take n (rev entries)).

End Spec.

(** ** Stand-ins for the collaborators *)

Module Fake.

Definition audio_result : AudioAnalysisResult :=
  {| ar_tone := {| tm_pitch_variance := 10; tm_pitch_range := (100, 220) |};
     ar_emotion := {| em_stress_level := 20 |};
     ar_speech := {| sm_filler_words := [];
                     sm_articulation_score := 80;
                     sm_speaking_rate := 190 |} |}.

Definition vision_result : VisionAnalysisResult :=
  {| vr_facial := {| fm_eye_contact := 60; fm_smile_genuineness := 1 # 2 |};
     vr_body := {| bm_posture := "open"; bm_energy_level := 40 |};
     vr_professional := {| pm_overall_polish := 75 |} |}.

(** Engines that always answer. *)
Definition working : Collaborators :=
  {| imdecode := fun data => Ok (Some (NdArray data));
     vision_analyze := fun _ _ _ => Ok vision_result;
     audio_analyze := fun _ _ _ => Ok audio_result;
     b64decode := fun _ => Ok [] |}.

(** Engines whose extractors raise. *)
Definition failing : Collaborators :=
  {| imdecode := fun data => Ok (Some (NdArray data));
     vision_analyze := fun _ _ _ => Raise (CollaboratorError "vision");
     audio_analyze := fun _ _ _ => Raise (CollaboratorError "audio");
     b64decode := fun _ => Ok [] |}.

(** The processor [get_processor] builds. *)
Definition processor0 : FeedbackProcessor := new_processor true true 3.

(** The same with session ["s1"] started at time 0. *)
Definition processor1 : FeedbackProcessor :=
  fst (start_session processor0 0 "s1" "u1" "practice").

Definition gateway1 : Gateway :=
  {| processor := processor1;
     active_connections := ConnectionManager.connect ∅ "s1" 7%nat |}.

Definition message (type : string) (timestamp_ms : Z) (data : option string) : InMessage :=
  {| in_type := Some type; in_timestamp_ms := Some (JNumber timestamp_ms); in_data := data;
     in_frame_number := None; in_sample_rate := None |}.

(** Scenario A: start ["s1"], ingest one audio chunk (the extractor
    reports a speaking rate of 190), generate feedback without video. *)
Definition scenario_A : option Scores :=
  match process_audio working processor1 "s1" [] (Some (JNumber 0)) 16000 with
  | (p, Ok (Some audio_metrics)) =>
      match generate_feedback p 0 "s1" (Some audio_metrics) None (Some 1000%Z) with
      | (_, Ok feedback) => Some (fb_scores feedback)
      | _ => None
      end
  | _ => None
  end.

(** Scores with a given confidence, for histories. *)
Definition scores_with (c : Q) : Scores :=
  {| confidence := c; engagement := 70; clarity := 70;
     authenticity := 70; professionalPresence := 70 |}.


(** Loop variables once an audio chunk has been ingested. *)
Definition locals_with_audio : StreamLocals :=
  {| latest_audio_metrics := Some (audio_to_dict audio_result);
     latest_vision_metrics := None;
     last_feedback_time := 0 |}.

(** Sixty feedback calls, stamped 1 to 60. *)
Definition sixty_calls : list (option AudioDict * option VisionDict * option Z) :=
  map (fun i => (Some (audio_to_dict audio_result), None, Some (Z.of_nat i))) (seq 1 60).

(** Session ["s1"] after five feedback cycles of confidence 80. *)
Definition session_5x80 : Session :=
  {| session_id := "s1"; user_id := "u1"; session_type := "practice";
     start_time := 0; frame_count := 0; audio_chunk_count := 0; baseline := None;
     score_history :=
       replicate 5 {| h_timestamp_ms := 0; h_scores := scores_with 80 |} |}.

Definition processor_5x80 : FeedbackProcessor :=
  set_sessions processor0 {[ "s1" := session_5x80 ]}.

End Fake.

(** ** Runs of ingestion calls, and further reference definitions *)

(** Whether an ingestion call returned metrics. *)
Definition is_processed {A} (r : result (option A)) : bool :=
  match r with
  | Ok (Some _) => true
  | _ => false
  end.

(** Frames handed to [process_frame] one after the other. *)
Fixpoint process_frames (C : Collaborators) (p : FeedbackProcessor)
    (calls : list (string * list Byte.byte * option JsonValue * option Z))
  : FeedbackProcessor * list (result (option VisionDict)) :=
  match calls with
  | [] => (p, [])
  | (session_id, frame_data, timestamp_ms, frame_number) :: calls =>
      let '(p, r) := process_frame C p session_id frame_data timestamp_ms frame_number in
      let '(p, rs) := process_frames C p calls in
      (p, r :: rs)
  end.

(** The frame [c] can be analysed when it is processed with the counter
    at [counter]: its session is stored, its image decodes and the extractor
    answers on it. *)
Definition frame_analysable (C : Collaborators) (p : FeedbackProcessor) (counter : Z)
    (c : string * list Byte.byte * option JsonValue * option Z) : Prop :=
  is_Some (sessions p !! c.1.1.1)
  /\ exists frame r,
       decode_frame C c.1.1.2 = Some frame
       /\ vision_analyze C frame (frame_number_or c.2 counter) c.1.2 = Ok r.

(** The extractor answers on the audio chunk [c]. *)
Definition chunk_analysable (C : Collaborators) (c : list Byte.byte * option JsonValue * Z)
  : Prop :=
  exists res, audio_analyze C (NdArray c.1.1) c.1.2 c.2 = Ok res.

(** Audio chunks handed to [process_audio] one after the other, all for
    one session. *)
Fixpoint process_audios (C : Collaborators) (p : FeedbackProcessor) (session_id : string)
    (calls : list (list Byte.byte * option JsonValue * Z))
  : FeedbackProcessor * list (result (option AudioDict)) :=
  match calls with
  | [] => (p, [])
  | (audio_data, timestamp_ms, sample_rate) :: calls =>
      let '(p, r) := process_audio C p session_id audio_data timestamp_ms sample_rate in
      let '(p, rs) := process_audios C p session_id calls in
      (p, r :: rs)
  end.

Module Formula.

(** engagement = 0.5·bodyEnergyLevel + 0.5·vocalVariety,
    vocalVariety = min((pitchMax − pitchMin)/3, 100), clamped last. *)
Definition engagement (energy_level pitch_min pitch_max : Q) : Q :=
  Spec.clamp ((1 # 2) * energy_level + (1 # 2) * Qmin ((pitch_max - pitch_min) / 3) 100).

(** clarity = 0.5·articulation + 0.5·paceScore,
    paceScore = max(0, 100 − 2·|speakingRate − 150|), clamped last. *)
Definition pace_score (speaking_rate : Q) : Q :=
  Qmax 0 (100 - 2 * Qabs (speaking_rate - 150)).

Definition clarity (articulation speaking_rate : Q) : Q :=
  Spec.clamp ((1 # 2) * articulation + (1 # 2) * pace_score speaking_rate).

End Formula.

(** All five scores within [0, 100]. *)
Definition scores_in_range (s : Scores) : Prop :=
  0 <= confidence s <= 100 /\ 0 <= engagement s <= 100 /\ 0 <= clarity s <= 100
  /\ 0 <= authenticity s <= 100 /\ 0 <= professionalPresence s <= 100.

(** The four suggestions of the rule table. *)
Definition is_filler_suggestion (s : Suggestion) : Prop :=
  exists n, s = {| category := "speech"; priority := "high"; message := FillerWordsText n |}.

Definition stress_suggestion : Suggestion :=
  {| category := "voice"; priority := "high"; message := HighStressText |}.

(** The rule a suggestion comes from, by its place in the table. *)
Definition rule_number (s : Suggestion) : nat :=
  match message s with
  | FillerWordsText _ => 1
  | LowEnergyText => 2
  | TooFastText _ => 3
  | HighStressText => 4
  end.

(** [ConnectionManager.send_feedback]; [send_ok ws] tells whether
    [send_json] on that socket succeeds. Returns the registry after the
    failed sockets are unregistered, and the sockets the message reached. *)
Definition send_feedback (send_ok : nat -> bool) (active : gmap string (list nat))
    (session_id : string) : gmap string (list nat) * list nat :=
  match active !! session_id with
  | Some connections =>
      let disconnected := List.filter (fun ws => negb (send_ok ws)) connections in
      (fold_left (fun active conn => ConnectionManager.disconnect active session_id conn)
         disconnected active,
       List.filter send_ok connections)
  | None => (active, [])
  end.

(** No session id is registered with an empty list of sockets. *)
Definition no_empty_entry (active : gmap string (list nat)) : Prop :=
  forall sid, active !! sid <> Some [].

(** The timestamps of the feedback messages among the messages sent. *)
Definition feedback_times (out : list Outbound) : list Z :=
  omap (fun o => match o with
                 | OutFeedback fb => Some (fb_timestamp_ms fb)
                 | _ => None
                 end) out.

(** Each timestamp at least one feedback interval after the one before,
    starting after [t]. *)
Fixpoint spaced (t : Z) (times : list Z) : Prop :=
  match times with
  | [] => True
  | x :: times => (t + feedback_interval_ms <= x)%Z /\ spaced x times
  end.

(** Every entry of a session's history holds scores within [0, 100]. *)
Definition history_in_range (s : Session) : Prop :=
  Forall (fun e => scores_in_range (h_scores e)) (score_history s).

(** The session [start_session] registers. *)
Definition fresh_session (now : Q) (session_id user_id session_type : string) : Session :=
  {| session_id := session_id; user_id := user_id; session_type := session_type;
     start_time := now; frame_count := 0; audio_chunk_count := 0;
     baseline := None; score_history := [] |}.

(** Scenario C: a session whose three recorded score sets sum to 300, 250
    and 400. *)
Definition uniform_scores (x : Q) : Scores :=
  {| confidence := x; engagement := x; clarity := x;
     authenticity := x; professionalPresence := x |}.

Definition scenario_C_session : Session :=
  set_score_history (fresh_session 0 "s1" "u1" "practice")
    [{| h_timestamp_ms := 1000; h_scores := uniform_scores 60 |};
     {| h_timestamp_ms := 2000; h_scores := uniform_scores 50 |};
     {| h_timestamp_ms := 3000; h_scores := uniform_scores 80 |}].

Definition scenario_C_processor : FeedbackProcessor :=
  set_sessions Fake.processor0 {[ "s1" := scenario_C_session ]}.

(** What the registry holds for a session once its sockets are [l]. *)
Definition with_connections (session_id : string) (l : list nat)
    (active : gmap string (list nat)) : gmap string (list nat) :=
  match l with
  | [] => delete session_id active
  | _ => <[session_id := l]> active
  end.

(** The acks a run of inbound messages earns: one per heartbeat. *)
Definition heartbeat_acks (inbox : list (Received * Z)) : list Outbound :=
  flat_map (fun item => match item.1 with
                        | Message m => if is_type m "heartbeat"
                                       then [OutAck (in_timestamp_ms m)] else []
                        | _ => []
                        end) inbox.

(** A message that is neither a frame nor an audio chunk. *)
Definition no_media (item : Received * Z) : Prop :=
  exists m, item.1 = Message m /\ is_type m "frame" = false /\ is_type m "audio" = false.

(** A timestamp the feedback block can subtract from: a number, or a value
    Python counts as false (missing, null, empty), replaced by the loop
    clock. *)
Definition timestamp_usable (m : InMessage) : Prop :=
  match in_timestamp_ms m with
  | None | Some (JNumber _) => True
  | Some v => json_truthy v = false
  end.

Definition usable_time (item : Received * Z) : Prop :=
  forall m, item.1 = Message m -> timestamp_usable m.

(** A heartbeat whose timestamp is a string. *)
Definition late_heartbeat : InMessage :=
  {| in_type := Some "heartbeat"; in_timestamp_ms := Some (JString "late");
     in_data := None; in_frame_number := None; in_sample_rate := None |}.

(** Two registries for session ["s1"]. *)
Definition registry_one : gmap string (list nat) := {[ "s1" := [7%nat] ]}.

Definition registry_four : gmap string (list nat) := {[ "s1" := [1; 2; 3; 4]%nat ]}.

(** ** Parts of the analyzers

    The arithmetic the analyzers do on what the perception libraries
    measure. A measurement taken by numpy, librosa, OpenCV or a model
    (a mean, a zero-crossing rate, a transcript's word count) is an
    argument; a landmark list is indexed as in the source, [None] standing
    for [IndexError]. *)

Module AudioAnalyzer.

(** [sum(emotion_scores.get(e, 0) for e in labels)] *)
Definition sum_scores (emotion_scores : gmap string Q) (labels : list string) : Q :=
  Py.sum (map (fun e => get_or (emotion_scores !! e) 0) labels).

(** [a / b] *)
Definition divide (a b : Q) : result Q :=
  if Qeq_bool b 0 then Raise ZeroDivisionError else Ok (a / b).

(** [_estimate_arousal] *)
Definition estimate_arousal (emotion_scores : gmap string Q) : result Q :=
  let high_score := sum_scores emotion_scores ["angry"; "fearful"; "surprised"; "happy"] in
  let low_score := sum_scores emotion_scores ["calm"; "sad"; "neutral"] in
  divide high_score (high_score + low_score + (1 # 1000000)).

(** [_estimate_valence] *)
Definition estimate_valence (emotion_scores : gmap string Q) : result Q :=
  let pos_score := sum_scores emotion_scores ["happy"; "calm"; "surprised"] in
  let neg_score := sum_scores emotion_scores ["angry"; "sad"; "fearful"; "disgust"] in
  divide (pos_score - neg_score) (pos_score + neg_score + (1 # 1000000)).

(** [_estimate_stress]; [zcr] is the mean zero-crossing rate and
    [spectral_flux] the mean difference of the spectral centroid. *)
Definition estimate_stress (emotion_scores : gmap string Q) (zcr spectral_flux : Q) : Q :=
  let emotion_stress := sum_scores emotion_scores ["angry"; "fearful"; "disgust"] in
  let acoustic_stress := Py.min ((zcr * 100 + Qabs spectral_flux / 10) / 2) 1 in
  let stress_level := (emotion_stress * (7 # 10) + acoustic_stress * (3 # 10)) * 100 in
  Py.min stress_level 100.

(** [_analyze_speech], by the fields the orchestrator reads. [is_speaking]
    is the voice-activity test, [word_count] the number of words of the
    transcript, [audio_len] the number of samples. *)
Definition analyze_speech (sample_rate : Z) (is_speaking : bool) (audio_len : nat)
    (word_count : nat) (filler_words : list FillerWord) (articulation_score : Q)
  : result SpeechMetrics :=
  if negb is_speaking then
    Ok {| sm_filler_words := []; sm_articulation_score := 0; sm_speaking_rate := 0 |}
  else
    match divide (inject_Z (Z.of_nat audio_len)) (inject_Z sample_rate) with
    | Raise e => Raise e
    | Ok seconds =>
        let duration_minutes := seconds / 60 in
        let speaking_rate :=
          if Qltb 0 duration_minutes
          then inject_Z (Z.of_nat word_count) / duration_minutes else 0 in
        Ok {| sm_filler_words := filler_words;
              sm_articulation_score := articulation_score;
              sm_speaking_rate := speaking_rate |}
    end.

Record Pause := {
  pause_start_ms : Z;
  pause_duration_ms : Z;
  pause_type : string }.

(** [threshold = np.mean(rms) * 0.3], on the per-frame energies that
    [librosa.feature.rms] measures. *)
Definition silence_threshold (rms : list Q) : Q :=
  Py.sum rms / inject_Z (Z.of_nat (length rms)) * (3 # 10).

(** [is_silent = rms < threshold] *)
Definition is_silent (rms : list Q) : list bool :=
  map (fun energy => Qltb energy (silence_threshold rms)) rms.

Section Pauses.

(** [int(frames * hop_length / self.sample_rate * 1000)] *)
Variable to_ms : nat -> Z.

(** The loop of [_detect_pauses] over the per-frame silence flags, from
    frame [i], with the loop's variables. *)
Fixpoint pauses_loop (is_silent : list bool) (i : nat) (in_pause : bool)
    (pause_start : nat) (pauses : list Pause) : list Pause :=
  match is_silent with
  | [] => pauses
  | silent :: rest =>
      if silent && negb in_pause then
        pauses_loop rest (S i) true i pauses
      else if negb silent && in_pause then
        let pause_duration := (i - pause_start)%nat in
        if (8 <? pause_duration)%nat then
          let start_ms := to_ms pause_start in
          let duration_ms := to_ms pause_duration in
          let type := if (500 <? duration_ms)%Z then "strategic" else "hesitation" in
          pauses_loop rest (S i) false pause_start
            (pauses ++ [{| pause_start_ms := start_ms;
                           pause_duration_ms := duration_ms;
                           pause_type := type |}])
        else pauses_loop rest (S i) false pause_start pauses
      else pauses_loop rest (S i) in_pause pause_start pauses
  end.

(** [_detect_pauses], from the per-frame energies of the audio. *)
Definition detect_pauses (rms : list Q) : nat * list Pause :=
  let pauses := pauses_loop (is_silent rms) 0 false 0 [] in
  (length pauses, pauses).

End Pauses.

End AudioAnalyzer.

Module VisionAnalyzer.

(** [_empty_facial_metrics] and [_empty_body_metrics], used when no face
    or no body is detected. *)
Definition empty_facial_metrics : FacialMetrics :=
  {| fm_eye_contact := 0; fm_smile_genuineness := 0 |}.

Definition empty_body_metrics : BodyMetrics :=
  {| bm_posture := "neutral"; bm_energy_level := 0 |}.

(** [max(0, min(1, x))] *)
Definition clamp01 (x : Q) : Q := Py.max 0 (Py.min 1 x).

(** [landmarks[i][0]] and [landmarks[i][1]] on face landmarks (x, y, z). *)
Definition face_x (landmarks : list (Q * Q * Q)) (i : nat) : option Q :=
  (fun p => p.1.1) <$> landmarks !! i.

Definition face_y (landmarks : list (Q * Q * Q)) (i : nat) : option Q :=
  (fun p => p.1.2) <$> landmarks !! i.

(** [_detect_action_units] *)
Definition detect_action_units (landmarks : list (Q * Q * Q)) : option (gmap string Q) :=
  brow_l ← face_y landmarks 52; eye_top_l ← face_y landmarks 159;
  let left_brow_height := brow_l - eye_top_l in
  brow_r ← face_y landmarks 282; eye_top_r ← face_y landmarks 386;
  let right_brow_height := brow_r - eye_top_r in
  let au1 := clamp01 (Qabs left_brow_height / 30) in
  let au2 := clamp01 (Qabs right_brow_height / 30) in
  let au4 := clamp01 (- left_brow_height / 20) in
  eye_bottom_l ← face_y landmarks 145;
  let left_eye_openness := Qabs (eye_top_l - eye_bottom_l) in
  eye_bottom_r ← face_y landmarks 374;
  let right_eye_openness := Qabs (eye_top_r - eye_bottom_r) in
  let au5 := clamp01 ((left_eye_openness + right_eye_openness) / 40) in
  corner_lx ← face_x landmarks 61; corner_rx ← face_x landmarks 291;
  let lip_width := Qabs (corner_lx - corner_rx) in
  let au12 := clamp01 (lip_width / 100) in
  corner_ly ← face_y landmarks 61; corner_ry ← face_y landmarks 291;
  let mouth_corner_height := (corner_ly + corner_ry) / 2 in
  let au15 := clamp01 (mouth_corner_height / 50) in
  upper_lip ← face_y landmarks 13; lower_lip ← face_y landmarks 14;
  let mouth_openness := Qabs (upper_lip - lower_lip) in
  let au26 := clamp01 (mouth_openness / 40) in
  Some (<["AU26" := au26]> (<["AU15" := au15]> (<["AU12" := au12]> (<["AU5" := au5]>
         (<["AU4" := au4]> (<["AU2" := au2]> (<["AU1" := au1]> ∅))))))).

(** [_calculate_duchenne_smile] *)
Definition calculate_duchenne_smile (action_units : gmap string Q) : Q :=
  let lip_puller := get_or (action_units !! "AU12") 0 in
  let cheek_raiser := get_or (action_units !! "AU6") (1 # 2) in
  let genuineness :=
    if Qltb (1 # 2) lip_puller then (lip_puller + cheek_raiser) / 2 else 0 in
  Py.min genuineness 1.

(** [_analyze_eye_contact]: the score and the horizontal gaze. *)
Definition analyze_eye_contact (landmarks : list (Q * Q * Q)) : option (Q * Q) :=
  left_iris_x ← (if (468 <? length landmarks)%nat
                 then face_x landmarks 468 else face_x landmarks 33);
  eye_ll ← face_x landmarks 33; eye_lr ← face_x landmarks 133;
  let left_eye_center_x := (eye_ll + eye_lr) / 2 in
  right_iris_x ← (if (473 <? length landmarks)%nat
                  then face_x landmarks 473 else face_x landmarks 362);
  eye_rl ← face_x landmarks 362; eye_rr ← face_x landmarks 263;
  let right_eye_center_x := (eye_rl + eye_rr) / 2 in
  let left_gaze := (left_iris_x - left_eye_center_x) / 20 in
  let right_gaze := (right_iris_x - right_eye_center_x) / 20 in
  let gaze_x := (left_gaze + right_gaze) / 2 in
  let eye_contact_score := 100 * (1 - Py.min (Qabs gaze_x) 1) in
  Some (eye_contact_score, gaze_x).

(** [landmarks[i][0]] and [landmarks[i][1]] on pose landmarks
    (x, y, z, visibility). *)
Definition pose_x (landmarks : list (Q * Q * Q * Q)) (i : nat) : option Q :=
  (fun p => p.1.1.1) <$> landmarks !! i.

Definition pose_y (landmarks : list (Q * Q * Q * Q)) (i : nat) : option Q :=
  (fun p => p.1.1.2) <$> landmarks !! i.

(** [_classify_posture]: the posture and the confidence of the guess. *)
Definition classify_posture (landmarks : list (Q * Q * Q * Q)) : option (string * Q) :=
  shoulder_l ← pose_x landmarks 11; shoulder_r ← pose_x landmarks 12;
  let shoulder_width := Qabs (shoulder_l - shoulder_r) in
  hip_l ← pose_x landmarks 23; hip_r ← pose_x landmarks 24;
  let hip_width := Qabs (hip_l - hip_r) in
  Some (if Qltb (hip_width * (11 # 10)) shoulder_width then ("open", 8 # 10)
        else if Qltb shoulder_width (hip_width * (9 # 10)) then ("closed", 8 # 10)
        else ("neutral", 6 # 10)).

(** [_estimate_energy_level] *)
Definition estimate_energy_level (landmarks : list (Q * Q * Q * Q)) : option Q :=
  shoulder_l ← pose_y landmarks 11; shoulder_r ← pose_y landmarks 12;
  let shoulder_y := (shoulder_l + shoulder_r) / 2 in
  hip_l ← pose_y landmarks 23; hip_r ← pose_y landmarks 24;
  let hip_y := (hip_l + hip_r) / 2 in
  let uprightness := Qabs (shoulder_y - hip_y) in
  Some (Py.min (uprightness / 2) 100).

(** [_analyze_lighting]; [brightness] and [contrast] are the mean and the
    standard deviation of the grey image. *)
Definition analyze_lighting (brightness contrast : Q) : Q :=
  let brightness_score := 100 * (1 - Qabs (brightness - 125) / 125) in
  let contrast_score := 100 * (1 - Qabs (contrast - 60) / 60) in
  let lighting_quality := (brightness_score + contrast_score) / 2 in
  Py.max 0 (Py.min 100 lighting_quality).

(** [_analyze_background]; [edge_density] is the share of edge pixels. *)
Definition analyze_background (edge_density : Q) : Q :=
  let background_score := 100 * (1 - Py.min (edge_density * 5) 1) in
  Py.max 0 (Py.min 100 background_score).

(** [_analyze_professional_presence], by the field the orchestrator
    reads. *)
Definition analyze_professional_presence (has_face has_body : bool)
    (brightness contrast edge_density : Q) : ProfessionalPresenceMetrics :=
  let frame_positioning := if has_face && has_body then 75 else 50 in
  let lighting_quality := analyze_lighting brightness contrast in
  let background_score := analyze_background edge_density in
  let attire_score := 70 in
  {| pm_overall_polish :=
       (frame_positioning + lighting_quality + background_score + attire_score) / 4 |}.

(** [analyze], once the landmark detectors have run: the metrics of a
    detected face or body are [facial] and [body], and the empty metrics
    stand in for what was not detected. *)
Definition analyze (has_face has_body : bool) (facial : FacialMetrics) (body : BodyMetrics)
    (brightness contrast edge_density : Q) : VisionAnalysisResult :=
  {| vr_facial := if has_face then facial else empty_facial_metrics;
     vr_body := if has_body then body else empty_body_metrics;
     vr_professional :=
       analyze_professional_presence has_face has_body brightness contrast edge_density |}.

End VisionAnalyzer.

(** A face mesh of 478 landmarks and a pose of 33, laid out on a line. *)
Definition sample_face : list (Q * Q * Q) :=
  map (fun i => (inject_Z (Z.of_nat i), inject_Z (Z.of_nat i) / 10, 0)) (seq 0 478).

Definition sample_pose : list (Q * Q * Q * Q) :=
  map (fun i => (inject_Z (Z.of_nat i), inject_Z (Z.of_nat i) * 3, 0, 1)) (seq 0 33).

(** Frame energies of a recording: sound, nine silent frames, sound again,
    then silence to the end; and the frame clock at 16 kHz, 25 ms a hop. *)
Definition recording : list Q := [10] ++ replicate 9 0 ++ [10] ++ replicate 12 0.

Definition frames_to_ms (frames : nat) : Z := (Z.of_nat frames * 25)%Z.

(** A pause as the loop of [_detect_pauses] records it: more than 8
    frames long. *)
Definition recorded_pause (to_ms : nat -> Z) (p : AudioAnalyzer.Pause) : Prop :=
  exists start frames,
    (8 < frames)%nat
    /\ AudioAnalyzer.pause_start_ms p = to_ms start
    /\ AudioAnalyzer.pause_duration_ms p = to_ms frames
    /\ AudioAnalyzer.pause_type p
       = (if (500 <? to_ms frames)%Z then "strategic" else "hesitation").

(** * Properties *)

(** ** Arithmetic of the Python operations *)

Lemma py_max_Qmax a b : Py.max a b == Qmax a b.
Proof.
  unfold Py.max. destruct (Qlt_le_dec a b) as [H|H].
  - symmetry. apply Q.max_r. lra.
  - symmetry. apply Q.max_l. exact H.
Qed.

Lemma py_min_Qmin a b : Py.min a b == Qmin a b.
Proof.
  unfold Py.min. destruct (Qlt_le_dec b a) as [H|H].
  - symmetry. apply Q.min_r. lra.
  - symmetry. apply Q.min_l. exact H.
Qed.

#[export] Instance py_max_proper : Proper (Qeq ==> Qeq ==> Qeq) Py.max.
Proof. intros a a' Ha b b' Hb. rewrite !py_max_Qmax, Ha, Hb. reflexivity. Qed.

#[export] Instance py_min_proper : Proper (Qeq ==> Qeq ==> Qeq) Py.min.
Proof. intros a a' Ha b b' Hb. rewrite !py_min_Qmin, Ha, Hb. reflexivity. Qed.

#[export] Instance clamp_proper : Proper (Qeq ==> Qeq) clamp.
Proof. intros a a' Ha. unfold clamp. rewrite Ha. reflexivity. Qed.

Lemma clamp_spec x : clamp x == Spec.clamp x.
Proof. unfold clamp, Spec.clamp. rewrite py_max_Qmax, py_min_Qmin. reflexivity. Qed.

Lemma clamp_bounds x : 0 <= clamp x <= 100.
Proof.
  unfold clamp, Py.max, Py.min.
  destruct (Qlt_le_dec x 100); destruct (Qlt_le_dec 0 _); lra.
Qed.

Lemma clamp_id x : 0 <= x <= 100 -> clamp x == x.
Proof.
  intros H. unfold clamp, Py.max, Py.min.
  destruct (Qlt_le_dec x 100); destruct (Qlt_le_dec 0 _); lra.
Qed.

Lemma py_max0_nonneg x : 0 <= Py.max 0 x.
Proof. unfold Py.max. destruct (Qlt_le_dec 0 x); lra. Qed.

Lemma py_max0_le x y : x <= y -> 0 <= y -> Py.max 0 x <= y.
Proof. intros. unfold Py.max. destruct (Qlt_le_dec 0 x); lra. Qed.

Lemma py_sum_fold_right xs : Py.sum xs == fold_right Qplus 0 xs.
Proof.
  unfold Py.sum.
  assert (G : forall acc, fold_left Qplus xs acc == acc + fold_right Qplus 0 xs).
  { induction xs as [|x xs IH]; intros acc; simpl.
    - lra.
    - rewrite IH. lra. }
  rewrite G. lra.
Qed.

Lemma posture_score_spec p : posture_score p = Spec.posture_score p.
Proof.
  unfold posture_score, Spec.posture_score.
  destruct (String.eqb_spec p "open"); destruct (decide (p = "open")); try congruence.
  destruct (String.eqb_spec p "neutral"); destruct (decide (p = "neutral")); congruence.
Qed.

(** ** Score fusion *)

Lemma confidence_all_present a v bl t f b pv ec p :
  tone a = Some t -> pitch_variance t = Some pv ->
  facial v = Some f -> eye_contact f = Some ec ->
  body v = Some b -> posture b = Some p ->
  confidence (calculate_scores (Some a) (Some v) bl)
  = clamp (Py.sum [Py.max 0 (100 - pv * 2) * (4 # 10); ec * (3 # 10);
                   posture_score p * (3 # 10)]).
Proof.
  intros Ht Hpv Hf Hec Hb Hp.
  unfold calculate_scores, confidence_components, audio_key, vision_key. simpl.
  rewrite Ht, Hf, Hb. simpl. rewrite Hpv, Hec, Hp. reflexivity.
Qed.

(** C5: with the vocal-steadiness, eye-contact and posture signals all
    present, the confidence score is
    0.4·max(0, 100 − 2·pitchVariance) + 0.3·eyeContact + 0.3·postureScore
    clamped to [0, 100], postureScore being 90 for "open", 70 for "neutral"
    and 50 otherwise. *)
Theorem C5_confidence_fusion a v bl t f b pv ec p :
  tone a = Some t -> pitch_variance t = Some pv ->
  facial v = Some f -> eye_contact f = Some ec ->
  body v = Some b -> posture b = Some p ->
  confidence (calculate_scores (Some a) (Some v) bl) == Spec.confidence pv ec p
  /\ 0 <= confidence (calculate_scores (Some a) (Some v) bl) <= 100.
Proof.
  intros Ht Hpv Hf Hec Hb Hp.
  rewrite (confidence_all_present a v bl t f b pv ec p) by assumption.
  split; [|apply clamp_bounds].
  unfold Spec.confidence. rewrite <- clamp_spec. apply clamp_proper.
  rewrite py_sum_fold_right, posture_score_spec. cbn [fold_right].
  rewrite py_max_Qmax.
  assert (E : 100 - pv * 2 == 100 - 2 * pv) by ring.
  rewrite E. ring.
Qed.

Lemma C5_confidence_fusion_witness :
  confidence (calculate_scores (Some (audio_to_dict Fake.audio_result))
                (Some (vision_to_dict Fake.vision_result)) None)
  == Spec.confidence 10 60 "open".
Proof.
  apply (proj1 (C5_confidence_fusion (audio_to_dict Fake.audio_result)
                  (vision_to_dict Fake.vision_result) None _ _ _ 10 60 "open"
                  eq_refl eq_refl eq_refl eq_refl eq_refl eq_refl)).
Defined.

Example confidence_example :
  confidence (calculate_scores (Some (audio_to_dict Fake.audio_result))
                (Some (vision_to_dict Fake.vision_result)) None) == 77.
Proof. vm_compute. reflexivity. Qed.

(** ** The processor's methods, case by case *)

Section ProcessorFacts.

Variable C : Collaborators.

Lemma generate_feedback_missing p now_ms sid a v ts :
  sessions p !! sid = None ->
  generate_feedback p now_ms sid a v ts = (p, Raise (NotFound sid)).
Proof. intros H. unfold generate_feedback. rewrite H. reflexivity. Qed.

Lemma generate_feedback_found p now_ms sid a v ts s :
  sessions p !! sid = Some s ->
  let scores := calculate_scores a v (baseline s) in
  let t := get_or ts now_ms in
  generate_feedback p now_ms sid a v ts
  = (set_sessions p
       (<[sid := set_score_history s
                   (push_history (score_history s)
                      {| h_timestamp_ms := t; h_scores := scores |})]> (sessions p)),
     Ok {| fb_timestamp_ms := t; fb_session_id := sid; fb_type := "realtime";
           fb_scores := scores;
           fb_metrics := {| m_facial := v ≫= facial; m_body := v ≫= body;
                            m_voice := a ≫= tone; m_speech := a ≫= speech |};
           fb_suggestions := generate_suggestions a v scores;
           fb_trends := calculate_trends s scores |}).
Proof. intros H. unfold generate_feedback. rewrite H. reflexivity. Qed.

Lemma process_audio_missing p sid data ts rate :
  enable_audio p = true -> sessions p !! sid = None ->
  process_audio C p sid data ts rate = (p, Raise (NotFound sid)).
Proof. intros He H. unfold process_audio. rewrite He, H. reflexivity. Qed.

Lemma process_audio_found p sid data ts rate s r :
  enable_audio p = true -> sessions p !! sid = Some s ->
  (length data mod 4 = 0)%nat ->
  audio_analyze C (NdArray data) ts rate = Ok r ->
  process_audio C p sid data ts rate
  = (set_sessions p
       (<[sid := set_audio_chunk_count s (audio_chunk_count s + 1)]> (sessions p)),
     Ok (Some (audio_to_dict r))).
Proof.
  intros He H Hlen Hr. unfold process_audio, frombuffer_float32.
  rewrite He, H, Hlen. simpl. rewrite Hr. reflexivity.
Qed.

Lemma process_audio_raises p sid data ts rate s e :
  enable_audio p = true -> sessions p !! sid = Some s ->
  (length data mod 4 = 0)%nat ->
  audio_analyze C (NdArray data) ts rate = Raise e ->
  process_audio C p sid data ts rate = (p, Raise e).
Proof.
  intros He H Hlen Hr. unfold process_audio, frombuffer_float32.
  rewrite He, H, Hlen. simpl. rewrite Hr. reflexivity.
Qed.

Lemma process_frame_disabled p sid data ts fn :
  enable_vision p = false -> process_frame C p sid data ts fn = (p, Ok None).
Proof. intros He. unfold process_frame. rewrite He. reflexivity. Qed.

Lemma process_frame_rejected p sid data ts fn :
  enable_vision p = true -> frame_sample_rate p <> 0%Z -> ~ gate_accepts p ->
  process_frame C p sid data ts fn
  = (set_frame_counter p (frame_counter p + 1), Ok None).
Proof.
  intros He Hr Hg. unfold process_frame. rewrite He. simpl.
  destruct (Z.eqb_spec (frame_sample_rate p) 0); [contradiction|].
  destruct (Z.eqb_spec ((frame_counter p + 1) mod frame_sample_rate p) 0);
    [contradiction|reflexivity].
Qed.

Lemma process_frame_accepted p sid data ts fn :
  enable_vision p = true -> frame_sample_rate p <> 0%Z -> gate_accepts p ->
  process_frame C p sid data ts fn
  = let p := set_frame_counter p (frame_counter p + 1) in
    match sessions p !! sid with
    | None => (p, Raise (NotFound sid))
    | Some session =>
        match decode_frame C data with
        | None => (p, Ok None)
        | Some frame =>
            match vision_analyze C frame (frame_number_or fn (frame_counter p)) ts with
            | Raise e => (p, Raise e)
            | Ok r =>
                (set_sessions p
                   (<[sid := set_frame_count session (frame_count session + 1)]>
                      (sessions p)),
                 Ok (Some (vision_to_dict r)))
            end
        end
    end.
Proof.
  intros He Hr Hg. unfold process_frame. rewrite He. simpl.
  destruct (Z.eqb_spec (frame_sample_rate p) 0); [contradiction|].
  destruct (Z.eqb_spec ((frame_counter p + 1) mod frame_sample_rate p) 0);
    [reflexivity|contradiction].
Qed.

End ProcessorFacts.

Lemma clamp_lt x c : x < c -> 0 < c -> clamp x < c.
Proof.
  intros. unfold clamp, Py.max, Py.min.
  destruct (Qlt_le_dec x 100); destruct (Qlt_le_dec 0 _); lra.
Qed.

Lemma clamp_le x c : x <= c -> 0 <= c -> clamp x <= c.
Proof.
  intros. unfold clamp, Py.max, Py.min.
  destruct (Qlt_le_dec x 100); destruct (Qlt_le_dec 0 _); lra.
Qed.

Lemma py_min_le_r a b : Py.min a b <= b.
Proof. unfold Py.min. destruct (Qlt_le_dec b a); lra. Qed.

(** Scores from audio metrics as the extractor's [to_dict] gives them, with
    no video metrics. *)
Lemma audio_only_scores r bl :
  let sc := calculate_scores (Some (audio_to_dict r)) None bl in
  confidence sc = clamp (Py.sum [Py.max 0 (100 - tm_pitch_variance (ar_tone r) * 2) * (4 # 10)])
  /\ engagement sc
     = clamp (Py.sum [Py.min ((snd (tm_pitch_range (ar_tone r))
                               - fst (tm_pitch_range (ar_tone r))) / 3) 100 * (1 # 2)])
  /\ clarity sc
     = clamp (Py.sum [sm_articulation_score (ar_speech r) * (1 # 2);
                      Py.max 0 (100 - Qabs (sm_speaking_rate (ar_speech r) - 150) * 2)
                      * (1 # 2)])
  /\ authenticity sc = 70
  /\ professionalPresence sc = 70.
Proof. repeat split; reflexivity. Qed.

(** ** Scenario A: audio only *)

(** C10, as the code has it: after starting a session and ingesting one
    audio chunk whose metrics report a speaking rate of 190, feedback with
    no video metrics has clarity = clamp(articulation/2 + 10), below 70 when
    articulation is at most 100; authenticity and professionalPresence are
    exactly 70; confidence is clamp(0.4·max(0, 100 − 2·pitchVariance)), at
    most 40 for a non-negative variance, and engagement is
    clamp(0.5·min((pitchMax − pitchMin)/3, 100)), at most 50: the
    extractor's dict always carries the tone metrics, so neither stays at
    the default. *)
Theorem C10_audio_only_feedback C p0 now sid uid stype data ts rate now_ms fts r :
  enable_audio p0 = true ->
  (length data mod 4 = 0)%nat ->
  audio_analyze C (NdArray data) ts rate = Ok r ->
  sm_speaking_rate (ar_speech r) == 190 ->
  sm_articulation_score (ar_speech r) <= 100 ->
  0 <= tm_pitch_variance (ar_tone r) ->
  let p1 := fst (start_session p0 now sid uid stype) in
  exists p2 p3 fb,
    process_audio C p1 sid data ts rate = (p2, Ok (Some (audio_to_dict r)))
    /\ generate_feedback p2 now_ms sid (Some (audio_to_dict r)) None fts = (p3, Ok fb)
    /\ clarity (fb_scores fb) == clamp (sm_articulation_score (ar_speech r) / 2 + 10)
    /\ clarity (fb_scores fb) < 70
    /\ authenticity (fb_scores fb) = 70
    /\ professionalPresence (fb_scores fb) = 70
    /\ confidence (fb_scores fb)
       == clamp ((4 # 10) * Py.max 0 (100 - 2 * tm_pitch_variance (ar_tone r)))
    /\ confidence (fb_scores fb) <= 40
    /\ engagement (fb_scores fb)
       == clamp ((1 # 2) * Py.min ((snd (tm_pitch_range (ar_tone r))
                                    - fst (tm_pitch_range (ar_tone r))) / 3) 100)
    /\ engagement (fb_scores fb) <= 50.
Proof.
  intros He Hlen Hr Hrate Hart Hpv p1.
  assert (H1 : sessions p1 !! sid
               = Some {| session_id := sid; user_id := uid; session_type := stype;
                         start_time := now; frame_count := 0; audio_chunk_count := 0;
                         baseline := None; score_history := [] |}).
  { subst p1. simpl. apply lookup_insert_eq. }
  eexists _, _, _. split.
  { eapply process_audio_found; eauto. }
  split.
  { apply generate_feedback_found. simpl. apply lookup_insert_eq. }
  cbn [fb_scores].
  destruct (audio_only_scores r
              (baseline (set_audio_chunk_count
                 {| session_id := sid; user_id := uid; session_type := stype;
                    start_time := now; frame_count := 0; audio_chunk_count := 0;
                    baseline := None; score_history := [] |} (0 + 1))))
    as (Hc & Hen & Hcl & Hau & Hpp).
  assert (Hclv : Py.sum [sm_articulation_score (ar_speech r) * (1 # 2);
                         Py.max 0 (100 - Qabs (sm_speaking_rate (ar_speech r) - 150) * 2)
                         * (1 # 2)]
                 == sm_articulation_score (ar_speech r) / 2 + 10).
  { rewrite py_sum_fold_right. cbn [fold_right]. rewrite Hrate.
    assert (E : Py.max 0 (100 - Qabs (190 - 150) * 2) == 20) by (vm_compute; reflexivity).
    rewrite E. field. }
  assert (Hcv : Py.sum [Py.max 0 (100 - tm_pitch_variance (ar_tone r) * 2) * (4 # 10)]
                == (4 # 10) * Py.max 0 (100 - 2 * tm_pitch_variance (ar_tone r))).
  { rewrite py_sum_fold_right. cbn [fold_right].
    assert (E : 100 - tm_pitch_variance (ar_tone r) * 2
                == 100 - 2 * tm_pitch_variance (ar_tone r)) by ring.
    rewrite E. ring. }
  rewrite Hc, Hen, Hcl, Hau, Hpp.
  repeat split.
  - rewrite Hclv. reflexivity.
  - rewrite Hclv. apply clamp_lt; [|lra].
    assert (E : sm_articulation_score (ar_speech r) / 2
                == sm_articulation_score (ar_speech r) * (1 # 2)) by field.
    rewrite E. lra.
  - rewrite Hcv. reflexivity.
  - rewrite Hcv. apply clamp_le; [|lra].
    pose proof (py_max0_le (100 - 2 * tm_pitch_variance (ar_tone r)) 100). lra.
  - rewrite py_sum_fold_right. cbn [fold_right].
    apply clamp_proper. ring.
  - rewrite py_sum_fold_right. cbn [fold_right]. apply clamp_le; [|lra].
    pose proof (py_min_le_r ((snd (tm_pitch_range (ar_tone r))
                              - fst (tm_pitch_range (ar_tone r))) / 3) 100). lra.
Qed.

Lemma C10_audio_only_feedback_witness :
  exists p2 p3 fb,
    process_audio Fake.working Fake.processor1 "s1" [] (Some (JNumber 0)) 16000
    = (p2, Ok (Some (audio_to_dict Fake.audio_result)))
    /\ generate_feedback p2 0 "s1" (Some (audio_to_dict Fake.audio_result)) None
         (Some 1000%Z) = (p3, Ok fb)
    /\ clarity (fb_scores fb) < 70
    /\ confidence (fb_scores fb) <= 40
    /\ engagement (fb_scores fb) == 20.
Proof.
  destruct (C10_audio_only_feedback Fake.working Fake.processor0 0 "s1" "u1" "practice"
              [] (Some (JNumber 0)) 16000%Z 0%Z (Some 1000%Z) Fake.audio_result)
    as (p2 & p3 & fb & H1 & H2 & _ & H4 & _ & _ & _ & H8 & H9 & _).
  - reflexivity.
  - reflexivity.
  - reflexivity.
  - reflexivity.
  - vm_compute. discriminate.
  - vm_compute. discriminate.
  - exists p2, p3, fb. repeat split; try assumption.
    rewrite H9. vm_compute. reflexivity.
Defined.

(** C10 as stated fails: in Scenario A the confidence and engagement
    scores are 32 and 20, not the neutral 70. *)
Lemma C10_counterexample :
  exists sc, Fake.scenario_A = Some sc
             /\ sm_speaking_rate (ar_speech Fake.audio_result) = 190
             /\ confidence sc == 32 /\ engagement sc == 20
             /\ ~ confidence sc == 70 /\ ~ engagement sc == 70.
Proof.
  eexists. split; [vm_compute; reflexivity|].
  repeat split; try (vm_compute; reflexivity); vm_compute; discriminate.
Qed.

(** ** Trends *)

Lemma round1_rounded x : Spec.rounded_to_tenth x (Py.round1 x).
Proof.
  unfold Spec.rounded_to_tenth, Py.round1.
  set (y := x * 10). set (f := Qfloor y).
  pose proof (Qfloor_le y) as Hlo. pose proof (Qlt_floor y) as Hhi.
  fold f in Hlo, Hhi. rewrite inject_Z_plus in Hhi.
  change (inject_Z 1) with 1 in Hhi.
  assert (Hy : x == y * (1 # 10)) by (unfold y; field).
  split; [eexists; reflexivity|].
  assert (D : forall n : Z, inject_Z n / 10 == inject_Z n * (1 # 10)) by (intros; field).
  apply Qabs_Qle_condition. rewrite D.
  destruct (Qlt_le_dec (y - inject_Z f) (1 # 2)) as [H|H].
  - lra.
  - destruct (Qlt_le_dec (1 # 2) (y - inject_Z f)) as [H'|H'].
    + rewrite inject_Z_plus. change (inject_Z 1) with 1. lra.
    + destruct (Z.even f).
      * lra.
      * rewrite inject_Z_plus. change (inject_Z 1) with 1. lra.
Qed.

Lemma last_n_split {A} (n : nat) (l : list A) :
  (n <= length l)%nat ->
  exists older, l = older ++ Py.last_n n l /\ length (Py.last_n n l) = n.
Proof.
  intros H. unfold Py.last_n. exists (take (length l - n) l). split.
  - symmetry. apply take_drop.
  - rewrite length_drop. lia.
Qed.

Lemma average_mean (key : Scores -> Q) entries :
  average key entries == Spec.mean (map (fun h => key (h_scores h)) entries).
Proof.
  unfold average, Spec.mean. rewrite py_sum_fold_right, length_map. reflexivity.
Qed.

Lemma calculate_trends_short s cur :
  (length (score_history s) < 5)%nat ->
  calculate_trends s cur
  = {| confidenceDelta := 0; engagementDelta := 0; clarityDelta := 0 |}.
Proof.
  intros H. unfold calculate_trends.
  destruct (Nat.ltb_spec (length (score_history s)) 5); [reflexivity|lia].
Qed.

Lemma calculate_trends_long s cur :
  (5 <= length (score_history s))%nat ->
  calculate_trends s cur
  = let recent := Py.last_n 5 (score_history s) in
    {| confidenceDelta := Py.round1 (confidence cur - average confidence recent);
       engagementDelta := Py.round1 (engagement cur - average engagement recent);
       clarityDelta := Py.round1 (clarity cur - average clarity recent) |}.
Proof.
  intros H. unfold calculate_trends.
  destruct (Nat.ltb_spec (length (score_history s)) 5); [lia|reflexivity].
Qed.

#[export] Instance rounded_to_tenth_proper :
  Proper (Qeq ==> Qeq ==> iff) Spec.rounded_to_tenth.
Proof.
  intros x x' Hx r r' Hr. unfold Spec.rounded_to_tenth.
  split; intros [[n Hn] Hd]; (split; [exists n|]).
  - rewrite <- Hr. exact Hn.
  - rewrite <- Hr, <- Hx. exact Hd.
  - rewrite Hr. exact Hn.
  - rewrite Hr, Hx. exact Hd.
Qed.

(** C6: the trends of a feedback message are computed on the history as
    it stood before the message's scores are appended. With fewer than 5
    entries all three deltas are 0; otherwise each delta is the current
    score minus the arithmetic mean of that score over the last 5 entries,
    rounded to one decimal place. *)
Theorem C6_trend_deltas p now_ms sid a v ts s :
  sessions p !! sid = Some s ->
  exists p' fb,
    generate_feedback p now_ms sid a v ts = (p', Ok fb)
    /\ (score_history <$> sessions p' !! sid)
       = Some (push_history (score_history s)
                 {| h_timestamp_ms := fb_timestamp_ms fb; h_scores := fb_scores fb |})
    /\ ((length (score_history s) < 5)%nat ->
        fb_trends fb = {| confidenceDelta := 0; engagementDelta := 0; clarityDelta := 0 |})
    /\ ((5 <= length (score_history s))%nat ->
        exists older recent,
          score_history s = older ++ recent /\ length recent = 5%nat
          /\ Spec.rounded_to_tenth
               (confidence (fb_scores fb)
                - Spec.mean (map (fun h => confidence (h_scores h)) recent))
               (confidenceDelta (fb_trends fb))
          /\ Spec.rounded_to_tenth
               (engagement (fb_scores fb)
                - Spec.mean (map (fun h => engagement (h_scores h)) recent))
               (engagementDelta (fb_trends fb))
          /\ Spec.rounded_to_tenth
               (clarity (fb_scores fb)
                - Spec.mean (map (fun h => clarity (h_scores h)) recent))
               (clarityDelta (fb_trends fb))).
Proof.
  intros Hs. eexists _, _. split; [apply generate_feedback_found; exact Hs|].
  cbn [fb_trends fb_scores fb_timestamp_ms sessions set_sessions].
  split; [rewrite lookup_insert_eq; reflexivity|].
  split.
  - intros Hlen. apply calculate_trends_short. exact Hlen.
  - intros Hlen. destruct (last_n_split 5 (score_history s) Hlen) as (older & Hsplit & Hl5).
    exists older, (Py.last_n 5 (score_history s)).
    split; [exact Hsplit|]. split; [exact Hl5|].
    rewrite calculate_trends_long by exact Hlen.
    cbn [confidenceDelta engagementDelta clarityDelta].
    rewrite <- !average_mean.
    repeat split; apply round1_rounded.
Qed.

Lemma C6_trend_deltas_witness :
  exists p' fb,
    generate_feedback Fake.processor_5x80 0 "s1"
      (Some (audio_to_dict Fake.audio_result)) (Some (vision_to_dict Fake.vision_result))
      (Some 6000%Z) = (p', Ok fb)
    /\ exists older recent,
         score_history Fake.session_5x80 = older ++ recent /\ length recent = 5%nat
         /\ Spec.rounded_to_tenth
              (confidence (fb_scores fb)
               - Spec.mean (map (fun h => confidence (h_scores h)) recent))
              (confidenceDelta (fb_trends fb)).
Proof.
  destruct (C6_trend_deltas Fake.processor_5x80 0%Z "s1"
              (Some (audio_to_dict Fake.audio_result))
              (Some (vision_to_dict Fake.vision_result)) (Some 6000%Z)
              Fake.session_5x80 eq_refl)
    as (p' & fb & H1 & _ & _ & H4).
  exists p', fb. split; [exact H1|].
  destruct (H4 ltac:(simpl; lia)) as (older & recent & Ha & Hb & Hc & _).
  exists older, recent. split; [exact Ha|]. split; [exact Hb|exact Hc].
Defined.

(** Scenario B: after five cycles at confidence 80, a cycle at 90 reports a
    confidence delta of 10. *)
Example trend_scenario_B :
  confidenceDelta (calculate_trends Fake.session_5x80 (Fake.scores_with 90)) == 10.
Proof. vm_compute. reflexivity. Qed.

(** Ties go to the even tenth, as Python's [round] does. *)
Example round1_ties : Py.round1 (1 # 4) == 2 # 10 /\ Py.round1 (3 # 4) == 8 # 10.
Proof. split; vm_compute; reflexivity. Qed.

(** ** The history cap *)

Lemma last_n_most_recent {A} (n : nat) (l : list A) :
  Py.last_n n l = Spec.most_recent n l.
Proof.
  unfold Py.last_n, Spec.most_recent.
  rewrite firstn_rev, rev_involutive. reflexivity.
Qed.

Lemma last_n_length {A} (n : nat) (l : list A) :
  length (Py.last_n n l) = Nat.min n (length l).
Proof. unfold Py.last_n. rewrite length_drop. lia. Qed.

Lemma push_history_last_n h e : push_history h e = Py.last_n 50 (h ++ [e]).
Proof.
  unfold push_history.
  destruct (Nat.ltb_spec 50 (length (h ++ [e]))) as [H|H]; [reflexivity|].
  unfold Py.last_n. replace (length (h ++ [e]) - 50)%nat with 0%nat by lia. reflexivity.
Qed.

Lemma last_n_snoc {A} (n : nat) (l : list A) (x : A) :
  (1 <= n)%nat -> Py.last_n n (Py.last_n n l ++ [x]) = Py.last_n n (l ++ [x]).
Proof.
  intros Hn. unfold Py.last_n at 1 3. rewrite !length_app, last_n_length. simpl.
  unfold Py.last_n.
  destruct (Nat.le_gt_cases (length l) n) as [H|H].
  - replace (length l - n)%nat with 0%nat by lia. simpl.
    replace (Nat.min n (length l)) with (length l) by lia. reflexivity.
  - replace (Nat.min n (length l) + 1 - n)%nat with 1%nat by lia.
    rewrite !drop_app_le by (rewrite ?length_drop; lia).
    rewrite drop_drop. f_equal. f_equal. lia.
Qed.

Lemma last_n_app_keep {A} (n : nat) (l k : list A) :
  (1 <= n)%nat -> Py.last_n n (Py.last_n n l ++ k) = Py.last_n n (l ++ k).
Proof.
  intros Hn. revert l. induction k as [|x k IH]; intros l.
  - rewrite !app_nil_r. unfold Py.last_n at 1. rewrite last_n_length.
    replace (Nat.min n (length l) - n)%nat with 0%nat by lia. reflexivity.
  - replace (Py.last_n n l ++ x :: k) with ((Py.last_n n l ++ [x]) ++ k)
      by (rewrite <- app_assoc; reflexivity).
    replace (l ++ x :: k) with ((l ++ [x]) ++ k) by (rewrite <- app_assoc; reflexivity).
    rewrite <- (IH (Py.last_n n l ++ [x])), <- (IH (l ++ [x])).
    rewrite last_n_snoc by exact Hn. reflexivity.
Qed.

(** A run of feedback cycles on a stored session never fails, and leaves
    the last 50 of the old entries followed by the new ones. *)
Lemma feedback_cycles_history calls : forall p now_ms sid s,
  sessions p !! sid = Some s ->
  exists s',
    sessions (fst (feedback_cycles p now_ms sid calls)) !! sid = Some s'
    /\ length (snd (feedback_cycles p now_ms sid calls)) = length calls
    /\ Forall (fun r => exists fb, r = Ok fb) (snd (feedback_cycles p now_ms sid calls))
    /\ Py.last_n 50 (score_history s')
       = Py.last_n 50 (score_history s
                       ++ concat (map entry_of (snd (feedback_cycles p now_ms sid calls))))
    /\ ((length (score_history s) <= 50)%nat -> (length (score_history s') <= 50)%nat).
Proof.
  induction calls as [|[[a v] ts] calls IH]; intros p now_ms sid s Hs.
  - exists s. simpl. rewrite app_nil_r. repeat split; auto.
  - cbn [feedback_cycles].
    rewrite (generate_feedback_found p now_ms sid a v ts s Hs). cbv zeta.
    set (sc := calculate_scores a v (baseline s)).
    set (e := {| h_timestamp_ms := get_or ts now_ms; h_scores := sc |}).
    set (s1 := set_score_history s (push_history (score_history s) e)).
    set (p1 := set_sessions p (<[sid := s1]> (sessions p))).
    assert (Hs1 : sessions p1 !! sid = Some s1) by apply lookup_insert_eq.
    destruct (IH p1 now_ms sid s1 Hs1) as (s' & H1 & H2 & H3 & H4 & H5).
    destruct (feedback_cycles p1 now_ms sid calls) as [p2 rs] eqn:E.
    cbn [fst snd] in *.
    exists s'. split; [exact H1|]. split; [simpl; lia|].
    split; [constructor; [eexists; reflexivity|exact H3]|].
    split.
    + rewrite H4. cbn [map concat entry_of fb_timestamp_ms fb_scores].
      subst s1. cbn [score_history set_score_history].
      rewrite push_history_last_n, last_n_app_keep by lia.
      rewrite <- app_assoc. reflexivity.
    + intros Hle. apply H5. subst s1. cbn [score_history set_score_history].
      rewrite push_history_last_n, last_n_length. lia.
Qed.

(** C7: a session's history never holds more than 50 entries; after 60
    feedback messages on a new session it holds exactly 50, the 50 most
    recent in order, the oldest 10 dropped without notice. *)
Theorem C7_history_cap p now_ms sid s calls :
  sessions p !! sid = Some s ->
  score_history s = [] ->
  let run := feedback_cycles p now_ms sid calls in
  let entries := concat (map entry_of (snd run)) in
  exists s',
    sessions (fst run) !! sid = Some s'
    /\ Forall (fun r => exists fb, r = Ok fb) (snd run)
    /\ length entries = length calls
    /\ (length (score_history s') <= 50)%nat
    /\ score_history s' = Spec.most_recent 50 entries
    /\ (length calls = 60%nat ->
        length (score_history s') = 50%nat /\ score_history s' = drop 10 entries).
Proof.
  intros Hs Hnil run entries.
  destruct (feedback_cycles_history calls p now_ms sid s Hs)
    as (s' & H1 & H2 & H3 & H4 & H5).
  fold run in H1, H2, H3, H4. rewrite Hnil in H4, H5. cbn [app] in H4.
  fold entries in H4.
  assert (Hlen : length entries = length calls).
  { rewrite <- H2. subst entries. clear -H3.
    induction H3 as [|r rs [fb ->] _ IH]; [reflexivity|].
    simpl. rewrite IH. reflexivity. }
  assert (Hcap : (length (score_history s') <= 50)%nat) by (apply H5; simpl; lia).
  assert (Hid : Py.last_n 50 (score_history s') = score_history s').
  { unfold Py.last_n. replace (length (score_history s') - 50)%nat with 0%nat by lia.
    reflexivity. }
  rewrite Hid in H4.
  exists s'. split; [exact H1|]. split; [exact H3|]. split; [exact Hlen|].
  split; [exact Hcap|]. split; [rewrite H4; apply last_n_most_recent|].
  intros H60. rewrite H4. split.
  - rewrite last_n_length. lia.
  - unfold Py.last_n. rewrite Hlen, H60. reflexivity.
Qed.

Lemma C7_history_cap_witness :
  let run := feedback_cycles Fake.processor1 0 "s1" Fake.sixty_calls in
  exists s',
    sessions (fst run) !! "s1" = Some s'
    /\ length (score_history s') = 50%nat
    /\ score_history s' = drop 10 (concat (map entry_of (snd run))).
Proof.
  intros run.
  destruct (C7_history_cap Fake.processor1 0%Z "s1"
              {| session_id := "s1"; user_id := "u1"; session_type := "practice";
                 start_time := 0; frame_count := 0; audio_chunk_count := 0;
                 baseline := None; score_history := [] |}
              Fake.sixty_calls eq_refl eq_refl)
    as (s' & H1 & _ & _ & _ & _ & H6).
  destruct (H6 eq_refl) as [Ha Hb].
  exists s'. split; [exact H1|]. split; [exact Ha|exact Hb].
Defined.

Example history_cap_timestamps :
  (map h_timestamp_ms <$>
     (score_history <$>
        sessions (fst (feedback_cycles Fake.processor1 0 "s1" Fake.sixty_calls)) !! "s1"))
  = Some (map Z.of_nat (seq 11 50)).
Proof. vm_compute. reflexivity. Qed.

(** ** Session lookup *)

(** C1, as the code has it: on a session id absent from the store,
    [generate_feedback] fails with NotFound at once; [process_audio] does so
    when audio is enabled; [process_frame] does so only for a frame the
    sampling gate accepts, the gate coming before the lookup: a rejected
    frame returns [None] (skipped) whatever the session id. The store is
    left as it was; NotFound is a [ValueError], a 404 for HTTP callers. *)
Theorem C1_absent_session C p sid :
  sessions p !! sid = None ->
  (forall now_ms a v ts,
      generate_feedback p now_ms sid a v ts = (p, Raise (NotFound sid)))
  /\ (enable_audio p = true -> forall data ts rate,
        process_audio C p sid data ts rate = (p, Raise (NotFound sid)))
  /\ (enable_vision p = true -> frame_sample_rate p <> 0%Z -> gate_accepts p ->
      forall data ts fn,
        process_frame C p sid data ts fn
        = (set_frame_counter p (frame_counter p + 1), Raise (NotFound sid)))
  /\ (enable_vision p = true -> frame_sample_rate p <> 0%Z -> ~ gate_accepts p ->
      forall data ts fn,
        process_frame C p sid data ts fn
        = (set_frame_counter p (frame_counter p + 1), Ok None))
  /\ (forall A, @http_error A (NotFound sid) = HttpException 404 (NotFound sid)).
Proof.
  intros Hs. split; [|split; [|split; [|split]]].
  - intros. apply generate_feedback_missing. exact Hs.
  - intros He data ts rate. apply process_audio_missing; assumption.
  - intros He Hr Hg data ts fn.
    rewrite process_frame_accepted by assumption. cbv zeta.
    cbn [sessions set_frame_counter]. rewrite Hs. reflexivity.
  - intros He Hr Hg data ts fn. apply process_frame_rejected; assumption.
  - reflexivity.
Qed.

Lemma C1_absent_session_witness :
  generate_feedback (set_frame_counter Fake.processor0 2) 0 "ghost" None None None
  = (set_frame_counter Fake.processor0 2, Raise (NotFound "ghost"))
  /\ process_audio Fake.working (set_frame_counter Fake.processor0 2) "ghost" [] None 16000
     = (set_frame_counter Fake.processor0 2, Raise (NotFound "ghost"))
  /\ process_frame Fake.working (set_frame_counter Fake.processor0 2) "ghost" [] None None
     = (set_frame_counter Fake.processor0 3, Raise (NotFound "ghost")).
Proof.
  destruct (C1_absent_session Fake.working (set_frame_counter Fake.processor0 2) "ghost"
              eq_refl) as (H1 & H2 & H3 & _).
  split; [apply H1|]. split; [apply H2; reflexivity|].
  apply (H3 eq_refl); [discriminate|reflexivity].
Defined.

(** C1 as stated fails for [process_frame]: a frame for an unknown session
    that the sampling gate rejects is answered as skipped (HTTP 202), with
    no lookup and no NotFound. *)
Lemma C1_counterexample :
  sessions Fake.processor0 !! "ghost" = None
  /\ process_frame Fake.working Fake.processor0 "ghost" [] (Some (JNumber 0)) None
     = (set_frame_counter Fake.processor0 1, Ok None)
  /\ snd (Routes.process_frame Fake.working Fake.processor0 "ghost" 0 None [])
     = Http202 "Frame skipped (sampling)".
Proof. repeat split. Qed.

(** ** Stopping a session *)

(** C8, as the code has it: [stop] on an unknown id fails with NotFound
    (404) and changes nothing; on a stored session it removes the session
    and, when at least one ScoreSet was recorded, returns a summary with the
    session id, the duration, the frame and audio-chunk counts and the five
    scores each averaged over every recorded ScoreSet; with an empty
    history the summary holds only the session id, the duration and the
    message 'No data collected'. *)
Theorem C8_stop_session p now sid :
  match sessions p !! sid with
  | None =>
      stop_session p now sid = (p, Raise (NotFound sid))
      /\ Routes.stop_session p now sid = (p, HttpException 404 (NotFound sid))
  | Some s =>
      exists summary,
        stop_session p now sid
        = (set_sessions p (delete sid (sessions p)), Ok summary)
        /\ sessions (fst (stop_session p now sid)) !! sid = None
        /\ match score_history s with
           | [] => summary = NoDataSummary (session_id s) (now - start_time s)
           | _ :: _ =>
               exists fs,
                 summary = DataSummary fs
                 /\ sum_session_id fs = session_id s
                 /\ sum_duration fs = now - start_time s
                 /\ sum_frames_processed fs = frame_count s
                 /\ sum_audio_chunks_processed fs = audio_chunk_count s
                 /\ (let mean_of key :=
                       Spec.mean (map (fun h => key (h_scores h)) (score_history s)) in
                     confidence (sum_average_scores fs) == mean_of confidence
                     /\ engagement (sum_average_scores fs) == mean_of engagement
                     /\ clarity (sum_average_scores fs) == mean_of clarity
                     /\ authenticity (sum_average_scores fs) == mean_of authenticity
                     /\ professionalPresence (sum_average_scores fs)
                        == mean_of professionalPresence)
                 /\ Routes.stop_session p now sid
                    = (set_sessions p (delete sid (sessions p)),
                       Http200 {| ssr_session_id := sid;
                                  ssr_duration := sum_duration fs;
                                  ssr_average_scores := sum_average_scores fs;
                                  ssr_frames_processed := sum_frames_processed fs;
                                  ssr_audio_chunks_processed :=
                                    sum_audio_chunks_processed fs |})
           end
  end.
Proof.
  destruct (sessions p !! sid) as [s|] eqn:Hs.
  - exists (calculate_session_summary s now).
    assert (E : stop_session p now sid
                = (set_sessions p (delete sid (sessions p)),
                   Ok (calculate_session_summary s now))).
    { unfold stop_session. rewrite Hs. reflexivity. }
    split; [exact E|]. split.
    { rewrite E. cbn [fst sessions set_sessions]. apply lookup_delete_eq. }
    unfold Routes.stop_session. rewrite E.
    unfold calculate_session_summary.
    destruct (score_history s) as [|h hs] eqn:Hh; [reflexivity|].
    eexists. split; [reflexivity|].
    cbn [sum_session_id sum_duration sum_frames_processed sum_audio_chunks_processed
         sum_average_scores confidence engagement clarity authenticity
         professionalPresence].
    repeat split; apply average_mean.
  - unfold Routes.stop_session, stop_session. rewrite Hs. split; reflexivity.
Qed.

(** C8 as stated fails for a session stopped before any feedback: the
    summary has no averages and no counts, and the HTTP handler answers 500
    on the missing key. The session is removed all the same. *)
Lemma C8_counterexample :
  sessions Fake.processor1 !! "s1" <> None
  /\ snd (stop_session Fake.processor1 10 "s1") = Ok (NoDataSummary "s1" (10 - 0))
  /\ snd (Routes.stop_session Fake.processor1 10 "s1")
     = HttpException 500 (KeyError "average_scores")
  /\ sessions (fst (stop_session Fake.processor1 10 "s1")) !! "s1" = None.
Proof. repeat split. vm_compute. discriminate. Qed.

(** ** The streaming gateway *)

Lemma is_type_true m name : is_type m name = true <-> in_type m = Some name.
Proof.
  unfold is_type. destruct (in_type m) as [t|]; [|split; discriminate].
  destruct (String.eqb_spec t name); split; congruence.
Qed.

Lemma gateway_eta g :
  {| processor := processor g; active_connections := active_connections g |} = g.
Proof. destruct g; reflexivity. Qed.

Section StreamFacts.

Variable C : Collaborators.

Lemma dispatch_heartbeat p sid m l :
  is_type m "heartbeat" = true ->
  dispatch C p sid m l = (p, [OutAck (in_timestamp_ms m)], Ok l).
Proof. intros H. unfold dispatch. rewrite H. reflexivity. Qed.

Lemma dispatch_frame p sid m l :
  is_type m "frame" = true ->
  dispatch C p sid m l
  = match decode_data C m with
    | Raise e => (p, [], Raise e)
    | Ok frame_data =>
        match process_frame C p sid frame_data (in_timestamp_ms m) (in_frame_number m) with
        | (p, Raise e) => (p, [], Raise e)
        | (p, Ok vision_result) =>
            (p, [],
             Ok (if option_truthy vision_truthy vision_result
                 then {| latest_audio_metrics := latest_audio_metrics l;
                         latest_vision_metrics := vision_result;
                         last_feedback_time := last_feedback_time l |}
                 else l))
        end
    end.
Proof.
  intros H. unfold dispatch. rewrite H.
  apply is_type_true in H. unfold is_type at 1. rewrite H. reflexivity.
Qed.

Lemma dispatch_audio p sid m l :
  is_type m "audio" = true ->
  dispatch C p sid m l
  = match decode_data C m with
    | Raise e => (p, [], Raise e)
    | Ok audio_data =>
        match process_audio C p sid audio_data (in_timestamp_ms m)
                (get_or (in_sample_rate m) 16000%Z) with
        | (p, Raise e) => (p, [], Raise e)
        | (p, Ok audio_result) =>
            (p, [],
             Ok (if option_truthy audio_truthy audio_result
                 then {| latest_audio_metrics := audio_result;
                         latest_vision_metrics := latest_vision_metrics l;
                         last_feedback_time := last_feedback_time l |}
                 else l))
        end
    end.
Proof.
  intros H. unfold dispatch. rewrite H.
  apply is_type_true in H. unfold is_type at 1 2. rewrite H. reflexivity.
Qed.

Lemma dispatch_unsupported p sid m l :
  is_type m "heartbeat" = false -> is_type m "frame" = false ->
  is_type m "audio" = false ->
  dispatch C p sid m l = (p, [], Ok l).
Proof. intros H1 H2 H3. unfold dispatch. rewrite H1, H2, H3. reflexivity. Qed.

Lemma current_time_not_number m loop_ms :
  (forall now, current_time m loop_ms <> JNumber now)
  <-> exists v, in_timestamp_ms m = Some v /\ json_truthy v = true
                /\ forall n, v <> JNumber n.
Proof.
  unfold current_time. split.
  - intros H. destruct (in_timestamp_ms m) as [v|]; [|exfalso; eapply H; reflexivity].
    destruct (json_truthy v) eqn:Hv; [|exfalso; eapply H; reflexivity].
    exists v. split; [reflexivity|]. split; [exact Hv|exact H].
  - intros (v & -> & -> & Hn). exact Hn.
Qed.

Lemma current_time_number m loop_ms n :
  in_timestamp_ms m = Some (JNumber n) ->
  current_time m loop_ms = JNumber (if (n =? 0)%Z then loop_ms else n).
Proof.
  intros H. unfold current_time. rewrite H. cbn [json_truthy].
  destruct (n =? 0)%Z; reflexivity.
Qed.

Lemma cadence_not_number p sid m loop_ms l :
  (forall now, current_time m loop_ms <> JNumber now) ->
  cadence p sid m loop_ms l = (p, [], Raise TypeError).
Proof.
  intros H. unfold cadence.
  destruct (current_time m loop_ms); [exfalso; eapply H; reflexivity|reflexivity..].
Qed.

Lemma cadence_closed p sid m loop_ms l now :
  current_time m loop_ms = JNumber now -> cadence_open now l = false ->
  cadence p sid m loop_ms l = (p, [], Ok l).
Proof. intros Ht H. unfold cadence. rewrite Ht, H. reflexivity. Qed.

Lemma cadence_fires p sid m loop_ms l s now :
  current_time m loop_ms = JNumber now ->
  cadence_open now l = true -> sessions p !! sid = Some s ->
  exists fb,
    generate_feedback p loop_ms sid (latest_audio_metrics l) (latest_vision_metrics l)
      (Some now)
    = (set_sessions p
         (<[sid := set_score_history s
                     (push_history (score_history s)
                        {| h_timestamp_ms := fb_timestamp_ms fb;
                           h_scores := fb_scores fb |})]> (sessions p)),
       Ok fb)
    /\ fb_timestamp_ms fb = now
    /\ fb_scores fb
       = calculate_scores (latest_audio_metrics l) (latest_vision_metrics l) (baseline s)
    /\ cadence p sid m loop_ms l
       = (set_sessions p
            (<[sid := set_score_history s
                        (push_history (score_history s)
                           {| h_timestamp_ms := fb_timestamp_ms fb;
                              h_scores := fb_scores fb |})]> (sessions p)),
          [OutFeedback fb],
          Ok {| latest_audio_metrics := latest_audio_metrics l;
                latest_vision_metrics := latest_vision_metrics l;
                last_feedback_time := now |}).
Proof.
  intros Ht H Hs. unfold cadence. rewrite Ht, H.
  rewrite (generate_feedback_found p loop_ms sid _ _ _ s Hs). cbv zeta.
  set (a := latest_audio_metrics l). set (v := latest_vision_metrics l).
  set (sc := calculate_scores a v (baseline s)).
  exists {| fb_timestamp_ms := now; fb_session_id := sid;
            fb_type := "realtime"; fb_scores := sc;
            fb_metrics := {| m_facial := v ≫= facial; m_body := v ≫= body;
                             m_voice := a ≫= tone; m_speech := a ≫= speech |};
            fb_suggestions := generate_suggestions a v sc;
            fb_trends := calculate_trends s sc |}.
  split; [reflexivity|]. split; [reflexivity|]. split; reflexivity.
Qed.

Lemma cadence_missing p sid m loop_ms l now :
  current_time m loop_ms = JNumber now ->
  cadence_open now l = true -> sessions p !! sid = None ->
  cadence p sid m loop_ms l = (p, [], Raise (NotFound sid)).
Proof.
  intros Ht H Hs. unfold cadence. rewrite Ht, H.
  rewrite generate_feedback_missing by exact Hs. reflexivity.
Qed.

Lemma dispatch_frame_silent p sid m l :
  is_type m "frame" = true -> snd (fst (dispatch C p sid m l)) = [].
Proof.
  intros H. rewrite dispatch_frame by exact H.
  destruct (decode_data C m) as [frame_data|e]; [|reflexivity].
  destruct (process_frame C p sid frame_data _ _) as [p' [r|e]]; reflexivity.
Qed.

End StreamFacts.

(** ** Unregistering a socket *)

Lemma remove_subset ws x l : x ∈ ConnectionManager.remove ws l -> x ∈ l.
Proof.
  induction l as [|y l IH]; simpl; [auto|].
  destruct (y =? ws)%nat.
  - intros H. right. exact H.
  - intros [->|H]%elem_of_cons; [left|right; auto].
Qed.

Lemma remove_once ws l : NoDup l -> ws ∉ ConnectionManager.remove ws l.
Proof.
  induction 1 as [|y l Hy Hl IH]; simpl; [apply not_elem_of_nil|].
  destruct (Nat.eqb_spec y ws) as [->|Hne]; [exact Hy|].
  intros [->|H]%elem_of_cons; [congruence|contradiction].
Qed.

Lemma disconnect_unregisters active sid ws :
  NoDup (default [] (active !! sid)) ->
  ~ registered (ConnectionManager.disconnect active sid ws) sid ws.
Proof.
  intros Hnd (l' & Hl' & Hin). unfold ConnectionManager.disconnect in Hl'.
  destruct (active !! sid) as [l|] eqn:Hl; [|congruence].
  cbn [default] in Hnd. pose proof (remove_once ws l Hnd) as Hrm.
  destruct (ConnectionManager.remove ws l) as [|x k] eqn:Hk.
  - rewrite lookup_delete_eq in Hl'. discriminate.
  - rewrite lookup_insert_eq in Hl'. injection Hl' as <-. contradiction.
Qed.

(** C4, as the code has it: a heartbeat is answered first with an ack
    carrying the message's timestamp; it never changes the sampling
    counter, any session's frame or audio counters, or the latest metrics.
    The feedback block runs after every message, heartbeats included. With
    a timestamp that is no number (a non-empty string, array or object) the
    ack is followed by a TypeError and the connection is closed. Otherwise,
    when the cadence gate is closed nothing else happens; when it is open
    (1000 ms elapsed and some latest metrics present) and the session is
    stored, a feedback message follows the ack and its scores are appended
    to the session's score history, of which the 50 most recent entries are
    kept; when it is open and the session is absent, the ack is followed by
    NotFound and the connection is closed. *)
Theorem C4_heartbeat C g sid ws m loop_ms l :
  is_type m "heartbeat" = true ->
  let st := iteration C g sid ws (Message m) loop_ms l in
  let closed e :=
    {| gateway := {| processor := processor g;
                     active_connections :=
                       ConnectionManager.disconnect (active_connections g) sid ws |};
       sent := [OutAck (in_timestamp_ms m); OutError e]; locals := None |} in
  (exists rest, sent st = OutAck (in_timestamp_ms m) :: rest)
  /\ frame_counter (processor (gateway st)) = frame_counter (processor g)
  /\ (forall sid',
        (frame_count <$> sessions (processor (gateway st)) !! sid')
        = (frame_count <$> sessions (processor g) !! sid')
        /\ (audio_chunk_count <$> sessions (processor (gateway st)) !! sid')
           = (audio_chunk_count <$> sessions (processor g) !! sid'))
  /\ (forall l', locals st = Some l' ->
        latest_audio_metrics l' = latest_audio_metrics l
        /\ latest_vision_metrics l' = latest_vision_metrics l)
  /\ ((forall now, current_time m loop_ms <> JNumber now) -> st = closed TypeError)
  /\ (forall now, current_time m loop_ms = JNumber now ->
      (cadence_open now l = false ->
       st = {| gateway := g; sent := [OutAck (in_timestamp_ms m)]; locals := Some l |})
      /\ (cadence_open now l = true -> sessions (processor g) !! sid = None ->
          st = closed (NotFound sid))
      /\ (cadence_open now l = true ->
          forall s, sessions (processor g) !! sid = Some s ->
            exists fb,
              sent st = [OutAck (in_timestamp_ms m); OutFeedback fb]
              /\ fb_timestamp_ms fb = now
              /\ fb_scores fb
                 = calculate_scores (latest_audio_metrics l) (latest_vision_metrics l)
                     (baseline s)
              /\ (score_history <$> sessions (processor (gateway st)) !! sid)
                 = Some (Spec.most_recent 50
                           (score_history s
                            ++ [{| h_timestamp_ms := now; h_scores := fb_scores fb |}]))
              /\ locals st
                 = Some {| latest_audio_metrics := latest_audio_metrics l;
                           latest_vision_metrics := latest_vision_metrics l;
                           last_feedback_time := now |}
              /\ active_connections (gateway st) = active_connections g)).
Proof.
  intros Hhb st closed. subst st closed. unfold iteration.
  rewrite dispatch_heartbeat by exact Hhb.
  destruct (current_time m loop_ms) as [now| |] eqn:Ht.
  - destruct (cadence_open now l) eqn:Hc.
    + destruct (sessions (processor g) !! sid) as [s|] eqn:Hs.
      * destruct (cadence_fires (processor g) sid m loop_ms l s now Ht Hc Hs)
          as (fb & _ & Hts & Hsc & ->).
        cbn [gateway sent locals processor sessions set_sessions frame_counter app
             active_connections].
        split; [eexists; reflexivity|]. split; [reflexivity|].
        split.
        { intros sid'. destruct (decide (sid = sid')) as [<-|Hne].
          - rewrite lookup_insert_eq, Hs. split; reflexivity.
          - rewrite lookup_insert_ne by exact Hne. split; reflexivity. }
        split; [intros l' [= <-]; split; reflexivity|].
        split; [intros H; exfalso; exact (H now eq_refl)|].
        intros now' [= <-]. rewrite Hc.
        split; [discriminate|]. split; [intros _; discriminate|].
        intros _ s' [= <-]. exists fb. split; [reflexivity|].
        split; [exact Hts|]. split; [exact Hsc|].
        split; [|split; reflexivity].
        rewrite lookup_insert_eq. cbn [fmap option_fmap option_map score_history
                                       set_score_history].
        rewrite Hts, push_history_last_n, last_n_most_recent. reflexivity.
      * rewrite (cadence_missing _ _ _ _ _ now) by assumption.
        cbn [on_exception gateway sent locals processor app].
        split; [eexists; reflexivity|]. split; [reflexivity|].
        split; [intros; split; reflexivity|].
        split; [discriminate|].
        split; [intros H; exfalso; exact (H now eq_refl)|].
        intros now' [= <-]. rewrite Hc.
        split; [discriminate|]. split; [reflexivity|]. intros _ s' [=].
    + rewrite (cadence_closed _ _ _ _ _ now) by assumption.
      cbn [gateway sent locals processor app]. rewrite gateway_eta.
      split; [eexists; reflexivity|]. split; [reflexivity|].
      split; [intros; split; reflexivity|].
      split; [intros l' [= <-]; split; reflexivity|].
      split; [intros H; exfalso; exact (H now eq_refl)|].
      intros now' [= <-]. rewrite Hc.
      split; [reflexivity|]. split; discriminate.
  - rewrite cadence_not_number by (rewrite Ht; discriminate).
    cbn [on_exception gateway sent locals processor app].
    split; [eexists; reflexivity|]. split; [reflexivity|].
    split; [intros; split; reflexivity|].
    split; [discriminate|]. split; [reflexivity|]. discriminate.
  - rewrite cadence_not_number by (rewrite Ht; discriminate).
    cbn [on_exception gateway sent locals processor app].
    split; [eexists; reflexivity|]. split; [reflexivity|].
    split; [intros; split; reflexivity|].
    split; [discriminate|]. split; [reflexivity|]. discriminate.
Qed.

Lemma C4_heartbeat_witness :
  let st := iteration Fake.working Fake.gateway1 "s1" 7
              (Message (Fake.message "heartbeat" 400 None)) 0 Fake.locals_with_audio in
  (exists rest, sent st = OutAck (Some (JNumber 400)) :: rest)
  /\ st = {| gateway := Fake.gateway1; sent := [OutAck (Some (JNumber 400))];
             locals := Some Fake.locals_with_audio |}.
Proof.
  intros st.
  destruct (C4_heartbeat Fake.working Fake.gateway1 "s1" 7%nat
              (Fake.message "heartbeat" 400 None) 0%Z Fake.locals_with_audio eq_refl)
    as (H1 & _ & _ & _ & _ & H6).
  split; [exact H1|].
  destruct (H6 400%Z eq_refl) as (H7 & _). apply H7. reflexivity.
Defined.

(** C4 as stated fails: a heartbeat that arrives with the cadence gate
    open appends an entry to the score history. *)
Lemma C4_counterexample :
  let st := iteration Fake.working Fake.gateway1 "s1" 7
              (Message (Fake.message "heartbeat" 1000 None)) 0 Fake.locals_with_audio in
  (length <$> (score_history <$> sessions (processor Fake.gateway1) !! "s1")) = Some 0%nat
  /\ (length <$> (score_history <$> sessions (processor (gateway st)) !! "s1"))
     = Some 1%nat
  /\ exists fb, sent st = [OutAck (Some (JNumber 1000)); OutFeedback fb].
Proof.
  cbv zeta. split; [reflexivity|]. split; [vm_compute; reflexivity|].
  eexists. vm_compute. reflexivity.
Qed.

(** ** Frames and their acknowledgement *)

Section RejectedFrames.

Variable C : Collaborators.

Lemma cadence_sent p sid m loop_ms l :
  Forall feedback_or_error (snd (fst (cadence p sid m loop_ms l))).
Proof.
  unfold cadence. destruct (current_time m loop_ms) as [now| |]; [|constructor..].
  destruct (cadence_open now l); [|constructor].
  destruct (generate_feedback p loop_ms sid _ _ _) as [p' [fb|e]]; simpl.
  - constructor; [exact I|constructor].
  - constructor.
Qed.

Lemma iteration_sent_silent g sid ws m loop_ms l :
  snd (fst (dispatch C (processor g) sid m l)) = [] ->
  Forall feedback_or_error (sent (iteration C g sid ws (Message m) loop_ms l)).
Proof.
  unfold iteration.
  destruct (dispatch C (processor g) sid m l) as [[p' out] [l'|e]]; cbn [fst snd];
    intros ->.
  - pose proof (cadence_sent p' sid m loop_ms l') as Hall.
    destruct (cadence p' sid m loop_ms l') as [[p2 out] [l2|e]]; cbn [fst snd] in Hall;
      cbn [sent on_exception app].
    + exact Hall.
    + apply Forall_app. split; [exact Hall|]. constructor; [exact I|constructor].
  - cbn [sent on_exception app]. constructor; [exact I|constructor].
Qed.

Lemma iteration_closed_after_silent_dispatch g sid ws m loop_ms l p' l' now :
  dispatch C (processor g) sid m l = (p', [], Ok l') ->
  current_time m loop_ms = JNumber now -> cadence_open now l' = false ->
  iteration C g sid ws (Message m) loop_ms l
  = {| gateway := {| processor := p'; active_connections := active_connections g |};
       sent := []; locals := Some l' |}.
Proof.
  intros Hd Ht Hc. unfold iteration. rewrite Hd.
  rewrite (cadence_closed p' sid m loop_ms l' now Ht Hc). reflexivity.
Qed.

End RejectedFrames.

(** C9, as the code has it. On the non-streaming path a frame that the
    sampling gate rejects is answered 202 "Frame skipped (sampling)" and
    moves the sampling counter only. A frame the gate accepts is answered
    404 when the session is absent, 200 with its metrics when the extractor
    answers, the extractor's error (500, or 404 for a ValueError) when it
    raises, and the same 202 when the image does not decode; while vision
    is disabled every frame is answered 202. On the streaming path no frame
    is acknowledged: the frame branch sends no message, whether the frame
    is rejected or accepted, and the only messages of a frame's turn are a
    feedback message or an error. A rejected frame changes the sampling
    counter only, and its turn is silent when the cadence gate is closed. *)
Theorem C9_rejected_frames C p sid :
  (enable_vision p = true -> frame_sample_rate p <> 0%Z -> ~ gate_accepts p ->
   forall ts fn data,
     Routes.process_frame C p sid ts fn data
     = (set_frame_counter p (frame_counter p + 1), Http202 "Frame skipped (sampling)"))
  /\ (enable_vision p = true -> frame_sample_rate p <> 0%Z -> gate_accepts p ->
      forall ts fn data,
        let p1 := set_frame_counter p (frame_counter p + 1) in
        (sessions p !! sid = None ->
         Routes.process_frame C p sid ts fn data
         = (p1, HttpException 404 (NotFound sid)))
        /\ (forall s, sessions p !! sid = Some s ->
            (decode_frame C data = None ->
             Routes.process_frame C p sid ts fn data
             = (p1, Http202 "Frame skipped (sampling)"))
            /\ (forall frame, decode_frame C data = Some frame ->
                (forall r,
                    vision_analyze C frame (frame_number_or fn (frame_counter p + 1))
                      (Some (JNumber ts)) = Ok r ->
                    Routes.process_frame C p sid ts fn data
                    = (set_sessions p1
                         (<[sid := set_frame_count s (frame_count s + 1)]> (sessions p)),
                       Http200 (vision_to_dict r)))
                /\ (forall e,
                      vision_analyze C frame (frame_number_or fn (frame_counter p + 1))
                        (Some (JNumber ts)) = Raise e ->
                      (forall msg, e <> ValueError msg) ->
                      Routes.process_frame C p sid ts fn data
                      = (p1, HttpException 500 e))
                /\ (forall msg,
                      vision_analyze C frame (frame_number_or fn (frame_counter p + 1))
                        (Some (JNumber ts)) = Raise (ValueError msg) ->
                      Routes.process_frame C p sid ts fn data
                      = (p1, HttpException 404 (ValueError msg))))))
  /\ (enable_vision p = false ->
      forall ts fn data,
        Routes.process_frame C p sid ts fn data = (p, Http202 "Frame skipped (sampling)"))
  /\ (forall g ws m loop_ms l,
        processor g = p -> is_type m "frame" = true ->
        snd (fst (dispatch C p sid m l)) = []
        /\ Forall feedback_or_error (sent (iteration C g sid ws (Message m) loop_ms l)))
  /\ (enable_vision p = true -> frame_sample_rate p <> 0%Z -> ~ gate_accepts p ->
      forall g ws m loop_ms l frame_data,
        processor g = p -> is_type m "frame" = true -> decode_data C m = Ok frame_data ->
        dispatch C p sid m l = (set_frame_counter p (frame_counter p + 1), [], Ok l)
        /\ (forall now, current_time m loop_ms = JNumber now ->
            cadence_open now l = false ->
            iteration C g sid ws (Message m) loop_ms l
            = {| gateway := {| processor := set_frame_counter p (frame_counter p + 1);
                               active_connections := active_connections g |};
                 sent := []; locals := Some l |})).
Proof.
  split; [|split; [|split; [|split]]].
  - intros He Hr Hg ts fn data. unfold Routes.process_frame.
    rewrite process_frame_rejected by assumption. reflexivity.
  - intros He Hr Hg ts fn data p1. subst p1. unfold Routes.process_frame.
    rewrite process_frame_accepted by assumption. cbv zeta.
    cbn [sessions set_frame_counter frame_counter]. split.
    + intros ->. reflexivity.
    + intros s ->. split.
      * intros ->. reflexivity.
      * intros frame ->. split; [|split].
        -- intros r ->. reflexivity.
        -- intros e -> Hne. destruct e; try reflexivity. exfalso. eapply Hne. reflexivity.
        -- intros msg ->. reflexivity.
  - intros He ts fn data. unfold Routes.process_frame.
    rewrite process_frame_disabled by assumption. reflexivity.
  - intros g ws m loop_ms l Hp Hm.
    pose proof (dispatch_frame_silent C p sid m l Hm) as Hd.
    split; [exact Hd|]. subst p. apply iteration_sent_silent. exact Hd.
  - intros He Hr Hg g ws m loop_ms l frame_data Hp Hm Hd.
    assert (E : dispatch C p sid m l
                = (set_frame_counter p (frame_counter p + 1), [], Ok l)).
    { rewrite dispatch_frame by exact Hm. rewrite Hd.
      rewrite process_frame_rejected by assumption. reflexivity. }
    split; [exact E|]. subst p. intros now Ht Hc.
    apply (iteration_closed_after_silent_dispatch C g sid ws m loop_ms l _ l now E Ht Hc).
Qed.

Lemma C9_rejected_frames_witness :
  snd (Routes.process_frame Fake.working Fake.processor1 "s1" 500 None [])
  = Http202 "Frame skipped (sampling)"
  /\ iteration Fake.working Fake.gateway1 "s1" 7
       (Message (Fake.message "frame" 500 (Some "AAAA"))) 0 initial_locals
     = {| gateway := {| processor := set_frame_counter Fake.processor1 1;
                        active_connections := active_connections Fake.gateway1 |};
          sent := []; locals := Some initial_locals |}.
Proof.
  destruct (C9_rejected_frames Fake.working Fake.processor1 "s1")
    as (H1 & _ & _ & _ & H2).
  split.
  - rewrite H1; [reflexivity|reflexivity|discriminate|discriminate].
  - assert (Hr : frame_sample_rate Fake.processor1 <> 0%Z) by discriminate.
    assert (Hg : ~ gate_accepts Fake.processor1) by discriminate.
    destruct (H2 eq_refl Hr Hg Fake.gateway1 7%nat
                (Fake.message "frame" 500 (Some "AAAA")) 0%Z initial_locals []
                eq_refl eq_refl eq_refl) as [_ H3].
    apply (H3 500%Z); reflexivity.
Defined.

(** C9 as stated fails on the streaming path: a rejected frame gets no
    reply, neither "skipped" nor anything else. *)
Lemma C9_counterexample :
  ~ gate_accepts (processor Fake.gateway1)
  /\ sent (iteration Fake.working Fake.gateway1 "s1" 7
             (Message (Fake.message "frame" 500 (Some "AAAA"))) 0 initial_locals) = [].
Proof. split; [discriminate|reflexivity]. Qed.

(** ** Malformed messages and failing extractors *)

(** What the [except Exception] handler leaves: the error reported, the
    socket unregistered, the loop left. *)
Lemma iteration_dispatch_raises C g sid ws m loop_ms l p' e :
  dispatch C (processor g) sid m l = (p', [], Raise e) ->
  iteration C g sid ws (Message m) loop_ms l
  = {| gateway := {| processor := p';
                     active_connections :=
                       ConnectionManager.disconnect (active_connections g) sid ws |};
       sent := [OutError e]; locals := None |}.
Proof. intros Hd. unfold iteration. rewrite Hd. reflexivity. Qed.

(** C2, as the code has it. A message whose type is missing or unsupported
    is ignored by the dispatch (no ingestion, no reply), but the feedback
    block still runs on it: with a timestamp that is no number (a non-empty
    string, array or object) a TypeError is reported and the connection
    closed; with the cadence gate closed nothing is sent and nothing
    changes; with the gate open, one feedback message is sent when the
    session is stored, and NotFound is reported and the connection closed
    when it is not. A frame or audio message whose data field is missing,
    is no string or is not decodable base64, a text that is not JSON and a
    JSON text that is no object all raise in the handler: the error is
    reported to the client and the connection closed, as for NotFound.
    Closing unregisters the socket. *)
Theorem C2_malformed_messages C g sid ws m loop_ms l :
  let st := iteration C g sid ws (Message m) loop_ms l in
  let closed e :=
    {| gateway := {| processor := processor g;
                     active_connections :=
                       ConnectionManager.disconnect (active_connections g) sid ws |};
       sent := [OutError e]; locals := None |} in
  (is_type m "heartbeat" = false -> is_type m "frame" = false ->
   is_type m "audio" = false ->
   dispatch C (processor g) sid m l = (processor g, [], Ok l)
   /\ ((forall now, current_time m loop_ms <> JNumber now) -> st = closed TypeError)
   /\ (forall now, current_time m loop_ms = JNumber now ->
       (cadence_open now l = false ->
        st = {| gateway := g; sent := []; locals := Some l |})
       /\ (cadence_open now l = true -> sessions (processor g) !! sid = None ->
           st = closed (NotFound sid))
       /\ (cadence_open now l = true ->
           forall s, sessions (processor g) !! sid = Some s ->
             exists fb,
               sent st = [OutFeedback fb]
               /\ is_Some (locals st)
               /\ active_connections (gateway st) = active_connections g)))
  /\ (is_type m "frame" = true \/ is_type m "audio" = true ->
      forall e, decode_data C m = Raise e -> st = closed e)
  /\ (in_data m = None -> decode_data C m = Raise TypeError)
  /\ (forall data e, in_data m = Some data -> b64decode C data = Raise e ->
      decode_data C m = Raise e)
  /\ iteration C g sid ws NotJson loop_ms l = closed JSONDecodeError
  /\ iteration C g sid ws NotObject loop_ms l = closed AttributeError
  /\ ((forall now, current_time m loop_ms <> JNumber now)
      <-> exists v, in_timestamp_ms m = Some v /\ json_truthy v = true
                    /\ forall n, v <> JNumber n)
  /\ (NoDup (default [] (active_connections g !! sid)) ->
      forall e, ~ registered (active_connections (gateway (closed e))) sid ws).
Proof.
  intros st closed. subst st closed.
  split; [|split; [|split; [|split; [|split; [|split; [|split]]]]]].
  - intros H1 H2 H3.
    pose proof (dispatch_unsupported C (processor g) sid m l H1 H2 H3) as Hd.
    split; [exact Hd|]. unfold iteration. rewrite Hd. split.
    + intros Hn. rewrite cadence_not_number by exact Hn. reflexivity.
    + intros now Ht. split; [|split].
      * intros Hc. rewrite (cadence_closed _ _ _ _ _ now) by assumption.
        cbn [app]. rewrite gateway_eta. reflexivity.
      * intros Hc Hs. rewrite (cadence_missing _ _ _ _ _ now) by assumption.
        reflexivity.
      * intros Hc s Hs.
        destruct (cadence_fires (processor g) sid m loop_ms l s now Ht Hc Hs)
          as (fb & _ & _ & _ & ->).
        exists fb. cbn [sent locals gateway active_connections app].
        split; [reflexivity|]. split; [eexists|]; reflexivity.
  - intros Hty e He. apply iteration_dispatch_raises.
    destruct Hty as [Hf|Ha].
    + rewrite dispatch_frame by exact Hf. rewrite He. reflexivity.
    + rewrite dispatch_audio by exact Ha. rewrite He. reflexivity.
  - intros Hd. unfold decode_data. rewrite Hd. reflexivity.
  - intros data e Hd He. unfold decode_data. rewrite Hd. exact He.
  - reflexivity.
  - reflexivity.
  - apply current_time_not_number.
  - intros Hnd e. cbn [gateway active_connections].
    apply disconnect_unregisters. exact Hnd.
Qed.

Lemma C2_malformed_messages_witness :
  iteration Fake.working Fake.gateway1 "s1" 7
    (Message (Fake.message "audio" 500 None)) 0 initial_locals
  = {| gateway := {| processor := Fake.processor1;
                     active_connections :=
                       ConnectionManager.disconnect (active_connections Fake.gateway1)
                         "s1" 7 |};
       sent := [OutError TypeError]; locals := None |}
  /\ iteration Fake.working Fake.gateway1 "s1" 7
       (Message (Fake.message "ping" 500 None)) 0 initial_locals
     = {| gateway := Fake.gateway1; sent := []; locals := Some initial_locals |}
  /\ ~ registered
         (ConnectionManager.disconnect (active_connections Fake.gateway1) "s1" 7) "s1" 7.
Proof.
  split; [|split].
  - destruct (C2_malformed_messages Fake.working Fake.gateway1 "s1" 7%nat
                (Fake.message "audio" 500 None) 0%Z initial_locals)
      as (_ & H2 & H3 & _).
    apply H2; [right; reflexivity|]. apply H3. reflexivity.
  - destruct (C2_malformed_messages Fake.working Fake.gateway1 "s1" 7%nat
                (Fake.message "ping" 500 None) 0%Z initial_locals)
      as (H1 & _).
    destruct (H1 eq_refl eq_refl eq_refl) as (_ & _ & Hc).
    destruct (Hc 500%Z eq_refl) as (Hclosed & _). apply Hclosed. reflexivity.
  - destruct (C2_malformed_messages Fake.working Fake.gateway1 "s1" 7%nat
                (Fake.message "ping" 500 None) 0%Z initial_locals)
      as (_ & _ & _ & _ & _ & _ & _ & H8).
    apply (H8 (NoDup_singleton 7%nat) TypeError).
Defined.

(** C2 as stated fails: a frame message without its data field, sent on a
    stream whose session exists, ends the connection; so does a message of
    an unsupported type whose timestamp is a string. *)
Lemma C2_counterexample :
  let st := iteration Fake.working Fake.gateway1 "s1" 7
              (Message (Fake.message "frame" 500 None)) 0 initial_locals in
  let st' := iteration Fake.working Fake.gateway1 "s1" 7
               (Message {| in_type := Some "ping";
                           in_timestamp_ms := Some (JString "soon");
                           in_data := None; in_frame_number := None;
                           in_sample_rate := None |}) 0 initial_locals in
  is_Some (sessions (processor Fake.gateway1) !! "s1")
  /\ active_connections Fake.gateway1 !! "s1" = Some [7%nat]
  /\ locals st = None
  /\ sent st = [OutError TypeError]
  /\ active_connections (gateway st) !! "s1" = None
  /\ locals st' = None
  /\ sent st' = [OutError TypeError]
  /\ active_connections (gateway st') !! "s1" = None.
Proof.
  cbv zeta. split; [eexists; reflexivity|]. repeat split.
Qed.

(** C3, as the code has it: an exception of the audio or video extractor
    is not caught where the extractor is called; it leaves [process_audio]
    or [process_frame] with the session's counters unchanged, and on the
    streaming path it is reported to the client as an error message and the
    connection is unregistered. The session stays in the store. Only the
    image decoder is guarded: a frame that does not decode is treated as a
    frame without metrics. *)
Theorem C3_extractor_failure C p sid s e :
  sessions p !! sid = Some s ->
  (enable_audio p = true -> forall data ts rate,
     (length data mod 4 = 0)%nat ->
     audio_analyze C (NdArray data) ts rate = Raise e ->
     process_audio C p sid data ts rate = (p, Raise e)
     /\ forall g ws m loop_ms l,
          processor g = p -> is_type m "audio" = true -> decode_data C m = Ok data ->
          in_timestamp_ms m = ts -> get_or (in_sample_rate m) 16000%Z = rate ->
          iteration C g sid ws (Message m) loop_ms l
          = {| gateway := {| processor := p;
                             active_connections :=
                               ConnectionManager.disconnect (active_connections g) sid ws |};
               sent := [OutError e]; locals := None |})
  /\ (enable_vision p = true -> frame_sample_rate p <> 0%Z -> gate_accepts p ->
      forall data frame ts fn,
        decode_frame C data = Some frame ->
        vision_analyze C frame (frame_number_or fn (frame_counter p + 1)) ts = Raise e ->
        process_frame C p sid data ts fn
        = (set_frame_counter p (frame_counter p + 1), Raise e)
        /\ forall g ws m loop_ms l,
             processor g = p -> is_type m "frame" = true -> decode_data C m = Ok data ->
             in_timestamp_ms m = ts -> in_frame_number m = fn ->
             iteration C g sid ws (Message m) loop_ms l
             = {| gateway := {| processor := set_frame_counter p (frame_counter p + 1);
                                active_connections :=
                                  ConnectionManager.disconnect (active_connections g)
                                    sid ws |};
                  sent := [OutError e]; locals := None |})
  /\ (enable_vision p = true -> frame_sample_rate p <> 0%Z -> gate_accepts p ->
      forall data ts fn,
        imdecode C data = Raise e \/ imdecode C data = Ok None ->
        process_frame C p sid data ts fn
        = (set_frame_counter p (frame_counter p + 1), Ok None)).
Proof.
  intros Hs. split; [|split].
  - intros He data ts rate Hlen Hr.
    pose proof (process_audio_raises C p sid data ts rate s e He Hs Hlen Hr) as Hpa.
    split; [exact Hpa|].
    intros g ws m loop_ms l Hp Hm Hd Hts Hrate. apply iteration_dispatch_raises.
    rewrite Hp, dispatch_audio by exact Hm. rewrite Hd, Hts, Hrate, Hpa. reflexivity.
  - intros He Hr Hg data frame ts fn Hdec Hv.
    assert (Hpf : process_frame C p sid data ts fn
                  = (set_frame_counter p (frame_counter p + 1), Raise e)).
    { rewrite process_frame_accepted by assumption. cbv zeta.
      cbn [sessions set_frame_counter frame_counter]. rewrite Hs, Hdec, Hv. reflexivity. }
    split; [exact Hpf|].
    intros g ws m loop_ms l Hp Hm Hd Hts Hfn. apply iteration_dispatch_raises.
    rewrite Hp, dispatch_frame by exact Hm. rewrite Hd, Hts, Hfn, Hpf. reflexivity.
  - intros He Hr Hg data ts fn Him.
    rewrite process_frame_accepted by assumption. cbv zeta.
    cbn [sessions set_frame_counter]. rewrite Hs.
    assert (Hdec : decode_frame C data = None).
    { unfold decode_frame. destruct Him as [-> | ->]; reflexivity. }
    rewrite Hdec. reflexivity.
Qed.

Lemma C3_extractor_failure_witness :
  process_audio Fake.failing Fake.processor1 "s1" [] (Some (JNumber 500)) 16000
  = (Fake.processor1, Raise (CollaboratorError "audio"))
  /\ iteration Fake.failing Fake.gateway1 "s1" 7
       (Message (Fake.message "audio" 500 (Some "AAAA"))) 0 initial_locals
     = {| gateway := {| processor := Fake.processor1;
                        active_connections :=
                          ConnectionManager.disconnect (active_connections Fake.gateway1)
                            "s1" 7 |};
          sent := [OutError (CollaboratorError "audio")]; locals := None |}.
Proof.
  destruct (C3_extractor_failure Fake.failing Fake.processor1 "s1"
              {| session_id := "s1"; user_id := "u1"; session_type := "practice";
                 start_time := 0; frame_count := 0; audio_chunk_count := 0;
                 baseline := None; score_history := [] |}
              (CollaboratorError "audio") eq_refl) as (H1 & _).
  destruct (H1 eq_refl [] (Some (JNumber 500)) 16000%Z eq_refl eq_refl) as [Ha Hb].
  split; [exact Ha|].
  apply Hb; reflexivity.
Defined.

(** C3 as stated fails: when the audio extractor raises on a chunk, the
    stream gets an error message and the connection is closed; the session
    stays in the store. *)
Lemma C3_counterexample :
  let st := iteration Fake.failing Fake.gateway1 "s1" 7
              (Message (Fake.message "audio" 500 (Some "AAAA"))) 0 initial_locals in
  active_connections Fake.gateway1 !! "s1" = Some [7%nat]
  /\ locals st = None
  /\ sent st = [OutError (CollaboratorError "audio")]
  /\ active_connections (gateway st) !! "s1" = None
  /\ is_Some (sessions (processor (gateway st)) !! "s1").
Proof.
  cbv zeta. repeat split. eexists. reflexivity.
Qed.

(** * Further properties *)

(** ** Score fusion, all five scores *)

Lemma calculate_scores_in_range a v bl : scores_in_range (calculate_scores a v bl).
Proof. unfold scores_in_range, calculate_scores; cbn; repeat split; apply clamp_bounds. Qed.

(** X1: whatever the metrics, every score of the fused set lies in
    [0, 100]. *)
Theorem X1_scores_in_range a v bl :
  let s := calculate_scores a v bl in
  0 <= confidence s <= 100 /\ 0 <= engagement s <= 100 /\ 0 <= clarity s <= 100
  /\ 0 <= authenticity s <= 100 /\ 0 <= professionalPresence s <= 100.
Proof. apply calculate_scores_in_range. Qed.

(** X2: a score whose component signals are all missing keeps the neutral
    70: with no tone, speech, facial, body or professional metrics the
    fused set is 70 five times, whether the dicts are absent or lack the
    keys. *)
Theorem X2_neutral_default a v bl :
  audio_key tone a = None -> audio_key speech a = None ->
  vision_key facial v = None -> vision_key body v = None ->
  vision_key professional v = None ->
  calculate_scores a v bl
  = {| confidence := 70; engagement := 70; clarity := 70;
       authenticity := 70; professionalPresence := 70 |}.
Proof.
  intros Ht Hs Hf Hb Hp.
  unfold calculate_scores, confidence_components, engagement_components,
    clarity_components.
  rewrite Ht, Hs, Hf, Hb, Hp. reflexivity.
Qed.

Lemma X2_neutral_default_witness :
  calculate_scores
    (Some {| tone := None; emotion := None; speech := None;
             audio_other_keys := ["timestamp_ms"]%string |})
    None None
  = {| confidence := 70; engagement := 70; clarity := 70;
       authenticity := 70; professionalPresence := 70 |}.
Proof.
  apply (X2_neutral_default
           (Some {| tone := None; emotion := None; speech := None;
                    audio_other_keys := ["timestamp_ms"]%string |})
           None None eq_refl eq_refl eq_refl eq_refl eq_refl).
Defined.

(** X3: with the body energy level and the pitch range both present,
    engagement is 0.5·energy + 0.5·min((pitchMax − pitchMin)/3, 100),
    clamped to [0, 100]. *)
Theorem X3_engagement_fusion a v bl t b lo hi e :
  tone a = Some t -> pitch_range t = Some (lo, hi) ->
  body v = Some b -> energy_level b = Some e ->
  engagement (calculate_scores (Some a) (Some v) bl) == Formula.engagement e lo hi.
Proof.
  intros Ht Hr Hb He.
  assert (E : engagement (calculate_scores (Some a) (Some v) bl)
              = clamp (Py.sum [e * (1 # 2); Py.min ((hi - lo) / 3) 100 * (1 # 2)])).
  { unfold calculate_scores, engagement_components, audio_key, vision_key. simpl.
    rewrite Ht, Hb. simpl. rewrite Hr, He. reflexivity. }
  rewrite E.
  unfold Formula.engagement. rewrite <- clamp_spec. apply clamp_proper.
  rewrite py_sum_fold_right. cbn [fold_right]. rewrite py_min_Qmin. ring.
Qed.

Lemma X3_engagement_fusion_witness :
  engagement (calculate_scores (Some (audio_to_dict Fake.audio_result))
                (Some (vision_to_dict Fake.vision_result)) None)
  == Formula.engagement 40 100 220.
Proof.
  apply (X3_engagement_fusion (audio_to_dict Fake.audio_result)
           (vision_to_dict Fake.vision_result) None _ _ 100 220 40
           eq_refl eq_refl eq_refl eq_refl).
Defined.

Lemma pace_score_far r : 50 <= Qabs (r - 150) -> Formula.pace_score r == 0.
Proof. intros H. unfold Formula.pace_score. apply Q.max_l. lra. Qed.

(** X4: with speech metrics present, clarity is
    0.5·articulation + 0.5·max(0, 100 − 2·|rate − 150|), clamped; a rate 50
    or more words per minute away from 150 earns no pace credit, so clarity
    is then at most half the articulation score. *)
Theorem X4_clarity_fusion a v bl s art r :
  speech a = Some s -> articulation_score s = Some art -> speaking_rate s = Some r ->
  clarity (calculate_scores (Some a) v bl) == Formula.clarity art r
  /\ (50 <= Qabs (r - 150) -> 0 <= art ->
      clarity (calculate_scores (Some a) v bl) <= art * (1 # 2)).
Proof.
  intros Hs Ha Hr.
  assert (E : clarity (calculate_scores (Some a) v bl) == Formula.clarity art r).
  { assert (E : clarity (calculate_scores (Some a) v bl)
                = clamp (Py.sum [art * (1 # 2);
                                 Py.max 0 (100 - Qabs (r - 150) * 2) * (1 # 2)])).
    { unfold calculate_scores, clarity_components, audio_key. simpl.
      rewrite Hs. simpl. rewrite Ha, Hr. reflexivity. }
    rewrite E.
    unfold Formula.clarity, Formula.pace_score. rewrite <- clamp_spec.
    apply clamp_proper. rewrite py_sum_fold_right. cbn [fold_right].
    rewrite py_max_Qmax.
    assert (E' : 100 - Qabs (r - 150) * 2 == 100 - 2 * Qabs (r - 150)) by ring.
    rewrite E'. ring. }
  split; [exact E|].
  intros Hfar Hart. rewrite E. unfold Formula.clarity.
  rewrite <- clamp_spec, (pace_score_far r Hfar).
  apply clamp_le; lra.
Qed.

Lemma X4_clarity_fusion_witness :
  clarity (calculate_scores (Some (audio_to_dict Fake.audio_result)) None None)
  == Formula.clarity 80 190.
Proof.
  apply (proj1 (X4_clarity_fusion (audio_to_dict Fake.audio_result) None None _ 80 190
                  eq_refl eq_refl eq_refl)).
Defined.

(** ** What ingestion changes in the processor *)

Section IngestionFacts.

Variable C : Collaborators.

(** Everything [process_frame] can do to the processor. *)
Lemma process_frame_effect p sid data ts fn :
  let p' := fst (process_frame C p sid data ts fn) in
  let r := snd (process_frame C p sid data ts fn) in
  enable_audio p' = enable_audio p /\ enable_vision p' = enable_vision p
  /\ frame_sample_rate p' = frame_sample_rate p
  /\ frame_counter p'
     = (if enable_vision p then frame_counter p + 1 else frame_counter p)%Z
  /\ (is_processed r = false -> sessions p' = sessions p)
  /\ (is_processed r = true ->
      enable_vision p = true /\ frame_sample_rate p <> 0%Z /\ gate_accepts p
      /\ exists s, sessions p !! sid = Some s
                   /\ sessions p'
                      = <[sid := set_frame_count s (frame_count s + 1)]> (sessions p)).
Proof.
  unfold process_frame, gate_accepts.
  destruct (enable_vision p) eqn:He; cbn [negb]; [|cbn; repeat split; try discriminate; try assumption].
  cbn [frame_sample_rate frame_counter sessions set_frame_counter].
  destruct (Z.eqb_spec (frame_sample_rate p) 0) as [Hr|Hr];
    [cbn; rewrite ?He; repeat split; try discriminate; try assumption|].
  destruct (Z.eqb_spec ((frame_counter p + 1) mod frame_sample_rate p) 0) as [Hg|Hg];
    cbn [negb]; [|cbn; rewrite ?He; repeat split; try discriminate; try assumption].
  destruct (sessions p !! sid) as [s|] eqn:Hs;
    [|cbn; rewrite ?He; repeat split; try discriminate; try assumption].
  destruct (decode_frame C data) as [frame|];
    [|cbn; rewrite ?He; repeat split; try discriminate; try assumption].
  destruct (vision_analyze C frame _ ts) as [res|e];
    [|cbn; rewrite ?He; repeat split; try discriminate; try assumption].
  cbn. rewrite He. repeat split; try discriminate; try assumption.
  exists s. split; reflexivity.
Qed.

(** Everything [process_audio] can do to the processor. *)
Lemma process_audio_effect p sid data ts rate :
  let p' := fst (process_audio C p sid data ts rate) in
  let r := snd (process_audio C p sid data ts rate) in
  enable_audio p' = enable_audio p /\ enable_vision p' = enable_vision p
  /\ frame_sample_rate p' = frame_sample_rate p
  /\ frame_counter p' = frame_counter p
  /\ (is_processed r = false -> p' = p)
  /\ (is_processed r = true ->
      exists s, sessions p !! sid = Some s
                /\ sessions p'
                   = <[sid := set_audio_chunk_count s (audio_chunk_count s + 1)]>
                       (sessions p)).
Proof.
  unfold process_audio.
  destruct (enable_audio p) eqn:He; cbn [negb]; [|cbn; repeat split; try discriminate; try assumption].
  destruct (sessions p !! sid) as [s|] eqn:Hs; [|cbn; repeat split; try discriminate; try assumption].
  destruct (frombuffer_float32 data) as [arr|e]; [|cbn; repeat split; try discriminate; try assumption].
  destruct (audio_analyze C arr ts rate) as [res|e];
    [|cbn; repeat split; try discriminate; try assumption].
  cbn. repeat split; try discriminate; try assumption.
  exists s. split; reflexivity.
Qed.

Lemma insert_keeps_domain (m : gmap string Session) sid s s' sid' :
  m !! sid = Some s -> is_Some (<[sid := s']> m !! sid') <-> is_Some (m !! sid').
Proof.
  intros Hs. destruct (decide (sid = sid')) as [<-|Hne].
  - rewrite lookup_insert_eq, Hs. split; eauto.
  - rewrite lookup_insert_ne by exact Hne. reflexivity.
Qed.

Lemma process_frame_domain p sid data ts fn sid' :
  is_Some (sessions (fst (process_frame C p sid data ts fn)) !! sid')
  <-> is_Some (sessions p !! sid').
Proof.
  destruct (process_frame_effect p sid data ts fn) as (_ & _ & _ & _ & Hn & Hy).
  cbv zeta in Hn, Hy.
  destruct (is_processed (snd (process_frame C p sid data ts fn))).
  - destruct (Hy eq_refl) as (_ & _ & _ & s & Hs & ->).
    apply insert_keeps_domain with s. exact Hs.
  - rewrite (Hn eq_refl). reflexivity.
Qed.

Lemma process_audio_domain p sid data ts rate sid' :
  is_Some (sessions (fst (process_audio C p sid data ts rate)) !! sid')
  <-> is_Some (sessions p !! sid').
Proof.
  destruct (process_audio_effect p sid data ts rate) as (_ & _ & _ & _ & Hn & Hy).
  cbv zeta in Hn, Hy.
  destruct (is_processed (snd (process_audio C p sid data ts rate))).
  - destruct (Hy eq_refl) as (s & Hs & ->).
    apply insert_keeps_domain with s. exact Hs.
  - rewrite (Hn eq_refl). reflexivity.
Qed.

End IngestionFacts.

Lemma generate_feedback_domain p now_ms sid a v ts sid' :
  is_Some (sessions (fst (generate_feedback p now_ms sid a v ts)) !! sid')
  <-> is_Some (sessions p !! sid').
Proof.
  destruct (sessions p !! sid) as [s|] eqn:Hs.
  - rewrite (generate_feedback_found p now_ms sid a v ts s Hs). cbv zeta.
    cbn [fst sessions set_sessions]. apply insert_keeps_domain with s. exact Hs.
  - rewrite generate_feedback_missing by exact Hs. reflexivity.
Qed.

(** X5: a call of [process_frame] leaves every session as it was, except
    that a call returning metrics adds one to the frame count of its own
    session; it never adds or removes a session, and never touches a score
    history or an audio count. *)
Theorem X5_process_frame_footprint C p sid data ts fn sid' :
  let p' := fst (process_frame C p sid data ts fn) in
  let r := snd (process_frame C p sid data ts fn) in
  (is_Some (sessions p' !! sid') <-> is_Some (sessions p !! sid'))
  /\ (score_history <$> sessions p' !! sid') = (score_history <$> sessions p !! sid')
  /\ (audio_chunk_count <$> sessions p' !! sid')
     = (audio_chunk_count <$> sessions p !! sid')
  /\ (frame_count <$> sessions p' !! sid')
     = (if is_processed r && bool_decide (sid' = sid)
        then (fun n => n + 1)%Z <$> (frame_count <$> sessions p !! sid')
        else frame_count <$> sessions p !! sid').
Proof.
  intros p' r. split; [apply process_frame_domain|].
  destruct (process_frame_effect C p sid data ts fn) as (_ & _ & _ & _ & Hn & Hy).
  cbv zeta in Hn, Hy. fold p' r in Hn, Hy.
  destruct (is_processed r).
  - destruct (Hy eq_refl) as (_ & _ & _ & s & Hs & ->). cbn [andb].
    destruct (bool_decide_reflect (sid' = sid)) as [->|Hne].
    + rewrite lookup_insert_eq, Hs. repeat split.
    + rewrite lookup_insert_ne by congruence. repeat split.
  - rewrite (Hn eq_refl). repeat split.
Qed.

(** ** The sampling gate over a run of frames *)

Section GateFacts.

Variable C : Collaborators.

Lemma process_frames_cons p c calls :
  process_frames C p (c :: calls)
  = (fst (process_frames C (fst (process_frame C p c.1.1.1 c.1.1.2 c.1.2 c.2)) calls),
     snd (process_frame C p c.1.1.1 c.1.1.2 c.1.2 c.2)
     :: snd (process_frames C (fst (process_frame C p c.1.1.1 c.1.1.2 c.1.2 c.2)) calls)).
Proof.
  destruct c as [[[sid data] ts] fn]. cbn [process_frames fst snd].
  destruct (process_frame C p sid data ts fn) as [p1 r]. cbn [fst snd].
  destruct (process_frames C p1 calls) as [p2 rs]. reflexivity.
Qed.

Lemma process_frames_counter calls : forall p,
  enable_vision p = true ->
  frame_counter (fst (process_frames C p calls))
  = (frame_counter p + Z.of_nat (length calls))%Z
  /\ length (snd (process_frames C p calls)) = length calls
  /\ forall i r,
       snd (process_frames C p calls) !! i = Some r -> is_processed r = true ->
       frame_sample_rate p <> 0%Z
       /\ ((frame_counter p + Z.of_nat i + 1) mod frame_sample_rate p = 0)%Z.
Proof.
  induction calls as [|c calls IH]; intros p He.
  - cbn. split; [lia|]. split; [reflexivity|]. intros i r Hi. destruct i; discriminate.
  - rewrite process_frames_cons. cbn [fst snd length].
    destruct (process_frame_effect C p c.1.1.1 c.1.1.2 c.1.2 c.2)
      as (_ & Hev & Hrate & Hcnt & _ & Hy).
    cbv zeta in Hev, Hrate, Hcnt, Hy. rewrite He in Hcnt.
    set (p1 := fst (process_frame C p c.1.1.1 c.1.1.2 c.1.2 c.2)) in *.
    destruct (IH p1) as (H1 & H2 & H3); [congruence|].
    split; [rewrite H1, Hcnt; lia|]. split; [rewrite H2; reflexivity|].
    intros [|i] r Hi Hp.
    + injection Hi as <-. destruct (Hy Hp) as (_ & Hr & Hg & _).
      split; [exact Hr|]. unfold gate_accepts in Hg.
      replace (frame_counter p + Z.of_nat 0 + 1)%Z with (frame_counter p + 1)%Z by lia.
      exact Hg.
    + cbn in Hi. destruct (H3 i r Hi Hp) as [Hr Hm]. rewrite Hrate in Hr, Hm.
      split; [exact Hr|].
      replace (frame_counter p + Z.of_nat (S i) + 1)%Z
        with (frame_counter p1 + Z.of_nat i + 1)%Z by (rewrite Hcnt; lia).
      exact Hm.
Qed.

Lemma process_frame_processed_iff p sid data ts fn :
  enable_vision p = true -> frame_sample_rate p <> 0%Z ->
  (gate_accepts p -> frame_analysable C p (frame_counter p + 1) (sid, data, ts, fn)) ->
  is_processed (snd (process_frame C p sid data ts fn))
  = ((frame_counter p + 1) mod frame_sample_rate p =? 0)%Z.
Proof.
  intros He Hr Han.
  destruct (Z.eqb_spec ((frame_counter p + 1) mod frame_sample_rate p) 0) as [Hg|Hg].
  - rewrite process_frame_accepted by assumption. cbv zeta.
    cbn [sessions set_frame_counter frame_counter].
    destruct (Han Hg) as ([s Hs] & f & r & Hdec & Hres). cbn [fst snd] in *.
    rewrite Hs, Hdec, Hres. reflexivity.
  - rewrite process_frame_rejected by assumption. reflexivity.
Qed.

End GateFacts.

(** X6: the sampling counter is one for the whole processor: over any run
    of frames, for any mix of sessions, known or not, it advances by one
    per frame, and the frame at place i (from 0) can return metrics only if
    the counter it brings, [counter + i + 1], is a multiple of the sample
    rate. *)
Theorem X6_gate_counter C p calls :
  enable_vision p = true ->
  frame_counter (fst (process_frames C p calls))
  = (frame_counter p + Z.of_nat (length calls))%Z
  /\ forall i r,
       snd (process_frames C p calls) !! i = Some r -> is_processed r = true ->
       ((frame_counter p + Z.of_nat i + 1) mod frame_sample_rate p = 0)%Z.
Proof.
  intros He. destruct (process_frames_counter C calls p He) as (H1 & _ & H3).
  split; [exact H1|]. intros i r Hi Hp. apply (H3 i r Hi Hp).
Qed.

Lemma X6_gate_counter_witness :
  frame_counter
    (fst (process_frames Fake.working Fake.processor1
            (replicate 9 ("s1", [], None, None))))
  = 9%Z.
Proof.
  apply (proj1 (X6_gate_counter Fake.working Fake.processor1
                  (replicate 9 ("s1", [], None, None)) eq_refl)).
Defined.

(** X7: when every frame that brings the counter to a multiple of the
    sample rate is for a stored session, decodes and is answered by the
    extractor, the frames that return metrics are exactly those frames: with
    rate 3 and a counter at 0, frames 3, 6 and 9 of nine. Nothing is asked
    of the other frames. *)
Theorem X7_gate_exact C calls : forall p,
  enable_vision p = true -> frame_sample_rate p <> 0%Z ->
  (forall i c,
      calls !! i = Some c ->
      ((frame_counter p + Z.of_nat i + 1) mod frame_sample_rate p = 0)%Z ->
      frame_analysable C p (frame_counter p + Z.of_nat i + 1) c) ->
  map is_processed (snd (process_frames C p calls))
  = map (fun i => ((frame_counter p + Z.of_nat i + 1) mod frame_sample_rate p =? 0)%Z)
      (seq 0 (length calls)).
Proof.
  induction calls as [|c calls IH]; intros p He Hr Han; [reflexivity|].
  rewrite process_frames_cons. cbn [fst snd length map seq].
  destruct (process_frame_effect C p c.1.1.1 c.1.1.2 c.1.2 c.2)
    as (_ & Hev & Hrate & Hcnt & _ & _).
  cbv zeta in Hev, Hrate, Hcnt. rewrite He in Hcnt.
  f_equal.
  - rewrite process_frame_processed_iff; try assumption.
    + replace (frame_counter p + Z.of_nat 0 + 1)%Z with (frame_counter p + 1)%Z by lia.
      reflexivity.
    + intros Hg. unfold gate_accepts in Hg.
      specialize (Han 0%nat c eq_refl).
      replace (frame_counter p + Z.of_nat 0 + 1)%Z with (frame_counter p + 1)%Z
        in Han by lia.
      destruct c as [[[sid data] ts] fn]. exact (Han Hg).
  - rewrite IH; try congruence.
    + rewrite <- seq_shift, map_map. apply map_ext. intros i.
      rewrite Hrate, Hcnt. f_equal. f_equal. lia.
    + intros i c' Hi Hm. rewrite Hrate, Hcnt in Hm.
      specialize (Han (S i) c' Hi).
      replace (frame_counter p + Z.of_nat (S i) + 1)%Z
        with (frame_counter p + 1 + Z.of_nat i + 1)%Z in Han by lia.
      destruct (Han Hm) as [Hs Hex]. rewrite Hcnt. split; [|exact Hex].
      apply process_frame_domain. exact Hs.
Qed.

Lemma X7_gate_exact_witness :
  map is_processed
    (snd (process_frames Fake.working Fake.processor1
            (replicate 9 ("s1", [], None, None))))
  = [false; false; true; false; false; true; false; false; true].
Proof.
  rewrite (X7_gate_exact Fake.working (replicate 9 ("s1", [], None, None))
             Fake.processor1 eq_refl).
  - reflexivity.
  - discriminate.
  - intros i c Hi _. apply lookup_replicate in Hi as [-> _].
    split; [eexists; reflexivity|]. eexists _, _. split; reflexivity.
Defined.

(** ** Audio is never sampled *)

Lemma set_audio_chunk_count_same s n :
  n = audio_chunk_count s -> set_audio_chunk_count s n = s.
Proof. intros ->. destruct s; reflexivity. Qed.

Lemma set_audio_chunk_count_twice s a b :
  set_audio_chunk_count (set_audio_chunk_count s a) b = set_audio_chunk_count s b.
Proof. reflexivity. Qed.

(** X8: every audio chunk sent for a stored session is analysed, none is
    sampled out: when the buffers hold whole 4-byte samples and the
    extractor answers on each chunk of the run, a run of n chunks returns n
    metric snapshots, adds n to the session's audio count and leaves the
    frame counter alone. *)
Theorem X8_audio_never_sampled C calls : forall p sid s,
  enable_audio p = true -> sessions p !! sid = Some s ->
  Forall (fun c => (length c.1.1 mod 4 = 0)%nat) calls ->
  Forall (chunk_analysable C) calls ->
  let p' := fst (process_audios C p sid calls) in
  Forall (fun r => is_processed r = true) (snd (process_audios C p sid calls))
  /\ length (snd (process_audios C p sid calls)) = length calls
  /\ frame_counter p' = frame_counter p
  /\ sessions p' !! sid
     = Some (set_audio_chunk_count s (audio_chunk_count s + Z.of_nat (length calls))).
Proof.
  induction calls as [|[[data ts] rate] calls IH]; intros p sid s He Hs Hall Han p'.
  - subst p'. cbn. split; [constructor|]. split; [reflexivity|]. split; [reflexivity|].
    rewrite Hs. f_equal. symmetry. apply set_audio_chunk_count_same. cbn. lia.
  - inversion Hall as [|c cs Hlen Hrest]; subst. cbn [fst snd] in Hlen.
    inversion Han as [|c cs [res Hres] Hanrest]; subst. cbn [fst snd] in Hres.
    subst p'. cbn [process_audios].
    rewrite (process_audio_found C p sid data ts rate s res He Hs Hlen Hres).
    set (s1 := set_audio_chunk_count s (audio_chunk_count s + 1)).
    set (p1 := set_sessions p (<[sid := s1]> (sessions p))).
    assert (Hs1 : sessions p1 !! sid = Some s1) by apply lookup_insert_eq.
    destruct (IH p1 sid s1 He Hs1 Hrest Hanrest) as (H1 & H2 & H3 & H4).
    destruct (process_audios C p1 sid calls) as [p2 rs]. cbn [fst snd] in *.
    split; [constructor; [reflexivity|exact H1]|].
    split; [cbn; rewrite H2; reflexivity|]. split; [exact H3|].
    rewrite H4. f_equal. subst s1. rewrite set_audio_chunk_count_twice.
    f_equal. cbn [audio_chunk_count set_audio_chunk_count length]. lia.
Qed.

Lemma X8_audio_never_sampled_witness :
  sessions (fst (process_audios Fake.working Fake.processor1 "s1"
                   (replicate 5 ([], None, 16000%Z)))) !! "s1"
  = Some (set_audio_chunk_count (fresh_session 0 "s1" "u1" "practice") 5).
Proof.
  destruct (X8_audio_never_sampled Fake.working (replicate 5 ([], None, 16000%Z))
              Fake.processor1 "s1" (fresh_session 0 "s1" "u1" "practice")
              eq_refl eq_refl) as (_ & _ & _ & H).
  - repeat constructor.
  - repeat (constructor; [eexists; reflexivity|]). constructor.
  - exact H.
Defined.

(** ** Session lifecycle *)

(** X9: [start_session] registers a new session with zero counters and an
    empty history under its id, whatever was there: an id already active is
    overwritten without notice, its counters and history lost. Other
    sessions are untouched. *)
Theorem X9_start_session_overwrites p now sid uid ty :
  let p' := fst (start_session p now sid uid ty) in
  snd (start_session p now sid uid ty) = fresh_session now sid uid ty
  /\ sessions p' !! sid = Some (fresh_session now sid uid ty)
  /\ (forall sid', sid' <> sid -> sessions p' !! sid' = sessions p !! sid')
  /\ frame_counter p' = frame_counter p.
Proof.
  cbn. split; [reflexivity|]. split; [apply lookup_insert_eq|]. split; [|reflexivity].
  intros sid' Hne. apply lookup_insert_ne. congruence.
Qed.

(** X10: a session started on a free id and stopped at once leaves the
    store as it was before the start: the stop returns the short summary
    with the time between the two calls, and a second stop fails with
    NotFound. *)
Theorem X10_start_stop p now now' sid uid ty :
  sessions p !! sid = None ->
  let p1 := fst (start_session p now sid uid ty) in
  stop_session p1 now' sid
  = (set_sessions p1 (sessions p), Ok (NoDataSummary sid (now' - now)))
  /\ sessions (fst (stop_session p1 now' sid)) = sessions p
  /\ snd (stop_session (fst (stop_session p1 now' sid)) now' sid) = Raise (NotFound sid).
Proof.
  intros Hfree p1.
  assert (E : stop_session p1 now' sid
              = (set_sessions p1 (sessions p), Ok (NoDataSummary sid (now' - now)))).
  { unfold stop_session. subst p1. cbn [fst start_session sessions set_sessions].
    rewrite lookup_insert_eq. cbn.
    rewrite delete_insert_id by exact Hfree. reflexivity. }
  split; [exact E|]. rewrite E. cbn [fst snd sessions set_sessions].
  split; [reflexivity|].
  unfold stop_session. cbn [sessions set_sessions]. rewrite Hfree. reflexivity.
Qed.

Lemma X10_start_stop_witness :
  sessions (fst (stop_session (fst (start_session Fake.processor0 3 "s1" "u1" "live"))
                   10 "s1"))
  = sessions Fake.processor0.
Proof.
  destruct (X10_start_stop Fake.processor0 3 10 "s1" "u1" "live" eq_refl)
    as (_ & H & _).
  exact H.
Defined.

(** ** The session summary *)

Lemma max_by_snoc {A} (key : A -> Q) first rest x :
  max_by key first (rest ++ [x])
  = if Qltb (key (max_by key first rest)) (key x) then x else max_by key first rest.
Proof. unfold max_by. rewrite fold_left_app. reflexivity. Qed.

Lemma Qltb_true a b : Qltb a b = true <-> a < b.
Proof. unfold Qltb. destruct (Qlt_le_dec a b); split; intros; try discriminate; auto; lra. Qed.

Lemma Qltb_false a b : Qltb a b = false <-> b <= a.
Proof. unfold Qltb. destruct (Qlt_le_dec a b); split; intros; try discriminate; auto; lra. Qed.

(** [max] with a key returns the first item of the largest key. *)
Lemma max_by_first_max {A} (key : A -> Q) first rest :
  exists before after,
    first :: rest = before ++ max_by key first rest :: after
    /\ Forall (fun e => key e < key (max_by key first rest)) before
    /\ Forall (fun e => key e <= key (max_by key first rest)) after.
Proof.
  induction rest as [|x rest IH] using rev_ind.
  - exists [], []. repeat split; constructor.
  - destruct IH as (before & after & Hsplit & Hb & Ha).
    rewrite max_by_snoc. set (m := max_by key first rest) in *.
    destruct (Qltb (key m) (key x)) eqn:Hlt.
    + apply Qltb_true in Hlt. exists (first :: rest), []. split; [|split].
      * rewrite app_comm_cons. reflexivity.
      * rewrite Hsplit. apply Forall_app. split; [|constructor].
        -- eapply Forall_impl; [exact Hb|]. intros e He. cbv beta in *. lra.
        -- exact Hlt.
        -- eapply Forall_impl; [exact Ha|]. intros e He. cbv beta in *. lra.
      * constructor.
    + apply Qltb_false in Hlt. exists before, (after ++ [x]). split; [|split].
      * rewrite app_comm_cons, Hsplit, <- app_assoc. reflexivity.
      * exact Hb.
      * apply Forall_app. split; [exact Ha|]. constructor; [exact Hlt|constructor].
Qed.

Lemma max_by_In {A} (key : A -> Q) first rest :
  In (max_by key first rest) (first :: rest).
Proof.
  destruct (max_by_first_max key first rest) as (before & after & -> & _).
  apply in_or_app. right. left. reflexivity.
Qed.

(** X11: the peak moment of a summary is an entry of the session's
    history whose five scores sum highest; among entries of equal sum it is
    the earliest. *)
Theorem X11_peak_moment p now sid s h hs :
  sessions p !! sid = Some s -> score_history s = h :: hs ->
  exists fs before after,
    snd (stop_session p now sid) = Ok (DataSummary fs)
    /\ score_history s = before ++ sum_peak_moment fs :: after
    /\ Forall (fun e => scores_total (h_scores e)
                        < scores_total (h_scores (sum_peak_moment fs))) before
    /\ Forall (fun e => scores_total (h_scores e)
                        <= scores_total (h_scores (sum_peak_moment fs))) after.
Proof.
  intros Hs Hh.
  destruct (max_by_first_max (fun e => scores_total (h_scores e)) h hs)
    as (before & after & Hsplit & Hb & Ha).
  unfold stop_session. rewrite Hs. cbn [snd].
  unfold calculate_session_summary. rewrite Hh.
  eexists _, before, after. split; [reflexivity|].
  cbn [sum_peak_moment]. split; [exact Hsplit|]. split; assumption.
Qed.

Lemma X11_peak_moment_witness :
  exists fs before after,
    snd (stop_session scenario_C_processor 10 "s1") = Ok (DataSummary fs)
    /\ score_history scenario_C_session = before ++ sum_peak_moment fs :: after
    /\ Forall (fun e => scores_total (h_scores e)
                        < scores_total (h_scores (sum_peak_moment fs))) before
    /\ Forall (fun e => scores_total (h_scores e)
                        <= scores_total (h_scores (sum_peak_moment fs))) after.
Proof.
  apply (X11_peak_moment scenario_C_processor 10 "s1" scenario_C_session
           {| h_timestamp_ms := 1000; h_scores := uniform_scores 60 |}
           [{| h_timestamp_ms := 2000; h_scores := uniform_scores 50 |};
            {| h_timestamp_ms := 3000; h_scores := uniform_scores 80 |}]
           eq_refl eq_refl).
Defined.

(** Scenario C: the peak moment is the entry whose scores sum to 400. *)
Example peak_scenario_C :
  exists fs, snd (stop_session scenario_C_processor 10 "s1") = Ok (DataSummary fs)
             /\ h_timestamp_ms (sum_peak_moment fs) = 3000%Z
             /\ scores_total (h_scores (sum_peak_moment fs)) == 400.
Proof. eexists. split; [reflexivity|]. split; vm_compute; reflexivity. Qed.

Lemma sum_in_range xs :
  Forall (fun x => 0 <= x <= 100) xs ->
  0 <= fold_right Qplus 0 xs <= 100 * inject_Z (Z.of_nat (length xs)).
Proof.
  induction 1 as [|x xs Hx _ IH].
  - cbn [fold_right length]. change (inject_Z (Z.of_nat 0)) with 0. lra.
  - cbn [fold_right length]. rewrite Nat2Z.inj_succ. unfold Z.succ.
    rewrite inject_Z_plus. change (inject_Z 1) with 1. lra.
Qed.

Lemma average_in_range (key : Scores -> Q) entries :
  entries <> [] ->
  Forall (fun e => 0 <= key (h_scores e) <= 100) entries ->
  0 <= average key entries <= 100.
Proof.
  intros Hne Hall. unfold average. rewrite py_sum_fold_right.
  assert (Hmap : Forall (fun x => 0 <= x <= 100) (map (fun h => key (h_scores h)) entries)).
  { apply Forall_map. exact Hall. }
  pose proof (sum_in_range _ Hmap) as Hsum. rewrite length_map in Hsum.
  assert (Hpos : 0 < inject_Z (Z.of_nat (length entries))).
  { destruct entries; [contradiction|]. cbn [length]. rewrite Nat2Z.inj_succ.
    unfold Z.succ. rewrite inject_Z_plus. change (inject_Z 1) with 1.
    assert (0 <= inject_Z (Z.of_nat (length entries))).
    { change 0 with (inject_Z 0). rewrite <- Zle_Qle. lia. }
    lra. }
  split.
  - apply Qle_shift_div_l; [exact Hpos|]. lra.
  - apply Qle_shift_div_r; [exact Hpos|]. lra.
Qed.

Lemma push_history_in_range h e :
  Forall (fun e => scores_in_range (h_scores e)) h -> scores_in_range (h_scores e) ->
  Forall (fun e => scores_in_range (h_scores e)) (push_history h e)
  /\ push_history h e <> [].
Proof.
  intros Hh He. rewrite push_history_last_n. unfold Py.last_n. split.
  - apply Forall_drop. apply Forall_app. split; [exact Hh|]. constructor; [exact He|constructor].
  - intros E. apply (f_equal length) in E. rewrite length_drop, length_app in E.
    cbn in E. lia.
Qed.

Lemma feedback_cycles_in_range calls : forall p now_ms sid s,
  sessions p !! sid = Some s -> history_in_range s ->
  exists s',
    sessions (fst (feedback_cycles p now_ms sid calls)) !! sid = Some s'
    /\ history_in_range s'
    /\ (score_history s <> [] \/ calls <> [] -> score_history s' <> [])
    /\ frame_count s' = frame_count s
    /\ audio_chunk_count s' = audio_chunk_count s.
Proof.
  induction calls as [|[[a v] ts] calls IH]; intros p now_ms sid s Hs Hr.
  - exists s. cbn. repeat split; try assumption. intros [H|H]; congruence.
  - cbn [feedback_cycles].
    rewrite (generate_feedback_found p now_ms sid a v ts s Hs). cbv zeta.
    set (e := {| h_timestamp_ms := get_or ts now_ms;
                 h_scores := calculate_scores a v (baseline s) |}).
    set (s1 := set_score_history s (push_history (score_history s) e)).
    set (p1 := set_sessions p (<[sid := s1]> (sessions p))).
    assert (Hs1 : sessions p1 !! sid = Some s1) by apply lookup_insert_eq.
    destruct (push_history_in_range (score_history s) e Hr) as [Hr1 Hne1].
    { apply calculate_scores_in_range. }
    destruct (IH p1 now_ms sid s1 Hs1 Hr1) as (s' & H1 & H2 & H3 & H4 & H5).
    destruct (feedback_cycles p1 now_ms sid calls) as [p2 rs]. cbn [fst] in *.
    exists s'. split; [exact H1|]. split; [exact H2|].
    split; [|split; assumption].
    intros _. apply H3. left. exact Hne1.
Qed.

(** X12: a session that is started, run through at least one feedback
    cycle and stopped gets the full summary, and in it every average score
    and every score of the peak moment lies in [0, 100]; feedback cycles
    leave the frame and audio counts at 0. *)
Theorem X12_summary_in_range p now now' now_ms sid uid ty calls :
  calls <> [] ->
  let p1 := fst (start_session p now sid uid ty) in
  let p2 := fst (feedback_cycles p1 now_ms sid calls) in
  exists fs,
    snd (stop_session p2 now' sid) = Ok (DataSummary fs)
    /\ scores_in_range (sum_average_scores fs)
    /\ scores_in_range (h_scores (sum_peak_moment fs))
    /\ sum_frames_processed fs = 0%Z /\ sum_audio_chunks_processed fs = 0%Z.
Proof.
  intros Hne p1 p2.
  assert (Hs1 : sessions p1 !! sid = Some (fresh_session now sid uid ty))
    by apply lookup_insert_eq.
  destruct (feedback_cycles_in_range calls p1 now_ms sid _ Hs1)
    as (s' & H1 & H2 & H3 & H4 & H5); [constructor|].
  fold p2 in H1. unfold stop_session. rewrite H1. cbn [snd].
  unfold calculate_session_summary.
  destruct (score_history s') as [|h hs] eqn:Hh; [exfalso; apply H3; auto|].
  eexists. split; [reflexivity|].
  cbn [sum_average_scores sum_peak_moment sum_frames_processed
       sum_audio_chunks_processed].
  unfold history_in_range in H2. rewrite Hh in H2.
  split; [|split; [|split; [exact H4|exact H5]]].
  - unfold scores_in_range. cbn [confidence engagement clarity authenticity
                                   professionalPresence].
    repeat split; apply average_in_range; try discriminate;
      (eapply Forall_impl; [exact H2|]; intros e He; apply He).
  - pose proof (max_by_In (fun e => scores_total (h_scores e)) h hs) as Hin.
    rewrite Forall_forall in H2. apply H2. apply list_elem_of_In. exact Hin.
Qed.

Lemma X12_summary_in_range_witness :
  exists fs,
    snd (stop_session
           (fst (feedback_cycles (fst (start_session Fake.processor0 0 "s1" "u1" "live"))
                   0 "s1" Fake.sixty_calls)) 100 "s1") = Ok (DataSummary fs)
    /\ scores_in_range (sum_average_scores fs).
Proof.
  destruct (X12_summary_in_range Fake.processor0 0 100 0%Z "s1" "u1" "live"
              Fake.sixty_calls ltac:(discriminate)) as (fs & H1 & H2 & _).
  exists fs. split; assumption.
Defined.

(** ** Suggestions *)

(** X13: the filler-word suggestion (speech, high) is in the list exactly
    when confidence is below 60 and the filler counts of the speech metrics
    sum to more than 5; its message names that sum. *)
Theorem X13_filler_rule a v sc n :
  In {| category := "speech"; priority := "high"; message := FillerWordsText n |}
     (generate_suggestions a v sc)
  <-> confidence sc < 60
      /\ exists sp, audio_key speech a = Some sp
                    /\ n = total_fillers (get_or (filler_words sp) [])
                    /\ (5 < n)%Z.
Proof.
  unfold generate_suggestions. rewrite !in_app_iff. split.
  - intros [H|[H|[H|H]]].
    + destruct (Qltb (confidence sc) 60) eqn:Hc; [|destruct H].
      apply Qltb_true in Hc. split; [exact Hc|].
      destruct (audio_key speech a) as [sp|]; [|destruct H].
      destruct (Z.ltb_spec 5 (total_fillers (get_or (filler_words sp) []))) as [Hn|Hn];
        [|destruct H].
      destruct H as [H|[]]. injection H as <-. exists sp. auto.
    + exfalso. destruct (Qltb (engagement sc) 60); [|destruct H].
      destruct (vision_key body v) as [b|]; [|destruct H].
      destruct (Qltb _ 50); [destruct H as [H|[]]; discriminate|destruct H].
    + exfalso. destruct (Qltb (clarity sc) 60); [|destruct H].
      destruct (audio_key speech a) as [sp|]; [|destruct H].
      destruct (Qltb 180 _); [destruct H as [H|[]]; discriminate|destruct H].
    + exfalso. destruct (audio_key emotion a) as [e|]; [|destruct H].
      destruct (Qltb 70 _); [destruct H as [H|[]]; discriminate|destruct H].
  - intros (Hc & sp & Hsp & -> & Hn). left.
    apply Qltb_true in Hc. rewrite Hc, Hsp.
    destruct (Z.ltb_spec 5 (total_fillers (get_or (filler_words sp) []))); [|lia].
    left. reflexivity.
Qed.

(** X14: suggestions come in the order of the rule table, at most one per
    rule (filler words, low energy, too fast, high stress); the high-stress
    suggestion depends on the audio emotion metrics alone: it is there
    exactly when the stress level is above 70, whatever the scores. *)
Theorem X14_suggestion_order a v sc :
  sublist (map rule_number (generate_suggestions a v sc)) [1; 2; 3; 4]%nat
  /\ (In stress_suggestion (generate_suggestions a v sc)
      <-> exists e, audio_key emotion a = Some e /\ 70 < get_or (stress_level e) 0).
Proof.
  split.
  - unfold generate_suggestions. rewrite !map_app.
    change [1; 2; 3; 4]%nat with ([1] ++ [2] ++ [3] ++ [4])%nat.
    repeat apply sublist_app.
    + destruct (Qltb (confidence sc) 60); [|apply sublist_nil_l].
      destruct (audio_key speech a) as [sp|]; [|apply sublist_nil_l].
      destruct (5 <? _)%Z; [reflexivity|apply sublist_nil_l].
    + destruct (Qltb (engagement sc) 60); [|apply sublist_nil_l].
      destruct (vision_key body v) as [b|]; [|apply sublist_nil_l].
      destruct (Qltb _ 50); [reflexivity|apply sublist_nil_l].
    + destruct (Qltb (clarity sc) 60); [|apply sublist_nil_l].
      destruct (audio_key speech a) as [sp|]; [|apply sublist_nil_l].
      destruct (Qltb 180 _); [reflexivity|apply sublist_nil_l].
    + destruct (audio_key emotion a) as [e|]; [|apply sublist_nil_l].
      destruct (Qltb 70 _); [reflexivity|apply sublist_nil_l].
  - unfold generate_suggestions, stress_suggestion. rewrite !in_app_iff. split.
    + intros [H|[H|[H|H]]].
      * exfalso. destruct (Qltb (confidence sc) 60); [|destruct H].
        destruct (audio_key speech a) as [sp|]; [|destruct H].
        destruct (5 <? _)%Z; [destruct H as [H|[]]; discriminate|destruct H].
      * exfalso. destruct (Qltb (engagement sc) 60); [|destruct H].
        destruct (vision_key body v) as [b|]; [|destruct H].
        destruct (Qltb _ 50); [destruct H as [H|[]]; discriminate|destruct H].
      * exfalso. destruct (Qltb (clarity sc) 60); [|destruct H].
        destruct (audio_key speech a) as [sp|]; [|destruct H].
        destruct (Qltb 180 _); [destruct H as [H|[]]; discriminate|destruct H].
      * destruct (audio_key emotion a) as [e|]; [|destruct H].
        destruct (Qltb 70 (get_or (stress_level e) 0)) eqn:Hst; [|destruct H].
        exists e. split; [reflexivity|]. apply Qltb_true. exact Hst.
    + intros (e & He & Hst). right. right. right.
      apply Qltb_true in Hst. rewrite He, Hst. left. reflexivity.
Qed.

(** ** The connection registry *)

Lemma remove_app_fresh ws l : ws ∉ l -> ConnectionManager.remove ws (l ++ [ws]) = l.
Proof.
  induction l as [|x l IH]; intros Hfresh; cbn.
  - rewrite Nat.eqb_refl. reflexivity.
  - apply not_elem_of_cons in Hfresh as [Hne Hfresh].
    destruct (Nat.eqb_spec x ws); [congruence|]. rewrite IH by exact Hfresh. reflexivity.
Qed.

Lemma connect_lookup active sid ws sid' :
  ConnectionManager.connect active sid ws !! sid'
  = if decide (sid = sid') then Some (default [] (active !! sid) ++ [ws])
    else active !! sid'.
Proof. unfold ConnectionManager.connect. apply lookup_insert. Qed.

Lemma disconnect_with_connections sid l active ws :
  ConnectionManager.disconnect (with_connections sid l active) sid ws
  = with_connections sid (ConnectionManager.remove ws l) active.
Proof.
  unfold ConnectionManager.disconnect, with_connections.
  destruct l as [|x l].
  - rewrite lookup_delete_eq. reflexivity.
  - rewrite lookup_insert_eq.
    destruct (ConnectionManager.remove ws (x :: l)).
    + apply delete_insert_eq.
    + apply insert_insert_eq.
Qed.

Lemma with_connections_stored sid l active :
  active !! sid = Some l -> l <> [] -> with_connections sid l active = active.
Proof.
  intros Hl Hne. unfold with_connections. destruct l; [contradiction|].
  apply insert_id. exact Hl.
Qed.

Lemma with_connections_lookup sid l active sid' :
  with_connections sid l active !! sid'
  = if decide (sid = sid')
    then match l with [] => None | _ => Some l end
    else active !! sid'.
Proof.
  unfold with_connections. destruct l; [rewrite lookup_delete|rewrite lookup_insert];
    destruct (decide (sid = sid')); reflexivity.
Qed.

(** X15: registering a socket and unregistering it again gives back the
    registry as it was, provided the socket was not yet registered for the
    session and no session is listed without sockets; the last socket to
    leave takes the session's entry with it. *)
Theorem X15_connect_disconnect active sid ws :
  no_empty_entry active ->
  (forall l, active !! sid = Some l -> ws ∉ l) ->
  ConnectionManager.disconnect (ConnectionManager.connect active sid ws) sid ws = active.
Proof.
  intros Hinv Hfresh. unfold ConnectionManager.connect.
  destruct (active !! sid) as [l|] eqn:Hl; cbn [default].
  - assert (Hne : l ++ [ws] <> []) by (destruct l; discriminate).
    replace (<[sid := l ++ [ws]]> active) with (with_connections sid (l ++ [ws]) active)
      by (unfold with_connections; destruct (l ++ [ws]); [contradiction|reflexivity]).
    rewrite disconnect_with_connections, remove_app_fresh by (apply Hfresh; reflexivity).
    apply with_connections_stored; [exact Hl|]. intros ->. apply (Hinv sid Hl).
  - replace (<[sid := [] ++ [ws]]> active) with (with_connections sid ([] ++ [ws]) active)
      by reflexivity.
    rewrite disconnect_with_connections. cbn. rewrite Nat.eqb_refl. cbn.
    apply delete_id. exact Hl.
Qed.

Lemma X15_connect_disconnect_witness :
  ConnectionManager.disconnect
    (ConnectionManager.connect registry_one "s1" 8) "s1" 8
  = registry_one.
Proof.
  apply X15_connect_disconnect; unfold registry_one.
  - intros sid H. apply lookup_singleton_Some in H as [_ H]. discriminate.
  - intros l H. apply lookup_singleton_Some in H as [_ <-].
    intros Hin. apply list_elem_of_singleton in Hin. discriminate.
Defined.

Lemma remove_nonempty_or ws l :
  ConnectionManager.remove ws l = [] \/ ConnectionManager.remove ws l <> [].
Proof. destruct (ConnectionManager.remove ws l); [left|right]; congruence. Qed.

(** X16: the registry never lists a session without sockets. [connect]
    keeps that, registers the socket and leaves the other sessions' entries
    alone, whatever the registry held. [disconnect] of a socket that is in
    its session's list, or whose session has no entry, keeps it as well and
    leaves the other sessions' entries alone. *)
Theorem X16_registry_invariant active sid ws :
  no_empty_entry active ->
  no_empty_entry (ConnectionManager.connect active sid ws)
  /\ registered (ConnectionManager.connect active sid ws) sid ws
  /\ (forall sid', sid' <> sid ->
        ConnectionManager.connect active sid ws !! sid' = active !! sid')
  /\ ((forall l, active !! sid = Some l -> ws ∈ l) ->
      no_empty_entry (ConnectionManager.disconnect active sid ws)
      /\ forall sid', sid' <> sid ->
           ConnectionManager.disconnect active sid ws !! sid' = active !! sid').
Proof.
  intros Hinv. split; [|split; [|split]].
  - intros sid'. rewrite connect_lookup. destruct (decide (sid = sid')); [|apply Hinv].
    intros [= H]. destruct (default [] (active !! sid)); discriminate.
  - exists (default [] (active !! sid) ++ [ws]). split.
    + rewrite connect_lookup. destruct (decide (sid = sid)); congruence.
    + apply elem_of_app. right. apply list_elem_of_singleton. reflexivity.
  - intros sid' Hne. rewrite connect_lookup. destruct (decide (sid = sid')); congruence.
  - intros _. split.
    + intros sid'. unfold ConnectionManager.disconnect.
      destruct (active !! sid) as [l|] eqn:Hl; [|apply Hinv].
      destruct (ConnectionManager.remove ws l) as [|x l'] eqn:Hr.
      * rewrite lookup_delete. destruct (decide (sid = sid')); [discriminate|apply Hinv].
      * rewrite lookup_insert. destruct (decide (sid = sid')); [discriminate|apply Hinv].
    + intros sid' Hne. unfold ConnectionManager.disconnect.
      destruct (active !! sid) as [l|]; [|reflexivity].
      destruct (ConnectionManager.remove ws l).
      * apply lookup_delete_ne. congruence.
      * apply lookup_insert_ne. congruence.
Qed.

Lemma X16_registry_invariant_witness :
  no_empty_entry (ConnectionManager.connect registry_one "s1" 8)
  /\ no_empty_entry (ConnectionManager.disconnect registry_one "s1" 7).
Proof.
  assert (Hinv : no_empty_entry registry_one).
  { intros sid H. unfold registry_one in H.
    apply lookup_singleton_Some in H as [_ H]. discriminate. }
  split.
  - apply (X16_registry_invariant registry_one "s1" 8%nat Hinv).
  - apply (X16_registry_invariant registry_one "s1" 7%nat Hinv).
    intros l Hl. unfold registry_one in Hl.
    apply lookup_singleton_Some in Hl as [_ <-].
    apply list_elem_of_singleton. reflexivity.
Defined.

Lemma remove_all_keeps ok x l D :
  ok x = true -> Forall (fun d => ok d = false) D ->
  fold_left (fun l d => ConnectionManager.remove d l) D (x :: l)
  = x :: fold_left (fun l d => ConnectionManager.remove d l) D l.
Proof.
  intros Hx HD. revert l. induction HD as [|d D Hd _ IH]; intros l; [reflexivity|].
  cbn [fold_left ConnectionManager.remove].
  destruct (Nat.eqb_spec x d) as [->|_]; [congruence|]. apply IH.
Qed.

Lemma remove_failed_is_filter ok l :
  fold_left (fun l d => ConnectionManager.remove d l)
    (List.filter (fun ws => negb (ok ws)) l) l
  = List.filter ok l.
Proof.
  induction l as [|x l IH]; [reflexivity|]. cbn [List.filter].
  destruct (ok x) eqn:Hx; cbn [negb].
  - rewrite (remove_all_keeps ok) ; [rewrite IH; reflexivity|exact Hx|].
    apply Forall_forall. intros d Hd. apply list_elem_of_In, filter_In in Hd as [_ Hd].
    destruct (ok d); [discriminate|reflexivity].
  - cbn [fold_left ConnectionManager.remove]. rewrite Nat.eqb_refl. exact IH.
Qed.

Lemma fold_disconnect_with_connections sid D : forall l active,
  fold_left (fun active conn => ConnectionManager.disconnect active sid conn) D
    (with_connections sid l active)
  = with_connections sid (fold_left (fun l d => ConnectionManager.remove d l) D l) active.
Proof.
  induction D as [|d D IH]; intros l active; [reflexivity|].
  cbn [fold_left]. rewrite disconnect_with_connections. apply IH.
Qed.

(** X17: [send_feedback] reaches exactly the session's sockets whose send
    succeeds, in order, and unregisters every socket whose send fails:
    afterwards the session lists the sockets reached, or is gone from the
    registry when none was; other sessions keep their sockets. *)
Theorem X17_send_feedback send_ok active sid l :
  active !! sid = Some l -> l <> [] ->
  let active' := fst (send_feedback send_ok active sid) in
  snd (send_feedback send_ok active sid) = List.filter send_ok l
  /\ active' !! sid
     = match List.filter send_ok l with [] => None | reached => Some reached end
  /\ forall sid', sid' <> sid -> active' !! sid' = active !! sid'.
Proof.
  intros Hl Hne active'. subst active'. unfold send_feedback. rewrite Hl.
  cbn [fst snd]. split; [reflexivity|].
  pose proof (fold_disconnect_with_connections sid
                (List.filter (fun ws => negb (send_ok ws)) l) l active) as E.
  rewrite (with_connections_stored sid l active Hl Hne) in E.
  rewrite E, remove_failed_is_filter.
  split.
  - rewrite with_connections_lookup. destruct (decide (sid = sid)); [|congruence].
    destruct (List.filter send_ok l); reflexivity.
  - intros sid' Hd. rewrite with_connections_lookup.
    destruct (decide (sid = sid')); congruence.
Qed.

Lemma X17_send_feedback_witness :
  fst (send_feedback Nat.even registry_four "s1") !! "s1" = Some [2; 4]%nat.
Proof.
  destruct (X17_send_feedback Nat.even registry_four "s1"
              [1; 2; 3; 4]%nat ltac:(vm_compute; reflexivity) ltac:(discriminate))
    as (_ & H & _).
  exact H.
Defined.

(** ** The stream as a whole *)

Lemma last_cons_default {A} (x : A) l d : List.last (x :: l) d = List.last l x.
Proof.
  revert x d. induction l as [|y l IH]; intros x d; [reflexivity|].
  change (List.last (x :: y :: l) d) with (List.last (y :: l) d).
  rewrite (IH y d), (IH y x). reflexivity.
Qed.

Lemma spaced_app t t1 t2 :
  spaced t t1 -> spaced (List.last t1 t) t2 -> spaced t (t1 ++ t2).
Proof.
  revert t. induction t1 as [|x t1 IH]; intros t H1 H2; [exact H2|].
  destruct H1 as [Hx H1]. cbn [app spaced]. split; [exact Hx|].
  apply IH; [exact H1|]. rewrite last_cons_default in H2. exact H2.
Qed.

Lemma last_app_default {A} (l1 l2 : list A) d :
  List.last (l1 ++ l2) d = List.last l2 (List.last l1 d).
Proof.
  revert d. induction l1 as [|x l1 IH]; intros d; [reflexivity|].
  cbn [app]. rewrite !last_cons_default. apply IH.
Qed.

Lemma feedback_times_app out out' :
  feedback_times (out ++ out') = feedback_times out ++ feedback_times out'.
Proof. apply omap_app. Qed.

Section StreamShape.

Variable C : Collaborators.

Lemma dispatch_shape p sid m l :
  (forall sid', is_Some (sessions (dispatch C p sid m l).1.1 !! sid')
                <-> is_Some (sessions p !! sid'))
  /\ feedback_times (dispatch C p sid m l).1.2 = []
  /\ forall l', (dispatch C p sid m l).2 = Ok l' ->
                last_feedback_time l' = last_feedback_time l.
Proof.
  unfold dispatch.
  destruct (is_type m "heartbeat"); [cbn; repeat split; intros; congruence|].
  destruct (is_type m "frame").
  { destruct (decode_data C m) as [data|e]; [|cbn; repeat split; intros; congruence].
    pose proof (process_frame_domain C p sid data (in_timestamp_ms m) (in_frame_number m))
      as Hdom.
    destruct (process_frame C p sid data (in_timestamp_ms m) (in_frame_number m))
      as [p' [r|e]]; cbn [fst snd] in *.
    - split; [exact Hdom|]. split; [reflexivity|].
      intros l' [= <-]. destruct (option_truthy vision_truthy r); reflexivity.
    - split; [exact Hdom|]. split; [reflexivity|]. intros l' [=]. }
  destruct (is_type m "audio").
  { destruct (decode_data C m) as [data|e]; [|cbn; repeat split; intros; congruence].
    pose proof (process_audio_domain C p sid data (in_timestamp_ms m)
                  (get_or (in_sample_rate m) 16000%Z)) as Hdom.
    destruct (process_audio C p sid data (in_timestamp_ms m)
                (get_or (in_sample_rate m) 16000%Z)) as [p' [r|e]]; cbn [fst snd] in *.
    - split; [exact Hdom|]. split; [reflexivity|].
      intros l' [= <-]. destruct (option_truthy audio_truthy r); reflexivity.
    - split; [exact Hdom|]. split; [reflexivity|]. intros l' [=]. }
  cbn; repeat split; intros; congruence.
Qed.

Lemma cadence_shape p sid m loop_ms l :
  (forall sid', is_Some (sessions (cadence p sid m loop_ms l).1.1 !! sid')
                <-> is_Some (sessions p !! sid'))
  /\ spaced (last_feedback_time l) (feedback_times (cadence p sid m loop_ms l).1.2)
  /\ forall l', (cadence p sid m loop_ms l).2 = Ok l' ->
                last_feedback_time l'
                = List.last (feedback_times (cadence p sid m loop_ms l).1.2)
                    (last_feedback_time l).
Proof.
  unfold cadence. destruct (current_time m loop_ms) as [now| |];
    [|cbn; repeat split; intros; congruence..].
  destruct (cadence_open now l) eqn:Hc;
    [|cbn; repeat split; intros; congruence].
  apply andb_true_iff in Hc as [Hc _]. apply Z.leb_le in Hc.
  pose proof (generate_feedback_domain p loop_ms sid (latest_audio_metrics l)
                (latest_vision_metrics l) (Some now)) as Hdom.
  destruct (sessions p !! sid) as [s|] eqn:Hs.
  - rewrite (generate_feedback_found p loop_ms sid _ _ _ s Hs) in *. cbv zeta in *.
    cbn [fst snd] in *. split; [exact Hdom|].
    cbn. unfold feedback_interval_ms in *.
    split; [split; [lia|exact I]|]. intros l' [= <-]. reflexivity.
  - rewrite generate_feedback_missing in * by exact Hs. cbn.
    split; [reflexivity|]. split; [exact I|]. intros l' [=].
Qed.

Lemma spaced_nil_last t out :
  feedback_times out = [] ->
  spaced t (feedback_times out) /\ List.last (feedback_times out) t = t.
Proof. intros ->. split; [exact I|reflexivity]. Qed.

(** What one turn of the loop keeps. *)
Lemma iteration_shape g sid ws received loop_ms l :
  let st := iteration C g sid ws received loop_ms l in
  (forall sid', is_Some (sessions (processor (gateway st)) !! sid')
                <-> is_Some (sessions (processor g) !! sid'))
  /\ active_connections (gateway st)
     = match locals st with
       | None => ConnectionManager.disconnect (active_connections g) sid ws
       | Some _ => active_connections g
       end
  /\ spaced (last_feedback_time l) (feedback_times (sent st))
  /\ forall l', locals st = Some l' ->
                last_feedback_time l'
                = List.last (feedback_times (sent st)) (last_feedback_time l).
Proof.
  unfold iteration. destruct received as [| | |m].
  - cbn. repeat split; intros; congruence.
  - cbn. repeat split; intros; congruence.
  - cbn. repeat split; intros; congruence.
  - destruct (dispatch_shape (processor g) sid m l) as (Hd1 & Hd2 & Hd3).
    destruct (dispatch C (processor g) sid m l) as [[p out] [l1|e]]; cbn [fst snd] in *.
    + destruct (cadence_shape p sid m loop_ms l1) as (Hc1 & Hc2 & Hc3).
      rewrite (Hd3 l1 eq_refl) in Hc2, Hc3.
      destruct (cadence p sid m loop_ms l1) as [[p2 out2] [l2|e]]; cbn [fst snd] in *.
      * cbn [gateway sent locals processor active_connections].
        rewrite feedback_times_app, Hd2. cbn [app].
        split; [intros sid'; rewrite Hc1; apply Hd1|]. split; [reflexivity|].
        split; [exact Hc2|]. intros l' [= <-]. apply Hc3. reflexivity.
      * cbn [on_exception gateway sent locals processor active_connections].
        rewrite !feedback_times_app, Hd2. cbn [app feedback_times omap].
        rewrite app_nil_r.
        split; [intros sid'; rewrite Hc1; apply Hd1|]. split; [reflexivity|].
        split; [exact Hc2|]. intros l' [=].
    + cbn [on_exception gateway sent locals processor active_connections].
      rewrite feedback_times_app, Hd2. cbn.
      split; [exact Hd1|]. split; [reflexivity|]. split; [exact I|]. intros l' [=].
Qed.

Lemma stream_loop_shape inbox : forall g sid ws l,
  let st := stream_loop C g sid ws inbox l in
  (forall sid', is_Some (sessions (processor (gateway st)) !! sid')
                <-> is_Some (sessions (processor g) !! sid'))
  /\ active_connections (gateway st)
     = match locals st with
       | None => ConnectionManager.disconnect (active_connections g) sid ws
       | Some _ => active_connections g
       end
  /\ spaced (last_feedback_time l) (feedback_times (sent st))
  /\ forall l', locals st = Some l' ->
                last_feedback_time l'
                = List.last (feedback_times (sent st)) (last_feedback_time l).
Proof.
  induction inbox as [|[received loop_ms] inbox IH]; intros g sid ws l.
  - cbn. repeat split; intros; congruence.
  - cbn [stream_loop].
    destruct (iteration_shape g sid ws received loop_ms l) as (H1 & H2 & H3 & H4).
    cbv zeta in H1, H2, H3, H4.
    destruct (locals (iteration C g sid ws received loop_ms l)) as [l1|] eqn:Hl.
    + destruct (IH (gateway (iteration C g sid ws received loop_ms l)) sid ws l1)
        as (I1 & I2 & I3 & I4).
      cbv zeta in I1, I2, I3, I4. cbn [gateway sent locals].
      rewrite feedback_times_app.
      split; [intros sid'; rewrite I1; apply H1|].
      split; [rewrite I2, H2; reflexivity|].
      rewrite (H4 l1 eq_refl) in I3, I4.
      split; [apply spaced_app; assumption|].
      intros l' Hl'. rewrite last_app_default. apply I4. exact Hl'.
    + cbv zeta. rewrite Hl. split; [exact H1|]. split; [exact H2|].
      split; [exact H3|]. intros l' [=].
Qed.

End StreamShape.

(** X18: a stream never starts or stops a session: whatever the client
    sends, the store holds the same session ids when the handler is done.
    The handler's first message is the connection acknowledgment, and its
    socket is registered while the loop runs and unregistered once the loop
    is left. *)
Theorem X18_stream_keeps_sessions C g sid ws inbox :
  let st := websocket_feedback_stream C g sid ws inbox in
  (forall sid', is_Some (sessions (processor (gateway st)) !! sid')
                <-> is_Some (sessions (processor g) !! sid'))
  /\ (exists rest, sent st = OutConnected sid :: rest)
  /\ active_connections (gateway st)
     = match locals st with
       | None =>
           ConnectionManager.disconnect
             (ConnectionManager.connect (active_connections g) sid ws) sid ws
       | Some _ => ConnectionManager.connect (active_connections g) sid ws
       end.
Proof.
  unfold websocket_feedback_stream. cbn [gateway sent locals].
  destruct (stream_loop_shape C inbox
              {| processor := processor g;
                 active_connections :=
                   ConnectionManager.connect (active_connections g) sid ws |}
              sid ws initial_locals) as (H1 & H2 & _).
  cbv zeta in H1, H2. cbn [processor active_connections] in H1, H2.
  split; [exact H1|]. split; [eexists; reflexivity|exact H2].
Qed.

(** X19: on one stream, feedback messages are at least 1000 ms apart by
    their timestamps, the first one at 1000 or later: the timestamps never
    decrease and no two feedback messages share one. *)
Theorem X19_feedback_spacing C g sid ws inbox :
  spaced 0 (feedback_times (sent (websocket_feedback_stream C g sid ws inbox))).
Proof.
  unfold websocket_feedback_stream. cbn [sent].
  destruct (stream_loop_shape C inbox
              {| processor := processor g;
                 active_connections :=
                   ConnectionManager.connect (active_connections g) sid ws |}
              sid ws initial_locals) as (_ & _ & H3 & _).
  exact H3.
Qed.

Lemma timestamp_usable_number m loop_ms :
  timestamp_usable m <-> exists now, current_time m loop_ms = JNumber now.
Proof.
  unfold timestamp_usable, current_time.
  destruct (in_timestamp_ms m) as [[n|s|b]|].
  - split; [intros _|exact (fun _ => I)].
    cbn [json_truthy]. destruct (negb (n =? 0)%Z); eexists; reflexivity.
  - split.
    + intros ->. eexists; reflexivity.
    + destruct (json_truthy (JString s)); [intros [now [=]]|reflexivity].
  - split.
    + intros ->. eexists; reflexivity.
    + destruct (json_truthy (JCompound b)); [intros [now [=]]|reflexivity].
  - split; [intros _; eexists; reflexivity|exact (fun _ => I)].
Qed.

Lemma iteration_no_media C g sid ws m loop_ms l :
  is_type m "frame" = false -> is_type m "audio" = false ->
  latest_audio_metrics l = None -> latest_vision_metrics l = None ->
  (timestamp_usable m ->
   iteration C g sid ws (Message m) loop_ms l
   = {| gateway := g; sent := heartbeat_acks [(Message m, loop_ms)];
        locals := Some l |})
  /\ (~ timestamp_usable m ->
      iteration C g sid ws (Message m) loop_ms l
      = {| gateway := {| processor := processor g;
                         active_connections :=
                           ConnectionManager.disconnect (active_connections g) sid ws |};
           sent := heartbeat_acks [(Message m, loop_ms)] ++ [OutError TypeError];
           locals := None |}).
Proof.
  intros Hf Hau Ha Hv. unfold iteration, dispatch, heartbeat_acks. rewrite Hf, Hau.
  cbn [flat_map fst]. rewrite app_nil_r. split.
  - intros [now Ht]%(timestamp_usable_number m loop_ms).
    assert (Hclosed : cadence_open now l = false).
    { unfold cadence_open. rewrite Ha, Hv. cbn. apply andb_false_r. }
    destruct (is_type m "heartbeat");
      rewrite (cadence_closed _ _ _ _ _ now Ht Hclosed);
      cbn [app]; rewrite gateway_eta; reflexivity.
  - intros Hn.
    assert (Hnn : forall now, current_time m loop_ms <> JNumber now).
    { intros now Ht. apply Hn. apply (timestamp_usable_number m loop_ms).
      exists now. exact Ht. }
    destruct (is_type m "heartbeat"); rewrite cadence_not_number by exact Hnn;
      reflexivity.
Qed.

Lemma heartbeat_acks_app inbox inbox' :
  heartbeat_acks (inbox ++ inbox') = heartbeat_acks inbox ++ heartbeat_acks inbox'.
Proof. unfold heartbeat_acks. apply flat_map_app. Qed.

Lemma stream_loop_no_media C inbox : forall g sid ws l,
  Forall no_media inbox -> Forall usable_time inbox ->
  latest_audio_metrics l = None -> latest_vision_metrics l = None ->
  forall rest,
    stream_loop C g sid ws (inbox ++ rest) l
    = let st := stream_loop C g sid ws rest l in
      {| gateway := gateway st; sent := heartbeat_acks inbox ++ sent st;
         locals := locals st |}.
Proof.
  induction inbox as [|[received loop_ms] inbox IH]; intros g sid ws l Hall Hus Ha Hv rest.
  - cbn. destruct (stream_loop C g sid ws rest l); reflexivity.
  - inversion Hall as [|item items (m & Hm & Hf & Hau) Hrest]; subst.
    inversion Hus as [|item items Hu Hurest]; subst.
    cbn [fst] in Hm. subst received.
    destruct (iteration_no_media C g sid ws m loop_ms l Hf Hau Ha Hv) as [Hit _].
    specialize (Hit (Hu m eq_refl)).
    change (((Message m, loop_ms) :: inbox) ++ rest)
      with ((Message m, loop_ms) :: (inbox ++ rest)).
    cbn [stream_loop]. rewrite Hit. cbn [locals gateway sent].
    rewrite (IH g sid ws l Hrest Hurest Ha Hv rest). cbv zeta. cbn [gateway sent locals].
    change (heartbeat_acks ((Message m, loop_ms) :: inbox))
      with (heartbeat_acks ([(Message m, loop_ms)] ++ inbox)).
    rewrite heartbeat_acks_app, <- app_assoc. reflexivity.
Qed.

(** X20: a client that sends neither frames nor audio never gets
    feedback and never changes the processor. While every timestamp is a
    number or counts as false (missing, null, 0, empty), each heartbeat is
    answered by one ack with its timestamp, messages of other types by
    nothing, and the connection stays open. The first message with any
    other timestamp, such as a non-empty string, is acknowledged when it is
    a heartbeat and then answered with a TypeError: the connection is
    closed and the rest of the messages are not read. *)
Theorem X20_no_media_stream C g sid ws inbox :
  Forall no_media inbox ->
  let connected :=
    ConnectionManager.connect (active_connections g) sid ws in
  (Forall usable_time inbox ->
   websocket_feedback_stream C g sid ws inbox
   = {| gateway := {| processor := processor g; active_connections := connected |};
        sent := OutConnected sid :: heartbeat_acks inbox;
        locals := Some initial_locals |})
  /\ (forall before m loop_ms rest,
        inbox = before ++ (Message m, loop_ms) :: rest ->
        Forall usable_time before -> ~ timestamp_usable m ->
        websocket_feedback_stream C g sid ws inbox
        = {| gateway := {| processor := processor g;
                           active_connections :=
                             ConnectionManager.disconnect connected sid ws |};
             sent := OutConnected sid
                     :: heartbeat_acks (before ++ [(Message m, loop_ms)])
                     ++ [OutError TypeError];
             locals := None |}).
Proof.
  intros Hall connected. subst connected. unfold websocket_feedback_stream. split.
  - intros Hus.
    pose proof (stream_loop_no_media C inbox
                  {| processor := processor g;
                     active_connections :=
                       ConnectionManager.connect (active_connections g) sid ws |}
                  sid ws initial_locals Hall Hus eq_refl eq_refl []) as E.
    rewrite app_nil_r in E. rewrite E. cbn. rewrite app_nil_r. reflexivity.
  - intros before m loop_ms rest -> Hus Hn.
    apply Forall_app in Hall as [Hb Hrest].
    inversion Hrest as [|item items (m' & Hm & Hf & Hau) _]; subst.
    cbn [fst] in Hm. injection Hm as <-.
    rewrite (stream_loop_no_media C before _ sid ws initial_locals Hb Hus eq_refl eq_refl).
    cbv zeta. cbn [stream_loop].
    destruct (iteration_no_media C
                {| processor := processor g;
                   active_connections :=
                     ConnectionManager.connect (active_connections g) sid ws |}
                sid ws m loop_ms initial_locals Hf Hau eq_refl eq_refl) as [_ Hit].
    rewrite (Hit Hn). cbn [locals gateway sent processor active_connections].
    rewrite heartbeat_acks_app, <- app_assoc. reflexivity.
Qed.

Lemma X20_no_media_stream_witness :
  sent (websocket_feedback_stream Fake.working Fake.gateway1 "s1" 8
          [(Message (Fake.message "heartbeat" 1000 None), 0%Z);
           (Message (Fake.message "ping" 2500 None), 0%Z);
           (Message (Fake.message "heartbeat" 4000 None), 0%Z)])
  = [OutConnected "s1"; OutAck (Some (JNumber 1000)); OutAck (Some (JNumber 4000))]
  /\ sent (websocket_feedback_stream Fake.working Fake.gateway1 "s1" 8
             [(Message (Fake.message "heartbeat" 1000 None), 0%Z);
              (Message late_heartbeat, 0%Z);
              (Message (Fake.message "heartbeat" 4000 None), 0%Z)])
     = [OutConnected "s1"; OutAck (Some (JNumber 1000)); OutAck (Some (JString "late"));
        OutError TypeError].
Proof.
  split.
  - destruct (X20_no_media_stream Fake.working Fake.gateway1 "s1" 8%nat
                [(Message (Fake.message "heartbeat" 1000 None), 0%Z);
                 (Message (Fake.message "ping" 2500 None), 0%Z);
                 (Message (Fake.message "heartbeat" 4000 None), 0%Z)]) as [H _].
    + repeat constructor; eexists; repeat split; reflexivity.
    + rewrite H; [reflexivity|].
      repeat constructor; intros m [= <-]; exact I.
  - destruct (X20_no_media_stream Fake.working Fake.gateway1 "s1" 8%nat
                [(Message (Fake.message "heartbeat" 1000 None), 0%Z);
                 (Message late_heartbeat, 0%Z);
                 (Message (Fake.message "heartbeat" 4000 None), 0%Z)]) as [_ H].
    + repeat constructor; eexists; repeat split; reflexivity.
    + rewrite (H [(Message (Fake.message "heartbeat" 1000 None), 0%Z)] late_heartbeat
                 0%Z [(Message (Fake.message "heartbeat" 4000 None), 0%Z)] eq_refl).
      * reflexivity.
      * repeat constructor; intros m [= <-]; exact I.
      * intros Hu. discriminate Hu.
Defined.

(** ** HTTP status of the audio route *)

(** X21: the audio route answers 404 in two cases that differ only by
    the detail text: the session id is unknown, or the session exists and
    the chunk is not a whole number of 4-byte samples; in both the processor
    is left as it was. *)
Theorem X21_audio_route_404 C p sid ts rate data :
  enable_audio p = true ->
  (sessions p !! sid = None ->
   Routes.process_audio C p sid ts rate data = (p, HttpException 404 (NotFound sid)))
  /\ (is_Some (sessions p !! sid) -> (length data mod 4 <> 0)%nat ->
      Routes.process_audio C p sid ts rate data
      = (p, HttpException 404
              (ValueError "buffer size must be a multiple of element size"))).
Proof.
  intros He. unfold Routes.process_audio, process_audio, frombuffer_float32.
  rewrite He. cbn [negb]. split.
  - intros ->. reflexivity.
  - intros [s ->] Hlen.
    destruct (Nat.eqb_spec (length data mod 4) 0); [contradiction|reflexivity].
Qed.

Lemma X21_audio_route_404_witness :
  Routes.process_audio Fake.working Fake.processor1 "s1" 0 16000
    [Byte.x01; Byte.x02; Byte.x03]
  = (Fake.processor1,
     HttpException 404 (ValueError "buffer size must be a multiple of element size")).
Proof.
  destruct (X21_audio_route_404 Fake.working Fake.processor1 "s1" 0%Z 16000%Z
              [Byte.x01; Byte.x02; Byte.x03] eq_refl) as [_ H].
  apply H; [eexists; reflexivity|discriminate].
Defined.

(** * The analyzers and the scores *)

(** ** Frames without a face or a body, silent chunks *)

(** X22: a frame in which no face is detected scores authenticity 0, not
    the neutral 70, whatever else the frame shows; with no audio metrics a
    frame without a body scores engagement 0, and a frame with neither
    face nor body scores confidence 21 (0.3·0 for eye contact plus 0.3·70
    for the neutral posture). *)
Theorem X22_undetected_frame has_face has_body facial body br co ed a bl :
  let r := VisionAnalyzer.analyze has_face has_body facial body br co ed in
  (has_face = false ->
   authenticity (calculate_scores a (Some (vision_to_dict r)) bl) == 0)
  /\ (has_body = false ->
      engagement (calculate_scores None (Some (vision_to_dict r)) bl) == 0)
  /\ (has_face = false -> has_body = false ->
      confidence (calculate_scores None (Some (vision_to_dict r)) bl) == 21).
Proof.
  intros r. subst r. split; [|split].
  - intros ->. vm_compute. reflexivity.
  - intros ->. vm_compute. reflexivity.
  - intros -> ->. vm_compute. reflexivity.
Qed.

Lemma X22_undetected_frame_witness :
  authenticity
    (calculate_scores None
       (Some (vision_to_dict
                (VisionAnalyzer.analyze false false (vr_facial Fake.vision_result)
                   (vr_body Fake.vision_result) 125 60 0))) None) == 0.
Proof.
  destruct (X22_undetected_frame false false (vr_facial Fake.vision_result)
              (vr_body Fake.vision_result) 125 60 0 None None) as [H _].
  apply H. reflexivity.
Defined.

(** X23: a chunk in which no speech is detected gets speech metrics of
    zero, so its clarity score is 0, not the neutral 70, and neither of the
    two speech suggestions can be made for it. *)
Theorem X23_silent_chunk sample_rate audio_len word_count fillers articulation r v bl sc :
  AudioAnalyzer.analyze_speech sample_rate false audio_len word_count fillers articulation
  = Ok (ar_speech r) ->
  clarity (calculate_scores (Some (audio_to_dict r)) v bl) == 0
  /\ Forall (fun s => category s <> "speech")
       (generate_suggestions (Some (audio_to_dict r)) v sc).
Proof.
  unfold AudioAnalyzer.analyze_speech. cbn [negb]. intros [= Hsp].
  destruct r as [t e sp]. cbn [ar_speech] in Hsp. subst sp. split.
  - vm_compute. reflexivity.
  - unfold generate_suggestions, audio_to_dict, audio_key. cbn.
    repeat rewrite Forall_app. repeat split.
    + destruct (Qltb (confidence sc) 60); constructor.
    + destruct (Qltb (engagement sc) 60); [|constructor].
      destruct (vision_key body v); [|constructor].
      destruct (Qltb _ 50); repeat constructor. discriminate.
    + destruct (Qltb (clarity sc) 60); constructor.
    + destruct (Qltb 70 _); repeat constructor. discriminate.
Qed.

Lemma X23_silent_chunk_witness :
  clarity
    (calculate_scores
       (Some (audio_to_dict
                {| ar_tone := ar_tone Fake.audio_result;
                   ar_emotion := ar_emotion Fake.audio_result;
                   ar_speech := {| sm_filler_words := []; sm_articulation_score := 0;
                                   sm_speaking_rate := 0 |} |}))
       None None) == 0.
Proof.
  apply (proj1 (X23_silent_chunk 16000%Z 800%nat 0%nat [] 0
                  {| ar_tone := ar_tone Fake.audio_result;
                     ar_emotion := ar_emotion Fake.audio_result;
                     ar_speech := {| sm_filler_words := []; sm_articulation_score := 0;
                                     sm_speaking_rate := 0 |} |}
                  None None (Fake.scores_with 50) eq_refl)).
Defined.

(** ** Ranges of what the analyzers report *)

Lemma py_min_le_l a b : Py.min a b <= a.
Proof. unfold Py.min. destruct (Qlt_le_dec b a); lra. Qed.

Lemma analyze_lighting_range br co :
  0 <= VisionAnalyzer.analyze_lighting br co <= 100.
Proof. apply clamp_bounds. Qed.

Lemma analyze_background_range ed :
  0 <= VisionAnalyzer.analyze_background ed <= 100.
Proof. apply clamp_bounds. Qed.

(** X24: the overall polish the vision analyzer reports lies between 30
    and 86.25: positioning is 50 or 75, attire a fixed 70, lighting and
    background within [0, 100]. The professional-presence score is that
    value unclamped, so it never reaches 100. *)
Theorem X24_professional_presence_range has_face has_body facial body br co ed a bl :
  let r := VisionAnalyzer.analyze has_face has_body facial body br co ed in
  30 <= pm_overall_polish (vr_professional r) <= 345 # 4
  /\ professionalPresence (calculate_scores a (Some (vision_to_dict r)) bl)
     == pm_overall_polish (vr_professional r).
Proof.
  intros r.
  assert (Hr : 30 <= pm_overall_polish (vr_professional r) <= 345 # 4).
  { subst r. cbn [VisionAnalyzer.analyze vr_professional pm_overall_polish
                    VisionAnalyzer.analyze_professional_presence].
    pose proof (analyze_lighting_range br co) as Hl.
    pose proof (analyze_background_range ed) as Hb.
    set (x := VisionAnalyzer.analyze_lighting br co) in *.
    set (y := VisionAnalyzer.analyze_background ed) in *.
    assert (E : forall f, (f + x + y + 70) / 4 == (f + x + y + 70) * (1 # 4))
      by (intros; field).
    rewrite E. destruct (has_face && has_body); lra. }
  split; [exact Hr|].
  change (professionalPresence (calculate_scores a (Some (vision_to_dict r)) bl))
    with (clamp (pm_overall_polish (vr_professional r))).
  apply clamp_id. lra.
Qed.

Lemma sum_scores_nonneg (scores : gmap string Q) labels :
  (forall k x, scores !! k = Some x -> 0 <= x) ->
  0 <= AudioAnalyzer.sum_scores scores labels.
Proof.
  intros Hpos. unfold AudioAnalyzer.sum_scores. rewrite py_sum_fold_right.
  induction labels as [|e labels IH]; cbn [map fold_right]; [lra|].
  assert (0 <= get_or (scores !! e) 0).
  { unfold get_or. destruct (scores !! e) as [x|] eqn:Hx; cbn; [eauto|lra]. }
  lra.
Qed.

(** X25: the stress level is at most 100, and at least 0 when the emotion
    scores and the zero-crossing rate are not negative. The acoustic
    markers weigh at most 30 of the 100: a stress level above 70, the
    threshold of the high-stress suggestion, needs the angry, fearful and
    disgust scores to sum to more than 4/7. *)
Theorem X25_stress_level scores zcr flux :
  let stress := AudioAnalyzer.estimate_stress scores zcr flux in
  stress <= 100
  /\ ((forall k x, scores !! k = Some x -> 0 <= x) -> 0 <= zcr -> 0 <= stress)
  /\ (70 < stress ->
      4 # 7 < AudioAnalyzer.sum_scores scores ["angry"; "fearful"; "disgust"]).
Proof.
  intros stress. subst stress. unfold AudioAnalyzer.estimate_stress.
  set (es := AudioAnalyzer.sum_scores scores ["angry"; "fearful"; "disgust"]).
  set (raw := (zcr * 100 + Qabs flux / 10) / 2).
  pose proof (py_min_le_r raw 1) as Hac.
  split; [apply py_min_le_r|]. split.
  - intros Hpos Hz.
    pose proof (sum_scores_nonneg scores ["angry"; "fearful"; "disgust"] Hpos) as Hes.
    fold es in Hes.
    assert (Hraw : 0 <= raw).
    { subst raw. pose proof (Qabs_nonneg flux).
      assert (E : (zcr * 100 + Qabs flux / 10) / 2
                  == (zcr * 100 + Qabs flux * (1 # 10)) * (1 # 2)) by field.
      rewrite E. lra. }
    assert (0 <= Py.min raw 1) by (unfold Py.min; destruct (Qlt_le_dec 1 raw); lra).
    unfold Py.min at 1. destruct (Qlt_le_dec 100 _); lra.
  - intros Hst.
    pose proof (py_min_le_l ((es * (7 # 10) + Py.min raw 1 * (3 # 10)) * 100) 100).
    lra.
Qed.

Lemma X25_stress_level_witness :
  0 <= AudioAnalyzer.estimate_stress ∅ (1 # 20) 3.
Proof.
  destruct (X25_stress_level ∅ (1 # 20) 3) as (_ & H & _).
  apply H; [|lra]. intros k x Hk. rewrite lookup_empty in Hk. discriminate.
Defined.

Lemma divide_positive a b : 0 < b -> AudioAnalyzer.divide a b = Ok (a / b).
Proof.
  intros Hb. unfold AudioAnalyzer.divide.
  destruct (Qeq_bool b 0) eqn:E; [|reflexivity].
  apply Qeq_bool_eq in E. lra.
Qed.

(** X26: on emotion scores that are not negative the arousal and valence
    estimates never divide by zero; arousal lies in [0, 1) and valence
    strictly between −1 and 1. *)
Theorem X26_arousal_valence scores :
  (forall k x, scores !! k = Some x -> 0 <= x) ->
  (exists a, AudioAnalyzer.estimate_arousal scores = Ok a /\ 0 <= a < 1)
  /\ (exists v, AudioAnalyzer.estimate_valence scores = Ok v /\ -1 < v < 1).
Proof.
  intros Hpos. split.
  - unfold AudioAnalyzer.estimate_arousal.
    pose proof (sum_scores_nonneg scores ["angry"; "fearful"; "surprised"; "happy"] Hpos).
    pose proof (sum_scores_nonneg scores ["calm"; "sad"; "neutral"] Hpos).
    set (h := AudioAnalyzer.sum_scores scores _) in *.
    set (l := AudioAnalyzer.sum_scores scores ["calm"; "sad"; "neutral"]) in *.
    assert (Hd : 0 < h + l + (1 # 1000000)) by lra.
    rewrite divide_positive by exact Hd. eexists. split; [reflexivity|]. split.
    + apply Qle_shift_div_l; [exact Hd|]. lra.
    + apply Qlt_shift_div_r; [exact Hd|]. lra.
  - unfold AudioAnalyzer.estimate_valence.
    pose proof (sum_scores_nonneg scores ["happy"; "calm"; "surprised"] Hpos).
    pose proof (sum_scores_nonneg scores ["angry"; "sad"; "fearful"; "disgust"] Hpos).
    set (ps := AudioAnalyzer.sum_scores scores _) in *.
    set (ng := AudioAnalyzer.sum_scores scores ["angry"; "sad"; "fearful"; "disgust"]) in *.
    assert (Hd : 0 < ps + ng + (1 # 1000000)) by lra.
    rewrite divide_positive by exact Hd. eexists. split; [reflexivity|]. split.
    + apply Qlt_shift_div_l; [exact Hd|]. lra.
    + apply Qlt_shift_div_r; [exact Hd|]. lra.
Qed.

Lemma X26_arousal_valence_witness :
  exists a, AudioAnalyzer.estimate_arousal ∅ = Ok a /\ 0 <= a < 1.
Proof.
  apply (proj1 (X26_arousal_valence ∅
                  (fun k x Hk => ltac:(rewrite lookup_empty in Hk; discriminate)))).
Defined.

Lemma clamp01_range x : 0 <= VisionAnalyzer.clamp01 x <= 1.
Proof.
  unfold VisionAnalyzer.clamp01, Py.max, Py.min.
  destruct (Qlt_le_dec x 1); destruct (Qlt_le_dec 0 _); lra.
Qed.

(** The action units the detector reports: no AU6, and an AU12 in [0, 1]. *)
Lemma detect_action_units_keys landmarks aus :
  VisionAnalyzer.detect_action_units landmarks = Some aus ->
  aus !! "AU6" = None /\ exists lp, aus !! "AU12" = Some lp /\ 0 <= lp <= 1.
Proof.
  unfold VisionAnalyzer.detect_action_units. intros H.
  repeat match type of H with
         | (mbind _ ?o) = Some _ => destruct o eqn:?; cbn [mbind option_bind] in H;
                                    [|discriminate]
         | (?o ≫= _) = Some _ => destruct o eqn:?; cbn [mbind option_bind] in H;
                                 [|discriminate]
         end.
  injection H as <-. split.
  - repeat (rewrite lookup_insert_ne by discriminate). apply lookup_empty.
  - eexists. split.
    + repeat (rewrite lookup_insert_ne by discriminate). apply lookup_insert_eq.
    + apply clamp01_range.
Qed.

(** X27: the smile genuineness computed from the detected action units is
    0 or lies in (0.5, 0.75]: the detector never reports a cheek raiser
    (AU6), so the fixed 0.5 stands in for it. The authenticity score of a
    detected face is that value times 100: 0, or above 50 and at most 75. *)
Theorem X27_smile_genuineness landmarks aus :
  VisionAnalyzer.detect_action_units landmarks = Some aus ->
  let g := VisionAnalyzer.calculate_duchenne_smile aus in
  (g == 0 \/ (1 # 2 < g /\ g <= 3 # 4))
  /\ forall a v f bl,
       facial v = Some f -> smile_genuineness f = Some g ->
       authenticity (calculate_scores a (Some v) bl) == g * 100.
Proof.
  intros H g. destruct (detect_action_units_keys landmarks aus H) as (H6 & lp & H12 & Hlp).
  assert (Hg : g == 0 \/ (1 # 2 < g /\ g <= 3 # 4)).
  { subst g. unfold VisionAnalyzer.calculate_duchenne_smile. rewrite H6, H12.
    change (get_or (Some lp) 0) with lp. change (get_or None (1 # 2)) with (1 # 2).
    destruct (Qltb (1 # 2) lp) eqn:E.
    - right. apply Qltb_true in E.
      assert (E2 : (lp + (1 # 2)) / 2 == (lp + (1 # 2)) * (1 # 2)) by field.
      unfold Py.min. destruct (Qlt_le_dec 1 _); lra.
    - left. vm_compute. reflexivity. }
  split; [exact Hg|]. intros a v f bl Hf Hs.
  assert (E : authenticity (calculate_scores a (Some v) bl) = clamp (g * 100)).
  { unfold calculate_scores, vision_key. cbn. rewrite Hf. cbn. rewrite Hs. reflexivity. }
  rewrite E. apply clamp_id. destruct Hg as [Hg|Hg]; [rewrite Hg|]; lra.
Qed.

Lemma X27_smile_genuineness_witness :
  exists aus,
    VisionAnalyzer.detect_action_units sample_face = Some aus
    /\ (VisionAnalyzer.calculate_duchenne_smile aus == 0
        \/ (1 # 2 < VisionAnalyzer.calculate_duchenne_smile aus
            /\ VisionAnalyzer.calculate_duchenne_smile aus <= 3 # 4)).
Proof.
  eexists. split; [vm_compute; reflexivity|].
  eapply (proj1 (X27_smile_genuineness sample_face _ _)).
  Unshelve. vm_compute. reflexivity.
Defined.

(** X28: the posture the classifier returns is "open", "closed" or
    "neutral", worth 90, 50 and 70 in the confidence score, and the energy
    level it estimates lies in [0, 100]. *)
Theorem X28_body_metrics landmarks :
  (forall p c, VisionAnalyzer.classify_posture landmarks = Some (p, c) ->
     (p = "open" /\ posture_score p = 90 /\ c = 8 # 10)
     \/ (p = "closed" /\ posture_score p = 50 /\ c = 8 # 10)
     \/ (p = "neutral" /\ posture_score p = 70 /\ c = 6 # 10))
  /\ (forall e, VisionAnalyzer.estimate_energy_level landmarks = Some e -> 0 <= e <= 100).
Proof.
  split.
  - intros p c. unfold VisionAnalyzer.classify_posture.
    destruct (VisionAnalyzer.pose_x landmarks 11) as [sl|]; [|discriminate].
    destruct (VisionAnalyzer.pose_x landmarks 12) as [sr|]; [|discriminate].
    destruct (VisionAnalyzer.pose_x landmarks 23) as [hl|]; [|discriminate].
    destruct (VisionAnalyzer.pose_x landmarks 24) as [hr|]; [|discriminate].
    cbn [mbind option_bind].
    destruct (Qltb _ _); [intros [= <- <-]; left; repeat split|].
    destruct (Qltb _ _); intros [= <- <-]; right; [left|right]; repeat split.
  - intros e. unfold VisionAnalyzer.estimate_energy_level.
    destruct (VisionAnalyzer.pose_y landmarks 11) as [sl|]; [|discriminate].
    destruct (VisionAnalyzer.pose_y landmarks 12) as [sr|]; [|discriminate].
    destruct (VisionAnalyzer.pose_y landmarks 23) as [hl|]; [|discriminate].
    destruct (VisionAnalyzer.pose_y landmarks 24) as [hr|]; [|discriminate].
    cbn [mbind option_bind]. intros He.
    assert (Hx : e = Py.min (Qabs ((sl + sr) / 2 - (hl + hr) / 2) / 2) 100)
      by congruence.
    rewrite Hx. clear He Hx.
    pose proof (Qabs_nonneg ((sl + sr) / 2 - (hl + hr) / 2)) as Hu.
    set (u := Qabs ((sl + sr) / 2 - (hl + hr) / 2)) in *. clearbody u.
    assert (E : u / 2 == u * (1 # 2)) by field.
    unfold Py.min. destruct (Qlt_le_dec 100 (u / 2)) as [q|q]; [lra|].
    rewrite E in q |- *. lra.
Qed.

Lemma X28_body_metrics_witness :
  VisionAnalyzer.classify_posture sample_pose = Some ("neutral", 6 # 10)
  /\ posture_score "neutral" = 70.
Proof.
  split; [reflexivity|].
  destruct (proj1 (X28_body_metrics sample_pose) "neutral" (6 # 10) eq_refl)
    as [(H & _)|[(H & _)|(_ & H & _)]]; [discriminate|discriminate|exact H].
Defined.

(** X29: the eye-contact score lies in [0, 100]; it falls linearly with
    the horizontal gaze, 100·(1 − |gaze|), and is 0 once the gaze is 1 or
    more off centre. *)
Theorem X29_eye_contact landmarks score gaze :
  VisionAnalyzer.analyze_eye_contact landmarks = Some (score, gaze) ->
  0 <= score <= 100
  /\ (Qabs gaze <= 1 -> score == 100 * (1 - Qabs gaze))
  /\ (1 <= Qabs gaze -> score == 0).
Proof.
  unfold VisionAnalyzer.analyze_eye_contact. intros H.
  repeat match type of H with
         | (?o ≫= _) = Some _ => destruct o eqn:?; cbn [mbind option_bind] in H;
                                 [|discriminate]
         end.
  pose proof (f_equal (fun o => fst <$> o) H) as H1.
  pose proof (f_equal (fun o => snd <$> o) H) as H2.
  cbn [fmap option_fmap option_map fst snd] in H1, H2.
  apply (inj Some) in H1, H2. clear H. subst gaze. subst score.
  set (gz := ((_ - _) / 20 + (_ - _) / 20) / 2).
  pose proof (Qabs_nonneg gz) as Hn. set (ag := Qabs gz) in *. clearbody ag.
  unfold Py.min. destruct (Qlt_le_dec 1 ag); repeat split; intros; lra.
Qed.

Lemma X29_eye_contact_witness :
  exists score gaze,
    VisionAnalyzer.analyze_eye_contact sample_face = Some (score, gaze)
    /\ 0 <= score <= 100.
Proof.
  pose proof (X29_eye_contact sample_face) as H.
  destruct (VisionAnalyzer.analyze_eye_contact sample_face) as [[score gaze]|] eqn:E.
  - exists score, gaze. split; [reflexivity|]. apply (H score gaze eq_refl).
  - vm_compute in E. discriminate.
Defined.

(** ** Pauses *)

Section PauseFacts.

Variable to_ms : nat -> Z.

Lemma pauses_loop_silence n : forall i in_pause pause_start pauses,
  AudioAnalyzer.pauses_loop to_ms (replicate n true) i in_pause pause_start pauses
  = pauses.
Proof.
  induction n as [|n IH]; intros i in_pause pause_start pauses; [reflexivity|].
  cbn [replicate AudioAnalyzer.pauses_loop andb negb].
  destruct in_pause; cbn [negb andb]; apply IH.
Qed.

Lemma pauses_loop_trailing l n : forall i in_pause pause_start pauses,
  AudioAnalyzer.pauses_loop to_ms (l ++ replicate n true) i in_pause pause_start pauses
  = AudioAnalyzer.pauses_loop to_ms l i in_pause pause_start pauses.
Proof.
  induction l as [|silent l IH]; intros i in_pause pause_start pauses.
  - apply pauses_loop_silence.
  - cbn [app AudioAnalyzer.pauses_loop].
    destruct (silent && negb in_pause); [apply IH|].
    destruct (negb silent && in_pause); [|apply IH].
    destruct (8 <? i - pause_start)%nat; apply IH.
Qed.

Lemma pauses_loop_sound n : forall i pause_start pauses,
  AudioAnalyzer.pauses_loop to_ms (replicate n false) i false pause_start pauses
  = pauses.
Proof.
  induction n as [|n IH]; intros i pause_start pauses; [reflexivity|].
  cbn [replicate AudioAnalyzer.pauses_loop andb negb]. apply IH.
Qed.

Lemma pauses_loop_recorded l : forall i in_pause pause_start pauses,
  Forall (recorded_pause to_ms) pauses ->
  Forall (recorded_pause to_ms)
    (AudioAnalyzer.pauses_loop to_ms l i in_pause pause_start pauses).
Proof.
  induction l as [|silent l IH]; intros i in_pause pause_start pauses Hp; [exact Hp|].
  cbn [AudioAnalyzer.pauses_loop].
  destruct (silent && negb in_pause); [apply IH; exact Hp|].
  destruct (negb silent && in_pause); [|apply IH; exact Hp].
  destruct (Nat.ltb_spec 8 (i - pause_start)) as [Hlt|_]; [|apply IH; exact Hp].
  apply IH. apply Forall_app. split; [exact Hp|].
  constructor; [|constructor].
  exists pause_start, (i - pause_start)%nat. repeat split. exact Hlt.
Qed.

(** A pause takes its silent frames, more than 8, and the frame at which
    sound resumes. *)
Lemma pauses_loop_count l : forall i in_pause pause_start pauses,
  (pause_start <= i)%nat ->
  (10 * length (AudioAnalyzer.pauses_loop to_ms l i in_pause pause_start pauses)
   <= 10 * length pauses + (if in_pause then i - pause_start else 0) + length l)%nat.
Proof.
  induction l as [|silent l IH]; intros i in_pause pause_start pauses Hle.
  - cbn. lia.
  - cbn [AudioAnalyzer.pauses_loop length].
    destruct silent, in_pause; cbn [andb negb].
    + specialize (IH (S i) true pause_start pauses). cbn iota in IH. lia.
    + specialize (IH (S i) true i pauses). cbn iota in IH. lia.
    + destruct (Nat.ltb_spec 8 (i - pause_start)) as [Hlt|Hge].
      * specialize (IH (S i) false pause_start
                      (pauses ++ [{| AudioAnalyzer.pause_start_ms := to_ms pause_start;
                                     AudioAnalyzer.pause_duration_ms :=
                                       to_ms (i - pause_start);
                                     AudioAnalyzer.pause_type :=
                                       if (500 <? to_ms (i - pause_start))%Z
                                       then "strategic" else "hesitation" |}])).
        cbn iota in IH. rewrite length_app in IH. cbn [length] in IH. lia.
      * specialize (IH (S i) false pause_start pauses). cbn iota in IH. lia.
    + specialize (IH (S i) false pause_start pauses). cbn iota in IH. lia.
Qed.

End PauseFacts.

Lemma sum_constant c rms :
  Forall (fun energy => energy == c) rms ->
  Py.sum rms == c * inject_Z (Z.of_nat (length rms)).
Proof.
  intros H. rewrite py_sum_fold_right.
  induction H as [|x l Hx _ IH]; [cbn; ring|].
  cbn [fold_right length]. rewrite IH, Hx, Nat2Z.inj_succ. unfold Z.succ.
  rewrite inject_Z_plus. change (inject_Z 1) with 1. ring.
Qed.

Lemma is_silent_constant c rms :
  0 <= c -> Forall (fun energy => energy == c) rms ->
  AudioAnalyzer.is_silent rms = replicate (length rms) false.
Proof.
  intros Hc H. unfold AudioAnalyzer.is_silent.
  assert (Ht : AudioAnalyzer.silence_threshold rms <= c).
  { unfold AudioAnalyzer.silence_threshold. rewrite (sum_constant c rms H).
    destruct rms as [|x l].
    - cbn [length Z.of_nat]. change (inject_Z 0) with 0.
      assert (E : c * 0 / 0 * (3 # 10) == 0)
        by (unfold Qdiv; change (/ 0) with 0; ring).
      rewrite E. exact Hc.
    - set (n := inject_Z (Z.of_nat (length (x :: l)))).
      assert (Hn : ~ n == 0).
      { unfold n. cbn [length]. rewrite Nat2Z.inj_succ. unfold Z.succ.
        rewrite inject_Z_plus. change (inject_Z 1) with 1.
        pose proof (Nat2Z.is_nonneg (length l)) as Hl.
        assert (0 <= inject_Z (Z.of_nat (length l)))
          by (change 0 with (inject_Z 0); rewrite <- Zle_Qle; exact Hl).
        lra. }
      assert (E : c * n / n * (3 # 10) == c * (3 # 10)) by (field; exact Hn).
      rewrite E. lra. }
  generalize dependent (AudioAnalyzer.silence_threshold rms). intros t Ht.
  induction H as [|x l Hx _ IH]; [reflexivity|].
  cbn [map length replicate]. rewrite IH. f_equal.
  apply Qltb_false. rewrite Hx. exact Ht.
Qed.

(** X30: pauses are found among the frames whose energy is below 0.3
    times the mean energy of the whole audio. Every pause that is recorded
    lasted more than 8 frames, and there is at most one pause for every 10
    frames. A pause is recorded only when sound resumes: silence that runs
    to the end of the audio is never reported, the pauses are those found in
    the frames before it. Audio of one constant level, digital silence
    included, has no pause. *)
Theorem X30_trailing_silence to_ms rms :
  Forall (recorded_pause to_ms) (AudioAnalyzer.detect_pauses to_ms rms).2
  /\ (10 * (AudioAnalyzer.detect_pauses to_ms rms).1 <= length rms)%nat
  /\ (forall head tail,
        rms = head ++ tail ->
        Forall (fun energy => energy < AudioAnalyzer.silence_threshold rms) tail ->
        (AudioAnalyzer.detect_pauses to_ms rms).2
        = AudioAnalyzer.pauses_loop to_ms
            (map (fun energy => Qltb energy (AudioAnalyzer.silence_threshold rms)) head)
            0 false 0 [])
  /\ (forall c, 0 <= c -> Forall (fun energy => energy == c) rms ->
        AudioAnalyzer.detect_pauses to_ms rms = (0%nat, [])).
Proof.
  unfold AudioAnalyzer.detect_pauses. cbn [fst snd].
  split; [apply pauses_loop_recorded; constructor|]. split; [|split].
  - pose proof (pauses_loop_count to_ms (AudioAnalyzer.is_silent rms) 0 false 0 []
                  (Nat.le_refl 0)) as H.
    unfold AudioAnalyzer.is_silent in H at 2. rewrite length_map in H.
    cbn [length] in H. lia.
  - intros head tail Hrms Htail. unfold AudioAnalyzer.is_silent.
    generalize dependent (AudioAnalyzer.silence_threshold rms). intros t Htail.
    subst rms. rewrite map_app.
    assert (E : map (fun energy => Qltb energy t) tail = replicate (length tail) true).
    { induction Htail as [|x l Hx _ IH]; [reflexivity|].
      cbn [map length replicate]. rewrite IH. f_equal. apply Qltb_true. exact Hx. }
    rewrite E. apply pauses_loop_trailing.
  - intros c Hc H. rewrite (is_silent_constant c rms Hc H), pauses_loop_sound.
    reflexivity.
Qed.

Lemma X30_trailing_silence_witness :
  AudioAnalyzer.detect_pauses frames_to_ms recording
  = (1%nat, [{| AudioAnalyzer.pause_start_ms := 25;
                AudioAnalyzer.pause_duration_ms := 225;
                AudioAnalyzer.pause_type := "hesitation" |}])
  /\ (AudioAnalyzer.detect_pauses frames_to_ms recording).2
     = AudioAnalyzer.pauses_loop frames_to_ms
         (map (fun energy => Qltb energy (AudioAnalyzer.silence_threshold recording))
            (take 11 recording))
         0 false 0 []
  /\ AudioAnalyzer.detect_pauses frames_to_ms (replicate 40 0) = (0%nat, []).
Proof.
  split; [vm_compute; reflexivity|]. split.
  - destruct (X30_trailing_silence frames_to_ms recording) as (_ & _ & H & _).
    apply (H (take 11 recording) (drop 11 recording)); [reflexivity|].
    repeat constructor.
  - destruct (X30_trailing_silence frames_to_ms (replicate 40 0)) as (_ & _ & _ & H).
    apply (H 0); [discriminate|]. repeat constructor.
Defined.
